(** * pve-switch: the VM switch controller of [pve_switch/__init__.py]

    A shallow embedding of [VMController] (lock store, status reader,
    shutdown waiter and the [perform_switch] orchestrator) and the
    properties of it that the specification states.

    The controller talks to three collaborators: the Proxmox API
    (proxmoxer), the Telegram bot (aiogram) and the file system.  Every
    method is embedded as a program of the free monad [Prog] over the
    calls the Python code makes; [exec] runs a program against an
    environment [Env] that answers each call from the history of the
    run, and records every call in a trace. *)

From stdpp Require Import base strings gmap list.
From Stdlib Require Import ZArith Lia DecimalString.

Local Open Scope string_scope.
Local Open Scope list_scope.
Local Open Scope Z_scope.

(** ** Python values used by the controller *)

(** Exceptions.  The code distinguishes three families in its [except]
    clauses: proxmoxer's [ResourceException], aiogram's
    [TelegramBadRequest], and every other subclass of [Exception]
    (connection errors, [OSError], ...).  [exn_str] is [str(e)]. *)
Inductive exn_class : Type :=
| ResourceException
| TelegramBadRequest
| OtherException.

Record exn : Type := Exn { exn_cls : exn_class; exn_str : string }.

Definition is_ResourceException (e : exn) : bool :=
  match exn_cls e with ResourceException => true | _ => false end.

Definition is_TelegramBadRequest (e : exn) : bool :=
  match exn_cls e with TelegramBadRequest => true | _ => false end.

(** The text of a file as [f.read()] returns it: a sequence of code
    points. *)
Abbreviation text := (list N).

Definition codepoints (s : string) : text :=
  map Ascii.N_of_ascii (String.list_ascii_of_string s).

(** [str.isspace] for one character (CPython's [_PyUnicode_IsWhitespace]). *)
Definition isspace (c : N) : bool :=
  ((9 <=? c) && (c <=? 13) || (28 <=? c) && (c <=? 32)
   || (c =? 133) || (c =? 160) || (c =? 5760)
   || (8192 <=? c) && (c <=? 8202)
   || (c =? 8232) || (c =? 8233) || (c =? 8239) || (c =? 8287)
   || (c =? 12288))%N.

Fixpoint lstrip (t : text) : text :=
  match t with
  | c :: t' => if isspace c then lstrip t' else t
  | [] => []
  end.

Definition rstrip (t : text) : text := rev (lstrip (rev t)).

(** [str.strip()] *)
Definition strip (t : text) : text := rstrip (lstrip t).

Definition text_eqb (a b : text) : bool := bool_decide (a = b).

(** [str(n)] for an [int] *)
Definition str_of_int (z : Z) : string := NilZero.string_of_int (Z.to_int z).

(** [str(b)] for a [bool] *)
Definition str_of_bool (b : bool) : string := if b then "True" else "False".

Arguments codepoints : simpl never.
Arguments strip : simpl never.
Arguments text_eqb : simpl never.
Arguments str_of_int : simpl never.

Definition LF : string := String (Ascii.ascii_of_nat 10) EmptyString.

(** The values the status dictionary and the JSON layer can hold. *)
Inductive pyvalue : Type :=
| PyStr (s : string)
| PyBool (b : bool).

(** ** Configuration *)

Record Config : Type := {
  proxmox_host : string;
  proxmox_user : string;
  proxmox_token_name : string;
  proxmox_token_value : string;
  proxmox_node : string;
  vm_id_linux : Z;
  vm_id_win : Z;
  bot_token : string;
  bot_chat_id : Z;
  lock_file_path : string
}.

(** ** Calls, events and the environment *)

Inductive log_level : Type := INFO | WARNING | ERROR.

(** [status.shutdown.post()], [status.stop.post()], [status.start.post()] *)
Inductive power_action : Type := shutdown | stop | start.

(** The aiogram [Message] returned by [send_message]; only its id is used. *)
Record Message : Type := { message_id : Z }.

Inductive file_mode : Type := mode_r | mode_w.

Inductive fs_op : Type :=
| FsOpen (path : string) (mode : file_mode)
| FsRead (path : string)
| FsWrite (path : string) (content : text).

(** What a run leaves behind: every call to a collaborator with the
    answer it got, every log record and every sleep. *)
Inductive Event : Type :=
| EStatusGet (node : string) (vmid : Z) (r : exn + option string)
| EPost (a : power_action) (node : string) (vmid : Z) (r : exn + unit)
| ESendMessage (chat_id : Z) (txt : string) (r : exn + Message)
| EEditMessageText (txt : string) (chat_id msg_id : Z) (r : exn + unit)
| ESleep (seconds : Z)
| ELog (lvl : log_level) (msg : string)
| EFile (op : fs_op) (fault : option exn).

(** The environment answers each call from the history so far.
    [pve_status] is the ["status"] entry of the dictionary that
    [status.current.get()] returns ([None] when the key is missing);
    [fs_fault] says whether a file operation raises. *)
Record Env : Type := {
  pve_status : list Event -> string -> Z -> exn + option string;
  pve_post : list Event -> power_action -> string -> Z -> exn + unit;
  bot_send : list Event -> Z -> string -> exn + Message;
  bot_edit : list Event -> string -> Z -> Z -> exn + unit;
  fs_fault : list Event -> fs_op -> option exn
}.

(** The controller object ([_manual_lock], [_op_lock]), the disk and the
    trace.  [disk] maps a path to the text a read returns. *)
Record State : Type := {
  _manual_lock : bool;
  _op_lock : bool;
  disk : gmap string text;
  trace : list Event
}.

Definition set_manual (b : bool) (s : State) : State :=
  {| _manual_lock := b; _op_lock := _op_lock s; disk := disk s; trace := trace s |}.

Definition set_op (b : bool) (s : State) : State :=
  {| _manual_lock := _manual_lock s; _op_lock := b; disk := disk s; trace := trace s |}.

Definition set_disk (d : gmap string text) (s : State) : State :=
  {| _manual_lock := _manual_lock s; _op_lock := _op_lock s; disk := d; trace := trace s |}.

Definition emit (e : Event) (s : State) : State :=
  {| _manual_lock := _manual_lock s; _op_lock := _op_lock s; disk := disk s;
     trace := trace s ++ [e] |}.

Inductive Call : Type -> Type :=
| GetManualLock : Call bool
| SetManualLock (b : bool) : Call unit
| OpLockLocked : Call bool
| OpLockAcquire : Call unit
| OpLockRelease : Call unit
| StatusCurrentGet (node : string) (vmid : Z) : Call (option string)
| StatusPost (a : power_action) (node : string) (vmid : Z) : Call unit
| SendMessage (chat_id : Z) (txt : string) : Call Message
| EditMessageText (txt : string) (chat_id msg_id : Z) : Call unit
| Sleep (seconds : Z) : Call unit
| Log (lvl : log_level) (msg : string) : Call unit
| PathExists (path : string) : Call bool
| FileOpen (path : string) (mode : file_mode) : Call unit
| FileRead (path : string) : Call text
| FileWrite (path : string) (content : text) : Call unit.

(** ** Programs *)

Inductive Prog (R : Type) : Type :=
| Ret (r : R)
| Raise (e : exn)
| Vis {A : Type} (c : Call A) (k : exn + A -> Prog R).

Arguments Ret {R} r.
Arguments Raise {R} e.
Arguments Vis {R A} c k.

Fixpoint bind {A B : Type} (p : Prog A) (f : A -> Prog B) : Prog B :=
  match p with
  | Ret a => f a
  | Raise e => Raise e
  | Vis c k => Vis c (fun r => bind (k r) f)
  end.

#[global] Instance Prog_ret : MRet Prog := @Ret.
#[global] Instance Prog_bind : MBind Prog := fun A B f p => bind p f.

(** A call that raises when the collaborator does. *)
Definition call {A : Type} (c : Call A) : Prog A :=
  Vis c (fun r => match r with inl e => Raise e | inr a => Ret a end).

(** [try: p  except Exception as e: h e] *)
Fixpoint try_except {R : Type} (p : Prog R) (h : exn -> Prog R) : Prog R :=
  match p with
  | Ret r => Ret r
  | Raise e => h e
  | Vis c k => Vis c (fun r => try_except (k r) h)
  end.

(** [async with self._op_lock: body]: acquire, run the body, release on
    every way out. *)
Fixpoint finally {R : Type} (p : Prog R) (q : Prog unit) : Prog R :=
  match p with
  | Ret r => q ;; Ret r
  | Raise e => q ;; Raise e
  | Vis c k => Vis c (fun r => finally (k r) q)
  end.

Definition async_with_op_lock {R : Type} (body : Prog R) : Prog R :=
  call OpLockAcquire ;; finally body (call OpLockRelease).

Definition logger (lvl : log_level) (msg : string) : Prog unit := call (Log lvl msg).

(** ** Running a program *)

Inductive Outcome (R : Type) : Type :=
| Returned (r : R)
| Raised (e : exn)
| Blocked.

Arguments Returned {R} r.
Arguments Raised {R} e.
Arguments Blocked {R}.

Definition FileNotFoundError (path : string) : exn :=
  Exn OtherException ("[Errno 2] No such file or directory: '" +:+ path +:+ "'").

Definition RuntimeError (msg : string) : exn := Exn OtherException msg.

Definition fault_or {A : Type} (f : option exn) (a : A) : exn + A :=
  match f with Some e => inl e | None => inr a end.

(** One call: the answer and the state after it.  [None] is a call that
    cannot proceed (acquiring a lock that is held). *)
Definition perform {A : Type} (env : Env) (c : Call A) (s : State)
  : option ((exn + A) * State) :=
  match c in Call T return option ((exn + T) * State) with
  | GetManualLock => Some (inr (_manual_lock s), s)
  | SetManualLock b => Some (inr tt, set_manual b s)
  | OpLockLocked => Some (inr (_op_lock s), s)
  | OpLockAcquire =>
      if _op_lock s then None else Some (inr tt, set_op true s)
  | OpLockRelease =>
      if _op_lock s then Some (inr tt, set_op false s)
      else Some (inl (RuntimeError "Lock is not acquired."), s)
  | StatusCurrentGet node vmid =>
      let r := pve_status env (trace s) node vmid in
      Some (r, emit (EStatusGet node vmid r) s)
  | StatusPost a node vmid =>
      let r := pve_post env (trace s) a node vmid in
      Some (r, emit (EPost a node vmid r) s)
  | SendMessage chat txt =>
      let r := bot_send env (trace s) chat txt in
      Some (r, emit (ESendMessage chat txt r) s)
  | EditMessageText txt chat mid =>
      let r := bot_edit env (trace s) txt chat mid in
      Some (r, emit (EEditMessageText txt chat mid r) s)
  | Sleep n => Some (inr tt, emit (ESleep n) s)
  | Log lvl msg => Some (inr tt, emit (ELog lvl msg) s)
  | PathExists path => Some (inr (bool_decide (is_Some (disk s !! path))), s)
  | FileOpen path mode =>
      let op := FsOpen path mode in
      match mode, disk s !! path with
      | mode_r, None =>
          let e := FileNotFoundError path in
          Some (inl e, emit (EFile op (Some e)) s)
      | mode_r, Some _ =>
          let f := fs_fault env (trace s) op in
          Some (fault_or f tt, emit (EFile op f) s)
      | mode_w, _ =>
          let f := fs_fault env (trace s) op in
          Some (fault_or f tt,
                emit (EFile op f)
                  (match f with
                   | Some _ => s
                   | None => set_disk (<[path := []]> (disk s)) s
                   end))
      end
  | FileRead path =>
      let op := FsRead path in
      let f := fs_fault env (trace s) op in
      Some (fault_or f (default [] (disk s !! path)), emit (EFile op f) s)
  | FileWrite path content =>
      let op := FsWrite path content in
      let f := fs_fault env (trace s) op in
      Some (fault_or f tt,
            emit (EFile op f)
              (match f with
               | Some _ => s
               | None => set_disk (<[path := content]> (disk s)) s
               end))
  end.

Fixpoint exec {R : Type} (env : Env) (p : Prog R) (s : State) : Outcome R * State :=
  match p with
  | Ret r => (Returned r, s)
  | Raise e => (Raised e, s)
  | Vis c k =>
      match perform env c s with
      | Some (r, s') => exec env (k r) s'
      | None => (Blocked, s)
      end
  end.

(** [try: p  except C as e: h e] for the exceptions [catches] accepts;
    the others propagate. *)
Fixpoint try_except_on {R : Type} (catches : exn -> bool) (p : Prog R)
    (h : exn -> Prog R) : Prog R :=
  match p with
  | Ret r => Ret r
  | Raise e => if catches e then h e else Raise e
  | Vis c k => Vis c (fun r => try_except_on catches (k r) h)
  end.

(** ** VMController: lock store *)

(** [self._manual_lock] of a controller that is being constructed: the
    memory of the process is new, the disk is the one left behind. *)
Definition boot (d : gmap string text) (tr : list Event) : State :=
  {| _manual_lock := false; _op_lock := false; disk := d; trace := tr |}.

Definition _load_lock_state (cfg : Config) : Prog bool :=
  ex ← call (PathExists (lock_file_path cfg));
  if (ex : bool) then
    r ← try_except
          (call (FileOpen (lock_file_path cfg) mode_r);;
           raw ← call (FileRead (lock_file_path cfg));
           let content := strip raw in
           let is_locked := text_eqb content (codepoints "LOCKED") in
           (if is_locked
            then logger INFO ("Restored LOCKED state from " +:+ lock_file_path cfg)
            else mret tt);;
           mret (Some is_locked))
          (fun e =>
             logger ERROR ("Failed to load lock state: " +:+ exn_str e);;
             mret None);
    match r with
    | Some is_locked => mret is_locked
    | None => mret false
    end
  else mret false.

(** The part of [__init__] that concerns the controller's own state:
    [_op_lock] is a new lock ([boot]), [_manual_lock] is loaded. *)
Definition __init__ (cfg : Config) : Prog unit :=
  b ← _load_lock_state cfg;
  call (SetManualLock b).

Definition is_locked : Prog bool := call GetManualLock.

Definition set_lock (cfg : Config) (locked : bool) : Prog unit :=
  call (SetManualLock locked);;
  try_except
    (call (FileOpen (lock_file_path cfg) mode_w);;
     call (FileWrite (lock_file_path cfg)
             (codepoints (if locked then "LOCKED" else "UNLOCKED"))))
    (fun e => logger ERROR ("Failed to save lock state: " +:+ exn_str e)).

(** ** VMController: status reader and shutdown waiter *)

Definition get_vm_status (cfg : Config) (vmid : Z) : Prog string :=
  try_except
    (status_data ← call (StatusCurrentGet (proxmox_node cfg) vmid);
     mret (default "unknown" status_data))
    (fun e =>
       logger ERROR
         ("Failed to get status for VM " +:+ str_of_int vmid +:+ ": " +:+ exn_str e);;
       mret "error").

Definition get_full_status (cfg : Config) : Prog (gmap string pyvalue) :=
  linux ← get_vm_status cfg (vm_id_linux cfg);
  windows ← get_vm_status cfg (vm_id_win cfg);
  locked ← is_locked;
  mret (<["locked" := PyStr (str_of_bool locked)]>
          (<["windows" := PyStr windows]>
             (<["linux" := PyStr linux]> ∅))).

(** [for _ in range(n)]: poll, stop at ["stopped"], else sleep a second. *)
Fixpoint wait_loop (cfg : Config) (vmid : Z) (n : nat) : Prog bool :=
  match n with
  | O => mret false
  | S n' =>
      st ← get_vm_status cfg vmid;
      if String.eqb st "stopped" then mret true
      else call (Sleep 1);; wait_loop cfg vmid n'
  end.

Definition _wait_for_shutdown (cfg : Config) (vmid : Z) (timeout : Z) : Prog bool :=
  wait_loop cfg vmid (Z.to_nat timeout).

(** ** VMController: the switch *)

Record SwitchResult : Type := { status : string; message : string }.

(** The inner [report] helper; [progress_msg] is the variable it closes
    over. *)
Definition report (cfg : Config) (progress_msg : option Message) (txt : string)
  : Prog unit :=
  match progress_msg with
  | None => mret tt
  | Some m =>
      try_except
        (call (EditMessageText txt (bot_chat_id cfg) (message_id m)))
        (fun e =>
           if is_TelegramBadRequest e then mret tt
           else logger WARNING ("Failed to update progress message: " +:+ exn_str e))
  end.

(** Step 1 of the body, the pre-flight [try]: [Some r] is [return r]. *)
Definition preflight (cfg : Config) (target_id : Z) (target_name : string)
    (quiet_on_skip : bool) : Prog (option SwitchResult) :=
  try_except
    (st ← get_vm_status cfg target_id;
     if String.eqb st "running" then
       let msg := "ℹ️ <b>" +:+ target_name +:+ "</b> is already running. No action taken." in
       logger INFO ("Skipping switch: " +:+ target_name +:+ " is already running.");;
       (if negb quiet_on_skip
        then call (SendMessage (bot_chat_id cfg) msg);; mret tt
        else mret tt);;
       mret (Some {| status := "ok"; message := target_name +:+ " is already running" |})
     else mret None)
    (fun e =>
       logger WARNING ("Pre-flight status check failed: " +:+ exn_str e);;
       mret None).

(** The progress message set-up. *)
Definition open_progress (cfg : Config) (target_name : string) : Prog (option Message) :=
  try_except
    (m ← call (SendMessage (bot_chat_id cfg)
                 ("🔄 <b>Switching to " +:+ target_name +:+ "...</b>" +:+ LF
                  +:+ "⏳ Initializing..."));
     mret (Some m))
    (fun e =>
       logger ERROR ("Failed to send init message: " +:+ exn_str e);;
       mret None).

(** The shutdown request of step 2, with its [except ResourceException]. *)
Definition request_shutdown (cfg : Config) (source_id : Z) : Prog unit :=
  try_except_on is_ResourceException
    (call (StatusPost shutdown (proxmox_node cfg) source_id))
    (fun e => logger ERROR ("Error triggering shutdown: " +:+ exn_str e)).

(** The forced stop of step 2, with its [except Exception]. *)
Definition force_stop (cfg : Config) (source_id : Z) (source_name : string)
    (progress_msg : option Message) : Prog (option SwitchResult) :=
  try_except
    (call (StatusPost stop (proxmox_node cfg) source_id);;
     call (Sleep 3);;
     mret None)
    (fun e =>
       let msg := "Critical error stopping " +:+ source_name +:+ ": " +:+ exn_str e in
       logger ERROR msg;;
       report cfg progress_msg ("❌ <b>Switch Failed</b>" +:+ LF +:+ msg);;
       mret (Some {| status := "error"; message := msg |})).

(** Step 2 once the source was found running: the shutdown request,
    the wait, and the forced stop when the wait runs out.  [Some r] is
    [return r]. *)
Definition stop_source (cfg : Config) (source_id : Z)
    (source_name target_name : string) (progress_msg : option Message)
  : Prog (option SwitchResult) :=
  request_shutdown cfg source_id;;
  stopped ← _wait_for_shutdown cfg source_id 180;
  if negb stopped then
    report cfg progress_msg
      ("🔄 <b>Switching to " +:+ target_name +:+ "...</b>" +:+ LF
       +:+ "⚠️ " +:+ source_name +:+ " stuck. Force stopping...");;
    force_stop cfg source_id source_name progress_msg
  else mret None.

(** Step 3, starting the target, and the final [return]. *)
Definition start_target (cfg : Config) (target_id : Z) (target_name : string)
    (progress_msg : option Message) : Prog SwitchResult :=
  report cfg progress_msg
    ("🔄 <b>Switching to " +:+ target_name +:+ "...</b>" +:+ LF
     +:+ "🚀 Starting " +:+ target_name +:+ "...");;
  failed ← try_except
    (current_target_status ← get_vm_status cfg target_id;
     (if negb (String.eqb current_target_status "running") then
        call (StatusPost start (proxmox_node cfg) target_id);;
        report cfg progress_msg
          ("✅ <b>Switched to " +:+ target_name +:+ "</b>" +:+ LF
           +:+ target_name +:+ " is starting.")
      else
        report cfg progress_msg
          ("ℹ️ <b>Info</b>" +:+ LF +:+ target_name +:+ " is already running."));;
     mret None)
    (fun e =>
       let msg := "Failed to start " +:+ target_name +:+ ": " +:+ exn_str e in
       logger ERROR msg;;
       report cfg progress_msg ("❌ <b>Switch Failed</b>" +:+ LF +:+ msg);;
       mret (Some {| status := "error"; message := msg |}));
  match failed with
  | Some r => mret r
  | None => mret {| status := "ok"; message := "Switched to " +:+ target_name |}
  end.

Definition target_id (cfg : Config) (target_os : string) : Z :=
  if String.eqb target_os "linux" then vm_id_linux cfg else vm_id_win cfg.

Definition source_id (cfg : Config) (target_os : string) : Z :=
  if String.eqb target_os "linux" then vm_id_win cfg else vm_id_linux cfg.

Definition source_name (target_os : string) : string :=
  if String.eqb target_os "linux" then "Windows" else "Linux".

Definition target_name (target_os : string) : string :=
  if String.eqb target_os "linux" then "Linux" else "Windows".

(** The body up to the status check of step 2: the pre-flight check,
    the progress message and its first update.  [inl r] is [return r];
    [inr progress_msg] goes on to the status check. *)
Definition enter_switch (cfg : Config) (target_os : string) (quiet_on_skip : bool)
  : Prog (SwitchResult + option Message) :=
  skipped ← preflight cfg (target_id cfg target_os) (target_name target_os) quiet_on_skip;
  match skipped with
  | Some r => mret (inl r)
  | None =>
      logger INFO ("Switching to " +:+ target_name target_os +:+ " (ID: "
                   +:+ str_of_int (target_id cfg target_os) +:+ ")");;
      progress_msg ← open_progress cfg (target_name target_os);
      report cfg progress_msg
        ("🔄 <b>Switching to " +:+ target_name target_os +:+ "...</b>" +:+ LF
         +:+ "🛑 Shutting down " +:+ source_name target_os +:+ "...");;
      mret (inr progress_msg)
  end.

(** What runs under [async with self._op_lock]. *)
Definition switch_body (cfg : Config) (target_os : string) (quiet_on_skip : bool)
  : Prog SwitchResult :=
  entered ← enter_switch cfg target_os quiet_on_skip;
  match entered with
  | inl r => mret r
  | inr progress_msg =>
      st ← get_vm_status cfg (source_id cfg target_os);
      aborted ← (if String.eqb st "running"
                 then stop_source cfg (source_id cfg target_os)
                        (source_name target_os) (target_name target_os) progress_msg
                 else mret None);
      match aborted with
      | Some r => mret r
      | None =>
          start_target cfg (target_id cfg target_os) (target_name target_os)
            progress_msg
      end
  end.

Definition perform_switch (cfg : Config) (target_os : string) (quiet_on_skip : bool)
  : Prog SwitchResult :=
  locked ← is_locked;
  if (locked : bool) then
    mret {| status := "error"; message := "System is manually locked." |}
  else
    held ← call OpLockLocked;
    if (held : bool) then
      mret {| status := "error"; message := "An operation is already in progress." |}
    else
      async_with_op_lock (switch_body cfg target_os quiet_on_skip).

(** ** Which calls a program can make *)

(** [uses P p]: every call on every path of [p] satisfies [P]. *)
Inductive uses (P : forall A : Type, Call A -> Prop) {R : Type} : Prog R -> Prop :=
| uses_Ret (r : R) : uses P (Ret r)
| uses_Raise (e : exn) : uses P (Raise e)
| uses_Vis (A : Type) (c : Call A) (k : exn + A -> Prog R) :
    P A c -> (forall r, uses P (k r)) -> uses P (Vis c k).

(** The calls of the body of a switch: the Proxmox API, the bot, the
    logger and the clock; [posts] says which power actions are among
    them and [sleeps] whether the clock is. *)
Definition body_call_but (posts : power_action -> bool) (sleeps : bool)
    (A : Type) (c : Call A) : Prop :=
  match c with
  | StatusPost a _ _ => posts a = true
  | Sleep _ => sleeps = true
  | StatusCurrentGet _ _ | SendMessage _ _ | EditMessageText _ _ _ | Log _ _ => True
  | _ => False
  end.

Definition body_call : forall A : Type, Call A -> Prop :=
  body_call_but (fun _ => true) true.

(** The events such calls leave. *)
Definition event_but (posts : power_action -> bool) (sleeps : bool) (e : Event) : Prop :=
  match e with
  | EPost a _ _ _ => posts a = true
  | ESleep _ => sleeps = true
  | EFile _ _ => False
  | _ => True
  end.

Definition no_post (a : power_action) : bool := false.

Definition only (a b : power_action) : bool :=
  match a, b with
  | shutdown, shutdown | stop, stop | start, start => true
  | _, _ => false
  end.

(** The calls that leave [_manual_lock] alone. *)
Definition keeps_manual_lock (A : Type) (c : Call A) : Prop :=
  match c with
  | SetManualLock _ => False
  | _ => True
  end.

(** ** What a trace contains *)

Definition is_post (a : power_action) (e : Event) : bool :=
  match e, a with
  | EPost shutdown _ _ _, shutdown => true
  | EPost stop _ _ _, stop => true
  | EPost start _ _ _, start => true
  | _, _ => false
  end.

(** A request to the Control-Plane Client (the Proxmox API). *)
Definition is_pve_call (e : Event) : bool :=
  match e with
  | EStatusGet _ _ _ | EPost _ _ _ _ => true
  | _ => false
  end.

(** A message to the operator (the Progress Sink). *)
Definition is_bot_call (e : Event) : bool :=
  match e with
  | ESendMessage _ _ _ | EEditMessageText _ _ _ _ => true
  | _ => false
  end.

Definition is_sleep (e : Event) : bool :=
  match e with
  | ESleep _ => true
  | _ => false
  end.

Definition count (f : Event -> bool) (tr : list Event) : nat := length (filter f tr).

(** A file operation that raised. *)
Definition is_fs_fault (e : Event) : bool :=
  match e with
  | EFile _ (Some _) => true
  | _ => false
  end.

(** ** The other entry points of a running process *)

(** What the trigger layer can ask of the controller besides [set_lock]. *)
Inductive request : Type :=
| SwitchTo (target_os : string) (quiet_on_skip : bool)
| FullStatus
| VmStatus (vmid : Z)
| IsLocked.

Definition serve (cfg : Config) (r : request) : Prog unit :=
  match r with
  | SwitchTo target_os quiet_on_skip => perform_switch cfg target_os quiet_on_skip;; mret tt
  | FullStatus => get_full_status cfg;; mret tt
  | VmStatus vmid => get_vm_status cfg vmid;; mret tt
  | IsLocked => is_locked;; mret tt
  end.

Fixpoint serve_all (env : Env) (cfg : Config) (rs : list request) (s : State) : State :=
  match rs with
  | [] => s
  | r :: rs' => serve_all env cfg rs' (exec env (serve cfg r) s).2
  end.

(** The answer of [get_vm_status] to a given reply of the API. *)
Definition status_of (r : exn + option string) : string :=
  match r with
  | inl _ => "error"
  | inr status_data => default "unknown" status_data
  end.

Definition is_error_log (e : Event) : bool :=
  match e with
  | ELog ERROR _ => true
  | _ => false
  end.

(** The settle wait of the forced stop, [asyncio.sleep(3)]. *)
Definition is_settle_wait (e : Event) : bool :=
  match e with
  | ESleep n => n =? 3
  | _ => false
  end.

(** [extend new s]: the state [s] after the events [new]. *)
Definition extend (new : list Event) (s : State) : State :=
  {| _manual_lock := _manual_lock s; _op_lock := _op_lock s; disk := disk s;
     trace := trace s ++ new |}.

(** A controller constructed after a restart: new memory, same disk. *)
Definition restart (env : Env) (cfg : Config) (s : State) : State :=
  (exec env (__init__ cfg) (boot (disk s) (trace s))).2.

(** No file operation raised between [s] and [s']. *)
Definition no_fs_fault_since (s s' : State) : Prop :=
  Forall (fun e => is_fs_fault e = false) (drop (length (trace s)) (trace s')).

(** The lock file can be opened and read in state [s]. *)
Definition readable (env : Env) (cfg : Config) (s : State) : Prop :=
  fs_fault env (trace s) (FsOpen (lock_file_path cfg) mode_r) = None /\
  fs_fault env (trace s ++ [EFile (FsOpen (lock_file_path cfg) mode_r) None])
    (FsRead (lock_file_path cfg)) = None.

(** The events [report(txt)] leaves after the history [h]. *)
Definition report_events (env : Env) (cfg : Config) (progress_msg : option Message)
    (txt : string) (h : list Event) : list Event :=
  match progress_msg with
  | None => []
  | Some m =>
      let r := bot_edit env h txt (bot_chat_id cfg) (message_id m) in
      EEditMessageText txt (bot_chat_id cfg) (message_id m) r ::
      match r with
      | inl e =>
          if is_TelegramBadRequest e then []
          else [ELog WARNING ("Failed to update progress message: " +:+ exn_str e)]
      | inr _ => []
      end
  end.

(** The switch started in [s] gets past both gates and the pre-flight
    check, and is about to query the source in [s1], with progress
    message [progress_msg]. *)
Definition reaches_step2 (env : Env) (cfg : Config) (target_os : string)
    (quiet_on_skip : bool) (s : State) (progress_msg : option Message) (s1 : State) : Prop :=
  _manual_lock s = false /\ _op_lock s = false /\
  exec env (enter_switch cfg target_os quiet_on_skip) (set_op true s)
    = (Returned (inr progress_msg), s1).

(** ... it finds the source running, its shutdown request does not
    abort it, and [_wait_for_shutdown] returns [False] in [s4]. *)
Definition wait_runs_out (env : Env) (cfg : Config) (target_os : string)
    (quiet_on_skip : bool) (s : State) (progress_msg : option Message) (s4 : State) : Prop :=
  exists s1 s2 s3,
    reaches_step2 env cfg target_os quiet_on_skip s progress_msg s1 /\
    exec env (get_vm_status cfg (source_id cfg target_os)) s1 = (Returned "running", s2) /\
    exec env (request_shutdown cfg (source_id cfg target_os)) s2 = (Returned tt, s3) /\
    exec env (_wait_for_shutdown cfg (source_id cfg target_os) 180) s3 = (Returned false, s4).

(** The progress texts of the switch. *)
Definition stuck_text (target_os : string) : string :=
  "🔄 <b>Switching to " +:+ target_name target_os +:+ "...</b>" +:+ LF
  +:+ "⚠️ " +:+ source_name target_os +:+ " stuck. Force stopping...".

Definition stop_failed_msg (target_os : string) (e : exn) : string :=
  "Critical error stopping " +:+ source_name target_os +:+ ": " +:+ exn_str e.

Definition failed_text (msg : string) : string :=
  "❌ <b>Switch Failed</b>" +:+ LF +:+ msg.

(** The events of a run started in [s] and ended in [s']. *)
Definition events_since (s s' : State) : list Event :=
  drop (length (trace s)) (trace s').

Definition already_running_text (target_os : string) : string :=
  "ℹ️ <b>" +:+ target_name target_os +:+ "</b> is already running. No action taken.".

Definition already_running (target_os : string) : SwitchResult :=
  {| status := "ok"; message := target_name target_os +:+ " is already running" |}.

(** ** Concurrent switches

    The handlers of the bot and of the HTTP API run as asyncio tasks on
    one event loop: a task runs until it awaits something that is not
    ready, and only then can another task run.  In [perform_switch]
    those points are the calls to the bot and [asyncio.sleep];
    [self._op_lock.locked()] and the acquisition that follows it are
    not separated by any of them. *)

Definition is_await {A : Type} (c : Call A) : bool :=
  match c with
  | SendMessage _ _ | EditMessageText _ _ _ | Sleep _ => true
  | _ => false
  end.

(** One turn of a task on the event loop: the awaited call completes
    ([resumed]), and the task runs on until its next await, until it
    has to wait for the lock, or until it ends. *)
Fixpoint run_slice {R : Type} (env : Env) (resumed : bool) (p : Prog R) (s : State)
  : Prog R * State :=
  match p with
  | Vis c k =>
      if is_await c && negb resumed then (p, s)
      else
        match perform env c s with
        | Some (r, s') => run_slice env false (k r) s'
        | None => (p, s)
        end
  | _ => (p, s)
  end.

(** What the loop can do next: a handler calls [perform_switch] (the
    task is created, not yet run), a task gets its turn, or a handler
    calls [set_lock]. *)
Inductive tick : Type :=
| Spawn (target_os : string) (quiet_on_skip : bool)
| Resume (i : nat)
| SetLock (locked : bool).

Record System : Type := {
  shared : State;
  tasks : list (Prog SwitchResult)
}.

Definition do_tick (env : Env) (cfg : Config) (t : tick) (sys : System) : System :=
  match t with
  | Spawn target_os quiet_on_skip =>
      {| shared := shared sys;
         tasks := tasks sys ++ [perform_switch cfg target_os quiet_on_skip] |}
  | Resume i =>
      match tasks sys !! i with
      | Some p =>
          let '(p', s') := run_slice env true p (shared sys) in
          {| shared := s'; tasks := <[i := p']> (tasks sys) |}
      | None => sys
      end
  | SetLock locked =>
      {| shared := (exec env (set_lock cfg locked) (shared sys)).2; tasks := tasks sys |}
  end.

Fixpoint run_ticks (env : Env) (cfg : Config) (ts : list tick) (sys : System) : System :=
  match ts with
  | [] => sys
  | t :: ts' => run_ticks env cfg ts' (do_tick env cfg t sys)
  end.

(** A process in state [s] whose loop has no task yet. *)
Definition no_tasks (s : State) : System := {| shared := s; tasks := [] |}.

Definition finished {R : Type} (p : Prog R) : Prop :=
  match p with
  | Ret _ | Raise _ => True
  | Vis _ _ => False
  end.

(** A task that is inside [async with self._op_lock]: on every path it
    makes calls of the body only, then releases the lock and ends. *)
Inductive in_body {R : Type} : Prog R -> Prop :=
| in_body_release (k : exn + unit -> Prog R) :
    (forall r, finished (k r)) -> in_body (Vis OpLockRelease k)
| in_body_call (A : Type) (c : Call A) (k : exn + A -> Prog R) :
    body_call A c -> (forall r, in_body (k r)) -> in_body (Vis c k).

Definition locked_error : SwitchResult :=
  {| status := "error"; message := "System is manually locked." |}.

Definition busy_error : SwitchResult :=
  {| status := "error"; message := "An operation is already in progress." |}.

(** A call of [perform_switch] that has not had a turn yet. *)
Definition fresh (cfg : Config) (p : Prog SwitchResult) : Prop :=
  exists target_os quiet_on_skip, p = perform_switch cfg target_os quiet_on_skip.

(** What holds of the loop at every moment: every task is a new call,
    is in the body, or has ended; [h] is the task in the body, if any,
    and the guard is held exactly when there is one. *)
Definition guard_inv (cfg : Config) (sys : System) (h : option nat) : Prop :=
  (forall i p, tasks sys !! i = Some p -> fresh cfg p \/ in_body p \/ finished p) /\
  (forall i p, tasks sys !! i = Some p -> (in_body p <-> h = Some i)) /\
  (forall i, h = Some i -> is_Some (tasks sys !! i)) /\
  _op_lock (shared sys) = bool_decide (is_Some h).

(** ** Further vocabulary for runs *)

(** The answers a call can get: the logger and the clock do not raise. *)
Definition can_answer {A : Type} (c : Call A) (r : exn + A) : Prop :=
  match c with
  | Log _ _ | Sleep _ => exists a, r = inr a
  | _ => True
  end.

(** A program that raises nothing on any path: whatever a call of it
    raises is taken by a handler inside it. *)
Inductive returns {R : Type} : Prog R -> Prop :=
| returns_Ret (r : R) : returns (Ret r)
| returns_Vis (A : Type) (c : Call A) (k : exn + A -> Prog R) :
    (forall r, can_answer c r -> returns (k r)) -> returns (Vis c k).

(** A power action: a shutdown, stop or start request. *)
Definition is_power (e : Event) : bool :=
  match e with
  | EPost _ _ _ _ => true
  | _ => false
  end.

Definition is_status_query (e : Event) : bool :=
  match e with
  | EStatusGet _ _ _ => true
  | _ => false
  end.

(** The one-second sleep of the shutdown waiter. *)
Definition is_poll_sleep (e : Event) : bool :=
  match e with
  | ESleep n => n =? 1
  | _ => false
  end.

(** A status query of [vmid] that was answered ["stopped"]. *)
Definition saw_stopped (vmid : Z) (e : Event) : bool :=
  match e with
  | EStatusGet _ v r => (v =? vmid) && String.eqb (status_of r) "stopped"
  | _ => false
  end.

(** The text of the first progress message. *)
Definition init_text (target_os : string) : string :=
  "🔄 <b>Switching to " +:+ target_name target_os +:+ "...</b>" +:+ LF
  +:+ "⏳ Initializing...".

(** A bot call of a switch with progress message [progress_msg]: sent
    to the configured chat, and an edit edits that message. *)
Definition addressed (cfg : Config) (progress_msg : option Message) (e : Event) : Prop :=
  match e with
  | ESendMessage chat _ _ => chat = bot_chat_id cfg
  | EEditMessageText _ chat mid _ =>
      chat = bot_chat_id cfg /\ message_id <$> progress_msg = Some mid
  | EFile _ _ => False
  | _ => True
  end.

Definition addressed_call (cfg : Config) (progress_msg : option Message)
    (A : Type) (c : Call A) : Prop :=
  match c with
  | SendMessage chat _ => chat = bot_chat_id cfg
  | EditMessageText _ chat mid =>
      chat = bot_chat_id cfg /\ message_id <$> progress_msg = Some mid
  | StatusCurrentGet _ _ | StatusPost _ _ _ | Sleep _ | Log _ _ => True
  | _ => False
  end.

(** ** The Telegram handlers *)

(** [message.answer(txt)]: [send_message] to the chat of the message. *)
Definition answer (chat_id : Z) (txt : string) : Prog unit :=
  call (SendMessage chat_id txt);; mret tt.

(** [d[key]] *)
Definition getitem (d : gmap string pyvalue) (key : string) : Prog pyvalue :=
  match d !! key with
  | Some v => mret v
  | None => Raise (Exn OtherException ("'" +:+ key +:+ "'"))
  end.

(** [str(v)], as an f-string formats it *)
Definition py_str (v : pyvalue) : string :=
  match v with
  | PyStr s => s
  | PyBool b => str_of_bool b
  end.

(** [v == s] for a string [s] *)
Definition py_eq_str (v : pyvalue) (s : string) : bool :=
  match v with
  | PyStr t => String.eqb t s
  | PyBool _ => false
  end.

(** [IsAdminChat.__call__] *)
Definition IsAdminChat (cfg : Config) (chat_id : Z) : bool :=
  chat_id =? bot_chat_id cfg.

Definition cmd_status (cfg : Config) (chat_id : Z) : Prog unit :=
  stats ← get_full_status cfg;
  linux ← getitem stats "linux";
  windows ← getitem stats "windows";
  locked ← getitem stats "locked";
  answer chat_id
    ("🖥 <b>System Status</b>" +:+ LF
     +:+ "🐧 Linux: <code>" +:+ py_str linux +:+ "</code>" +:+ LF
     +:+ "🪟 Windows: <code>" +:+ py_str windows +:+ "</code>" +:+ LF
     +:+ "🔒 Locked: <code>" +:+ py_str locked +:+ "</code>").

Definition cmd_lock (cfg : Config) (chat_id : Z) : Prog unit :=
  set_lock cfg true;;
  answer chat_id "🔒 System <b>LOCKED</b>. Auto-switching disabled.".

Definition cmd_unlock (cfg : Config) (chat_id : Z) : Prog unit :=
  set_lock cfg false;;
  answer chat_id "🔓 System <b>UNLOCKED</b>.".

Definition help_text : string :=
  "🤖 <b>Proxmox VM Manager Bot</b>" +:+ LF +:+ LF
  +:+ "<b>Commands:</b>" +:+ LF
  +:+ "/status - Show current status of VMs and Lock" +:+ LF
  +:+ "/switch_linux - Switch to Linux VM" +:+ LF
  +:+ "/switch_windows - Switch to Windows VM" +:+ LF
  +:+ "/switch - Toggle active VM based on current state" +:+ LF
  +:+ "/lock - Prevent API/Bot from switching VMs" +:+ LF
  +:+ "/unlock - Allow switching VMs" +:+ LF
  +:+ "/help - Show this help message".

Definition cmd_help (chat_id : Z) : Prog unit := answer chat_id help_text.

(** The result of [perform_switch] is dropped. *)
Definition cmd_linux (cfg : Config) (chat_id : Z) : Prog unit :=
  perform_switch cfg "linux" false;; mret tt.

Definition cmd_windows (cfg : Config) (chat_id : Z) : Prog unit :=
  perform_switch cfg "windows" false;; mret tt.

Definition both_stopped_text : string :=
  "⚠️ Both VMs are stopped. Use specific command to start one.".

Definition cmd_switch (cfg : Config) (chat_id : Z) : Prog unit :=
  status ← get_full_status cfg;
  linux ← getitem status "linux";
  if py_eq_str linux "running" then cmd_windows cfg chat_id
  else
    windows ← getitem status "windows";
    if py_eq_str windows "running" then cmd_linux cfg chat_id
    else answer chat_id both_stopped_text.

(** The commands the router knows. *)
Inductive command : Type :=
| CmdStatus | CmdLock | CmdUnlock | CmdHelp
| CmdSwitchLinux | CmdSwitchWindows | CmdSwitch.

(** A message with a command: its handler runs when the [IsAdminChat]
    filter of its registration passes, and nothing runs otherwise. *)
Definition on_message (cfg : Config) (chat_id : Z) (cmd : command) : Prog unit :=
  if IsAdminChat cfg chat_id then
    match cmd with
    | CmdStatus => cmd_status cfg chat_id
    | CmdLock => cmd_lock cfg chat_id
    | CmdUnlock => cmd_unlock cfg chat_id
    | CmdHelp => cmd_help chat_id
    | CmdSwitchLinux => cmd_linux cfg chat_id
    | CmdSwitchWindows => cmd_windows cfg chat_id
    | CmdSwitch => cmd_switch cfg chat_id
    end
  else mret tt.

(** ** The HTTP controller *)

(** The dictionary [perform_switch] returns. *)
Definition result_dict (r : SwitchResult) : gmap string pyvalue :=
  <["message" := PyStr (message r)]> (<["status" := PyStr (status r)]> ∅).

Definition index : gmap string pyvalue :=
  <["version" := PyStr "2.0"]> (<["app" := PyStr "Proxmox VM Switcher"]> ∅).

Definition get_status (cfg : Config) : Prog (gmap string pyvalue) :=
  get_full_status cfg.

Definition switch_windows (cfg : Config) : Prog (gmap string pyvalue) :=
  result ← perform_switch cfg "windows" true;
  if String.eqb (status result) "error" then mret (result_dict result)
  else mret (result_dict result).

Definition switch_linux (cfg : Config) : Prog (gmap string pyvalue) :=
  result ← perform_switch cfg "linux" true;
  if String.eqb (status result) "error" then mret (result_dict result)
  else mret (result_dict result).

Definition lock_system (cfg : Config) : Prog (gmap string pyvalue) :=
  set_lock cfg true;; mret (<["locked" := PyBool true]> ∅).

Definition unlock_system (cfg : Config) : Prog (gmap string pyvalue) :=
  set_lock cfg false;; mret (<["locked" := PyBool false]> ∅).

Inductive endpoint : Type :=
| GetIndex | GetStatus | PostSwitchWindows | PostSwitchLinux | PostLock | PostUnlock.

Definition route (cfg : Config) (ep : endpoint) : Prog (gmap string pyvalue) :=
  match ep with
  | GetIndex => mret index
  | GetStatus => get_status cfg
  | PostSwitchWindows => switch_windows cfg
  | PostSwitchLinux => switch_linux cfg
  | PostLock => lock_system cfg
  | PostUnlock => unlock_system cfg
  end.

(** ** What reaches the controller *)

Inductive trigger : Type :=
| BotCommand (chat_id : Z) (cmd : command)
| HttpRequest (ep : endpoint).

Definition handle (cfg : Config) (t : trigger) : Prog unit :=
  match t with
  | BotCommand chat_id cmd => on_message cfg chat_id cmd
  | HttpRequest ep => route cfg ep;; mret tt
  end.

(** The triggers handled to completion, one after another; a handler
    that raises ends, and the next trigger is handled. *)
Fixpoint handle_all (env : Env) (cfg : Config) (ts : list trigger) (s : State) : State :=
  match ts with
  | [] => s
  | t :: ts' => handle_all env cfg ts' (exec env (handle cfg t) s).2
  end.

(** A trigger that opens the manual lock. *)
Definition unlocks (cfg : Config) (t : trigger) : bool :=
  match t with
  | BotCommand chat_id CmdUnlock => IsAdminChat cfg chat_id
  | HttpRequest PostUnlock => true
  | _ => false
  end.

(** ** Config.from_env *)

Inductive config_error : Type :=
| KeyError (key : string)
| ValueError (msg : string).

(** What [from_env] leaves when it fails: the CRITICAL log record and
    the exception it raises again. *)
Record startup_failure : Type := {
  critical_log : string;
  raised : config_error
}.

(** [os.environ[key]] *)
Definition environ_getitem (environ : gmap string string) (key : string)
  : config_error + string :=
  match environ !! key with
  | Some v => inr v
  | None => inl (KeyError key)
  end.

Definition and_then {A B : Type} (x : config_error + A) (f : A -> config_error + B)
  : config_error + B :=
  match x with
  | inl e => inl e
  | inr a => f a
  end.

Section FromEnv.

(** [int(s)] for a string: the number, or the text of the
    [ValueError]. *)
Variable int : string -> string + Z.

Definition environ_int (environ : gmap string string) (key : string)
  : config_error + Z :=
  and_then (environ_getitem environ key)
    (fun v => match int v with
              | inl msg => inl (ValueError msg)
              | inr z => inr z
              end).

(** The call of [cls(...)]: the arguments are evaluated in order. *)
Definition read_config (environ : gmap string string) : config_error + Config :=
  and_then (environ_getitem environ "PROXMOX_HOST") (fun host =>
  and_then (environ_getitem environ "PROXMOX_USER") (fun user =>
  and_then (environ_getitem environ "PROXMOX_TOKEN_NAME") (fun token_name =>
  and_then (environ_getitem environ "PROXMOX_TOKEN_VALUE") (fun token_value =>
  and_then (environ_getitem environ "PROXMOX_NODE_NAME") (fun node =>
  and_then (environ_int environ "PROXMOX_LINUX_VM_ID") (fun linux =>
  and_then (environ_int environ "PROXMOX_WIN_VM_ID") (fun win =>
  and_then (environ_getitem environ "BOT_TOKEN") (fun token =>
  and_then (environ_int environ "BOT_CHAT_ID") (fun chat =>
  inr {| proxmox_host := host; proxmox_user := user;
         proxmox_token_name := token_name; proxmox_token_value := token_value;
         proxmox_node := node; vm_id_linux := linux; vm_id_win := win;
         bot_token := token; bot_chat_id := chat;
         lock_file_path := default "lock.local" (environ !! "LOCK_FILE_PATH") |}))))))))).

Definition from_env (environ : gmap string string) : startup_failure + Config :=
  match read_config environ with
  | inr cfg => inr cfg
  | inl (KeyError key) =>
      inl {| critical_log := "Missing environment variable: '" +:+ key +:+ "'";
             raised := KeyError key |}
  | inl (ValueError msg) =>
      inl {| critical_log := "Invalid format for environment variable: " +:+ msg;
             raised := ValueError msg |}
  end.

End FromEnv.

(** ** More texts and results of the switch *)

Definition starting_text (tname : string) : string :=
  "🔄 <b>Switching to " +:+ tname +:+ "...</b>" +:+ LF
  +:+ "🚀 Starting " +:+ tname +:+ "...".

Definition switched (tname : string) : SwitchResult :=
  {| status := "ok"; message := "Switched to " +:+ tname |}.

Definition start_failed (tname : string) (e : exn) : SwitchResult :=
  {| status := "error"; message := "Failed to start " +:+ tname +:+ ": " +:+ exn_str e |}.

(** ** What a locked controller lets through *)

(** The calls that neither touch a VM's power state nor open the
    manual lock. *)
Definition locked_call (A : Type) (c : Call A) : Prop :=
  match c with
  | StatusPost _ _ _ => False
  | SetManualLock b => b = true
  | _ => True
  end.

(** [harmless env p]: run on a locked controller, [p] leaves it locked
    and issues no power action. *)
Definition harmless (env : Env) {R : Type} (p : Prog R) : Prop :=
  forall s, _manual_lock s = true ->
    _manual_lock (exec env p s).2 = true /\
    exists new, trace (exec env p s).2 = trace s ++ new /\ count is_power new = 0%nat.

(** The value a trigger sets the manual lock to, if it sets it. *)
Definition lock_request (cfg : Config) (t : trigger) : option bool :=
  match t with
  | BotCommand chat_id CmdLock => if IsAdminChat cfg chat_id then Some true else None
  | BotCommand chat_id CmdUnlock => if IsAdminChat cfg chat_id then Some false else None
  | HttpRequest PostLock => Some true
  | HttpRequest PostUnlock => Some false
  | _ => None
  end.

(** The reply of [/status]. *)
Definition status_text (linux windows : string) (locked : bool) : string :=
  "🖥 <b>System Status</b>" +:+ LF
  +:+ "🐧 Linux: <code>" +:+ linux +:+ "</code>" +:+ LF
  +:+ "🪟 Windows: <code>" +:+ windows +:+ "</code>" +:+ LF
  +:+ "🔒 Locked: <code>" +:+ str_of_bool locked +:+ "</code>".

(** [await message.answer(txt)] run after the history of [s]. *)
Definition answered (env : Env) (chat_id : Z) (txt : string) (s : State)
  : Outcome unit * State :=
  let r := bot_send env (trace s) chat_id txt in
  (match r with inl e => Raised e | inr _ => Returned tt end,
   emit (ESendMessage chat_id txt r) s).

(** ** What [from_env] asks of the environment *)

(** The variables [from_env] reads, in the order in which it reads
    them; [true] marks those it passes to [int]. *)
Definition required_vars : list (string * bool) :=
  [("PROXMOX_HOST", false); ("PROXMOX_USER", false); ("PROXMOX_TOKEN_NAME", false);
   ("PROXMOX_TOKEN_VALUE", false); ("PROXMOX_NODE_NAME", false);
   ("PROXMOX_LINUX_VM_ID", true); ("PROXMOX_WIN_VM_ID", true);
   ("BOT_TOKEN", false); ("BOT_CHAT_ID", true)].

(** What is wrong with one of them, if anything. *)
Definition var_error (int : string -> string + Z) (environ : gmap string string)
    (v : string * bool) : option config_error :=
  match environ !! v.1 with
  | None => Some (KeyError v.1)
  | Some x =>
      if v.2 then
        match int x with
        | inl msg => Some (ValueError msg)
        | inr _ => None
        end
      else None
  end.

Definition failure_of (e : config_error) : startup_failure :=
  {| critical_log :=
       match e with
       | KeyError key => "Missing environment variable: '" +:+ key +:+ "'"
       | ValueError msg => "Invalid format for environment variable: " +:+ msg
       end;
     raised := e |}.

(** ** Turns of one task *)

(** [n] turns of a task on the event loop, one after another, each as
    [Resume] gives it. *)
Fixpoint turns {R : Type} (env : Env) (n : nat) (p : Prog R) (s : State)
  : Prog R * State :=
  match n with
  | O => (p, s)
  | S n' => let '(p', s') := run_slice env true p s in turns env n' p' s'
  end.

(** ** Concrete configurations and environments *)

Module Examples.

Definition cfg : Config :=
  {| proxmox_host := "pve.local"; proxmox_user := "switch@pve";
     proxmox_token_name := "switch"; proxmox_token_value := "secret";
     proxmox_node := "pve"; vm_id_linux := 100; vm_id_win := 101;
     bot_token := "token"; bot_chat_id := 42; lock_file_path := "lock.local" |}.

Definition ok_msg : exn + Message := inr {| message_id := 7 |}.

(** An environment that does not look at the history. *)
Definition fixed_env (st : Z -> exn + option string)
    (post : power_action -> exn + unit) (send : exn + Message)
    (edit : exn + unit) (fault : fs_op -> option exn) : Env :=
  {| pve_status := fun _ _ vmid => st vmid;
     pve_post := fun _ a _ _ => post a;
     bot_send := fun _ _ _ => send;
     bot_edit := fun _ _ _ _ => edit;
     fs_fault := fun _ op => fault op |}.

Definition running : exn + option string := inr (Some "running").
Definition stopped : exn + option string := inr (Some "stopped").

(** Linux runs, Windows is stopped, nothing fails. *)
Definition calm : Env :=
  fixed_env (fun vmid => if vmid =? 100 then running else stopped)
    (fun _ => inr tt) ok_msg (inr tt) (fun _ => None).

Definition ConnectionError : exn := Exn OtherException "Connection refused".
Definition TelegramNetworkError : exn := Exn OtherException "Request timeout error".
Definition PermissionError : exn := Exn OtherException "[Errno 13] Permission denied".

(** Every file operation raises. *)
Definition read_only_disk : Env :=
  fixed_env (fun _ => stopped) (fun _ => inr tt) ok_msg (inr tt)
    (fun _ => Some PermissionError).

Definition ServerError : exn :=
  Exn ResourceException "500 Internal Server Error: got timeout".

(** The status of Linux cannot be queried; Windows is stopped. *)
Definition linux_unreachable : Env :=
  fixed_env (fun vmid => if vmid =? 100 then inl ConnectionError else stopped)
    (fun _ => inr tt) ok_msg (inr tt) (fun _ => None).

(** As [calm], but the API refuses the forced stop. *)
Definition stop_refused : Env :=
  fixed_env (fun vmid => if vmid =? 100 then running else stopped)
    (fun a => match a with stop => inl ServerError | _ => inr tt end)
    ok_msg (inr tt) (fun _ => None).

(** As [calm], but the connection drops on the shutdown request. *)
Definition shutdown_unreachable : Env :=
  fixed_env (fun vmid => if vmid =? 100 then running else stopped)
    (fun a => match a with shutdown => inl ConnectionError | _ => inr tt end)
    ok_msg (inr tt) (fun _ => None).

(** As [calm], but the API answers the shutdown request with an error. *)
Definition shutdown_refused : Env :=
  fixed_env (fun vmid => if vmid =? 100 then running else stopped)
    (fun a => match a with shutdown => inl ServerError | _ => inr tt end)
    ok_msg (inr tt) (fun _ => None).

Definition shutdown_requested (vmid : Z) (h : list Event) : bool :=
  existsb (fun e => match e with
                    | EPost shutdown _ v (inr _) => v =? vmid
                    | _ => false
                    end) h.

(** Both VMs run, a VM stops once its shutdown was requested, and
    Telegram cannot be reached. *)
Definition no_telegram : Env :=
  {| pve_status := fun h _ vmid => if shutdown_requested vmid h then stopped else running;
     pve_post := fun _ _ _ _ => inr tt;
     bot_send := fun _ _ _ => inl TelegramNetworkError;
     bot_edit := fun _ _ _ _ => inl TelegramNetworkError;
     fs_fault := fun _ _ => None |}.

Definition idle : State := boot ∅ [].

Definition locked_state : State := set_manual true idle.

Definition busy : State := set_op true idle.

(** A lock file with a blank first line and spaces around the word. *)
Definition padded : text := codepoints (LF +:+ " LOCKED " +:+ LF).

Definition padded_disk : State := boot {[ "lock.local" := padded ]} [].

End Examples.

(** ** More environments *)

Module Scenarios.

(** Linux runs and Windows is stopped; a VM stops once its shutdown was
    requested; nothing fails. *)
Definition obedient : Env :=
  {| pve_status := fun h _ vmid =>
       if Examples.shutdown_requested vmid h then Examples.stopped
       else if vmid =? 100 then Examples.running else Examples.stopped;
     pve_post := fun _ _ _ _ => inr tt;
     bot_send := fun _ _ _ => Examples.ok_msg;
     bot_edit := fun _ _ _ _ => inr tt;
     fs_fault := fun _ _ => None |}.

Definition NoSpaceLeft : exn := Exn OtherException "[Errno 28] No space left on device".

(** The lock file can be opened, but nothing can be written. *)
Definition disk_full : Env :=
  Examples.fixed_env (fun _ => Examples.stopped) (fun _ => inr tt) Examples.ok_msg (inr tt)
    (fun op => match op with FsWrite _ _ => Some NoSpaceLeft | _ => None end).

(** A chat that is not the admin chat of [Examples.cfg]. *)
Definition stranger : Z := 999.

End Scenarios.

(** * Properties *)

(** ** How [exec] runs the combinators *)

Section Exec.
Context (env : Env).

Lemma exec_bind {A B : Type} (p : Prog A) (k : A -> Prog B) (s : State) :
  exec env (p ≫= k) s =
  match exec env p s with
  | (Returned a, s') => exec env (k a) s'
  | (Raised e, s') => (Raised e, s')
  | (Blocked, s') => (Blocked, s')
  end.
Proof.
  change (p ≫= k) with (bind p k). revert s.
  induction p as [a | e | T c k' IH]; intros s; cbn; try reflexivity.
  destruct (perform env c s) as [[r s'] |]; [apply IH | reflexivity].
Qed.

Lemma exec_try_except_on {R : Type} (catches : exn -> bool) (p : Prog R)
    (h : exn -> Prog R) (s : State) :
  exec env (try_except_on catches p h) s =
  match exec env p s with
  | (Raised e, s') => if catches e then exec env (h e) s' else (Raised e, s')
  | other => other
  end.
Proof.
  revert s. induction p as [a | e | T c k' IH]; intros s; cbn.
  - reflexivity.
  - destruct (catches e); reflexivity.
  - destruct (perform env c s) as [[r s'] |]; [apply IH | reflexivity].
Qed.

Lemma exec_try_except {R : Type} (p : Prog R) (h : exn -> Prog R) (s : State) :
  exec env (try_except p h) s =
  match exec env p s with
  | (Raised e, s') => exec env (h e) s'
  | other => other
  end.
Proof.
  revert s. induction p as [a | e | T c k' IH]; intros s; cbn; try reflexivity.
  destruct (perform env c s) as [[r s'] |]; [apply IH | reflexivity].
Qed.

Lemma exec_finally {R : Type} (p : Prog R) (q : Prog unit) (s : State) :
  exec env (finally p q) s =
  match exec env p s with
  | (Returned r, s') => exec env (q ;; Ret r) s'
  | (Raised e, s') => exec env (q ;; Raise e) s'
  | (Blocked, s') => (Blocked, s')
  end.
Proof.
  revert s. induction p as [a | e | T c k' IH]; intros s; cbn; try reflexivity.
  destruct (perform env c s) as [[r s'] |]; [apply IH | reflexivity].
Qed.

Lemma exec_call {A : Type} (c : Call A) (s : State) :
  exec env (call c) s =
  match perform env c s with
  | Some (inr a, s') => (Returned a, s')
  | Some (inl e, s') => (Raised e, s')
  | None => (Blocked, s)
  end.
Proof. cbn. destruct (perform env c s) as [[[e | a] s'] |]; reflexivity. Qed.

Lemma exec_ret {R : Type} (r : R) (s : State) : exec env (mret r) s = (Returned r, s).
Proof. reflexivity. Qed.

Lemma exec_logger lvl msg s :
  exec env (logger lvl msg) s = (Returned tt, emit (ELog lvl msg) s).
Proof. reflexivity. Qed.

End Exec.

(** ** The calls each method makes *)

Section Uses.
Context (P : forall A : Type, Call A -> Prop).

Lemma uses_call {A : Type} (c : Call A) : P A c -> uses P (call c).
Proof. intros H. constructor; [exact H | intros [e | a]; constructor]. Qed.

Lemma uses_bind {A B : Type} (p : Prog A) (k : A -> Prog B) :
  uses P p -> (forall a, uses P (k a)) -> uses P (p ≫= k).
Proof.
  change (p ≫= k) with (bind p k).
  induction 1 as [a | e | T c k' Hc _ IH]; intros Hk; cbn.
  - apply Hk.
  - constructor.
  - constructor; [exact Hc | intros r; apply IH, Hk].
Qed.

Lemma uses_try_except_on {R : Type} catches (p : Prog R) (h : exn -> Prog R) :
  uses P p -> (forall e, uses P (h e)) -> uses P (try_except_on catches p h).
Proof.
  induction 1 as [a | e | T c k' Hc _ IH]; intros Hh; cbn.
  - constructor.
  - destruct (catches e); [apply Hh | constructor].
  - constructor; [exact Hc | intros r; apply IH, Hh].
Qed.

Lemma uses_try_except {R : Type} (p : Prog R) (h : exn -> Prog R) :
  uses P p -> (forall e, uses P (h e)) -> uses P (try_except p h).
Proof.
  induction 1 as [a | e | T c k' Hc _ IH]; intros Hh; cbn.
  - constructor.
  - apply Hh.
  - constructor; [exact Hc | intros r; apply IH, Hh].
Qed.

Lemma uses_finally {R : Type} (p : Prog R) (q : Prog unit) :
  uses P p -> uses P q -> uses P (finally p q).
Proof.
  induction 1 as [a | e | T c k' Hc _ IH]; intros Hq; cbn.
  - apply uses_bind; [exact Hq | intros; constructor].
  - apply uses_bind; [exact Hq | intros; constructor].
  - constructor; [exact Hc | intros r; apply IH, Hq].
Qed.

End Uses.

Lemma uses_mono (P Q : forall A : Type, Call A -> Prop) {R : Type} (p : Prog R) :
  (forall A c, P A c -> Q A c) -> uses P p -> uses Q p.
Proof. intros HPQ. induction 1; constructor; auto. Qed.

Create HintDb prog discriminated.
#[local] Hint Constructors uses : prog.
#[local] Hint Resolve uses_call uses_bind uses_try_except uses_try_except_on
  uses_finally : prog.

(** Peels one layer of a program off a [uses] goal. *)
Ltac uses_step :=
  match goal with
  | |- forall _, _ => intro
  | |- uses _ (mret _) => apply uses_Ret
  | |- uses _ (Ret _) => apply uses_Ret
  | |- uses _ (Raise _) => apply uses_Raise
  | |- uses _ (logger _ _) => apply uses_call; first [exact I | reflexivity]
  | |- uses _ (call _) => apply uses_call; first [exact I | reflexivity]
  | |- uses _ (_ ≫= _) => apply uses_bind
  | |- uses _ (try_except _ _) => apply uses_try_except
  | |- uses _ (try_except_on _ _ _) => apply uses_try_except_on
  | |- uses _ (if ?b then _ else _) => destruct b
  | |- uses _ (match ?x with _ => _ end) => destruct x
  end.

Ltac uses_auto := repeat uses_step; auto with prog.

Lemma body_call_but_mono (p p' : power_action -> bool) (b b' : bool) A (c : Call A) :
  (forall a, p a = true -> p' a = true) -> (b = true -> b' = true) ->
  body_call_but p b A c -> body_call_but p' b' A c.
Proof. destruct c; cbn; auto. Qed.

Lemma uses_widen (p p' : power_action -> bool) (b b' : bool) {R} (q : Prog R) :
  (forall a, p a = true -> p' a = true) -> (b = true -> b' = true) ->
  uses (body_call_but p b) q -> uses (body_call_but p' b') q.
Proof. intros Hp Hb. apply uses_mono. intros A c. by apply body_call_but_mono. Qed.

(** Uses a description with fewer calls than the goal allows. *)
Ltac widen H :=
  eapply uses_widen; [| | apply H]; intros; first [discriminate | reflexivity | assumption].

Lemma uses_body_call (p : power_action -> bool) (b : bool) {R} (q : Prog R) :
  uses (body_call_but p b) q -> uses body_call q.
Proof. apply uses_mono. intros A c. apply body_call_but_mono; auto. Qed.

(** The tightest description of each piece of the switch. *)
Section BodyCalls.
Context (cfg : Config).

Lemma uses_get_vm_status vmid : uses (body_call_but no_post false) (get_vm_status cfg vmid).
Proof. unfold get_vm_status. uses_auto. Qed.

Lemma uses_report pm txt : uses (body_call_but no_post false) (report cfg pm txt).
Proof. unfold report. uses_auto. Qed.

#[local] Hint Resolve uses_get_vm_status uses_report : prog.

Lemma uses_wait_loop vmid n : uses (body_call_but no_post true) (wait_loop cfg vmid n).
Proof.
  induction n as [| n IH]; cbn [wait_loop]; uses_auto; widen uses_get_vm_status.
Qed.

Lemma uses_wait_for_shutdown vmid timeout :
  uses (body_call_but no_post true) (_wait_for_shutdown cfg vmid timeout).
Proof. apply uses_wait_loop. Qed.

Lemma uses_preflight tid tname quiet :
  uses (body_call_but no_post false) (preflight cfg tid tname quiet).
Proof. unfold preflight. uses_auto. Qed.

Lemma uses_open_progress tname : uses (body_call_but no_post false) (open_progress cfg tname).
Proof. unfold open_progress. uses_auto. Qed.

#[local] Hint Resolve uses_preflight uses_open_progress : prog.

Lemma uses_enter_switch target_os quiet :
  uses (body_call_but no_post false) (enter_switch cfg target_os quiet).
Proof. unfold enter_switch. uses_auto. Qed.

Lemma uses_request_shutdown sid :
  uses (body_call_but (only shutdown) false) (request_shutdown cfg sid).
Proof. unfold request_shutdown. uses_auto. Qed.

Lemma uses_force_stop sid sname pm :
  uses (body_call_but (only stop) true) (force_stop cfg sid sname pm).
Proof.
  unfold force_stop. uses_auto; widen uses_report.
Qed.

Lemma uses_start_target tid tname pm :
  uses (body_call_but (only start) false) (start_target cfg tid tname pm).
Proof.
  unfold start_target. uses_auto;
    first [widen uses_report | widen uses_get_vm_status].
Qed.

Lemma uses_stop_source sid sname tname pm :
  uses body_call (stop_source cfg sid sname tname pm).
Proof.
  unfold stop_source. uses_auto;
    eauto using uses_body_call, uses_request_shutdown, uses_wait_for_shutdown,
      uses_report, uses_force_stop.
Qed.

Lemma uses_switch_body target_os quiet : uses body_call (switch_body cfg target_os quiet).
Proof.
  unfold switch_body. uses_auto;
    eauto using uses_body_call, uses_enter_switch, uses_get_vm_status,
      uses_stop_source, uses_start_target.
Qed.

End BodyCalls.

(** ** Frame properties *)

Section Frame.
Context (env : Env).

Lemma extend_nil s : extend [] s = s.
Proof. destruct s; unfold extend; cbn. by rewrite app_nil_r. Qed.

Lemma extend_extend a b s : extend b (extend a s) = extend (a ++ b)%list s.
Proof. unfold extend; cbn. by rewrite app_assoc. Qed.

Lemma emit_extend e s : emit e s = extend [e] s.
Proof. reflexivity. Qed.

Lemma perform_keeps_manual_lock {A : Type} (c : Call A) (s : State) r s' :
  keeps_manual_lock A c -> perform env c s = Some (r, s') ->
  _manual_lock s' = _manual_lock s.
Proof.
  destruct c; cbn; intros H Hp; try contradiction;
    repeat (case_match; simplify_eq); simplify_eq; reflexivity.
Qed.

Lemma exec_keeps_manual_lock {R : Type} (p : Prog R) (s : State) :
  uses keeps_manual_lock p -> _manual_lock (exec env p s).2 = _manual_lock s.
Proof.
  intros H. revert s.
  induction H as [r | e | A c k Hc _ IH]; intros s; cbn; try reflexivity.
  destruct (perform env c s) as [[r s'] |] eqn:Hp; [| reflexivity].
  rewrite IH. eapply perform_keeps_manual_lock; eauto.
Qed.

End Frame.

Lemma body_keeps_manual_lock A (c : Call A) : body_call A c -> keeps_manual_lock A c.
Proof. destruct c; cbn; tauto. Qed.

#[local] Hint Resolve uses_body_call uses_get_vm_status : prog.

Lemma uses_perform_switch_manual cfg target_os quiet :
  uses keeps_manual_lock (perform_switch cfg target_os quiet).
Proof.
  unfold perform_switch, is_locked, async_with_op_lock. uses_auto.
  apply uses_finally; [| uses_auto].
  eapply uses_mono; [apply body_keeps_manual_lock | apply uses_switch_body].
Qed.

Lemma uses_serve_manual cfg r : uses keeps_manual_lock (serve cfg r).
Proof.
  destruct r; unfold serve, get_full_status, is_locked; uses_auto;
    first [ apply uses_perform_switch_manual
          | eapply uses_mono; [apply body_keeps_manual_lock | eapply uses_body_call, uses_get_vm_status] ].
Qed.

Lemma serve_all_keeps_manual_lock env cfg rs s :
  _manual_lock (serve_all env cfg rs s) = _manual_lock s.
Proof.
  revert s. induction rs as [| r rs IH]; intros s; cbn; [reflexivity |].
  rewrite IH. apply exec_keeps_manual_lock, uses_serve_manual.
Qed.

(** ** The manual lock gate *)

(** C1.  Whenever [_manual_lock] is set, [perform_switch], for every
    target and either value of [quiet_on_skip], returns the error
    result whose message is "System is manually locked" followed by a
    full stop, and leaves the state as it found it: the trace is the
    same, so no call reached the Control-Plane Client and no message
    the operator; neither lock changed, nor the disk. *)
Theorem perform_switch_locked (env : Env) (cfg : Config) (target_os : string)
    (quiet_on_skip : bool) (s : State) :
  _manual_lock s = true ->
  exec env (perform_switch cfg target_os quiet_on_skip) s =
    (Returned {| status := "error"; message := "System is manually locked" +:+ "." |}, s).
Proof. intros H. cbn. rewrite H. reflexivity. Qed.

Lemma perform_switch_locked_witness :
  _manual_lock Examples.locked_state = true /\
  exec Examples.calm (perform_switch Examples.cfg "windows" false) Examples.locked_state =
    (Returned {| status := "error"; message := "System is manually locked." |},
     Examples.locked_state).
Proof.
  split; [reflexivity |].
  apply (perform_switch_locked Examples.calm Examples.cfg "windows" false
           Examples.locked_state).
  reflexivity.
Defined.

(** ** The lock store *)

(** Two states that differ in how the trace is bracketed. *)
Ltac state_eq := unfold emit, extend; cbn; rewrite <- ?app_assoc; reflexivity.

Section LockStore.
Context (env : Env) (cfg : Config).

Lemma exec_set_lock (b : bool) (s : State) :
  exists s' new,
    exec env (set_lock cfg b) s = (Returned tt, s') /\
    _manual_lock s' = b /\
    trace s' = trace s ++ new /\
    (forall op e, EFile op (Some e) ∈ new ->
       ELog ERROR ("Failed to save lock state: " +:+ exn_str e) ∈ new) /\
    (Forall (fun e => is_fs_fault e = false) new ->
       disk s' !! lock_file_path cfg =
         Some (codepoints (if b then "LOCKED" else "UNLOCKED"))).
Proof.
  unfold set_lock. cbn.
  destruct (fs_fault env (trace s) (FsOpen (lock_file_path cfg) mode_w)) as [e1 |] eqn:H1; cbn.
  - eexists _, [_; _]. repeat split; cbn.
    + by rewrite <- app_assoc.
    + intros op e Hin; repeat (apply elem_of_cons in Hin as [Hin | Hin]);
        try (by apply elem_of_nil in Hin); simplify_eq; repeat constructor.
    + intros HF. inversion HF as [| ? ? Hx _]; subst. discriminate Hx.
  - match goal with |- context [fs_fault env ?h (FsWrite ?p ?c)] =>
      destruct (fs_fault env h (FsWrite p c)) as [e2 |] eqn:H2 end; cbn.
    + eexists _, [_; _; _]. repeat split; cbn.
      * by rewrite <- !app_assoc.
      * intros op e Hin; repeat (apply elem_of_cons in Hin as [Hin | Hin]);
        try (by apply elem_of_nil in Hin); simplify_eq; repeat constructor.
      * intros HF. inversion HF as [| ? ? _ HF']; subst.
        inversion HF' as [| ? ? Hx _]; subst. discriminate Hx.
    + eexists _, [_; _]. repeat split; cbn.
      * by rewrite <- !app_assoc.
      * intros op e Hin; repeat (apply elem_of_cons in Hin as [Hin | Hin]);
        try (by apply elem_of_nil in Hin); simplify_eq; repeat constructor.
      * intros _. by rewrite lookup_insert_eq.
Qed.

(** [_load_lock_state], case by case. *)
Lemma exec_load_lock_state (s : State) :
  let path := lock_file_path cfg in
  let opened := EFile (FsOpen path mode_r) None in
  exec env (_load_lock_state cfg) s =
  match disk s !! path with
  | None => (Returned false, s)
  | Some content =>
      match fs_fault env (trace s) (FsOpen path mode_r) with
      | Some e =>
          (Returned false,
           extend [EFile (FsOpen path mode_r) (Some e);
                   ELog ERROR ("Failed to load lock state: " +:+ exn_str e)] s)
      | None =>
          match fs_fault env (trace s ++ [opened]) (FsRead path) with
          | Some e =>
              (Returned false,
               extend [opened; EFile (FsRead path) (Some e);
                       ELog ERROR ("Failed to load lock state: " +:+ exn_str e)] s)
          | None =>
              let is_locked := text_eqb (strip content) (codepoints "LOCKED") in
              (Returned is_locked,
               extend ([opened; EFile (FsRead path) None]
                       ++ if is_locked
                          then [ELog INFO ("Restored LOCKED state from " +:+ path)]
                          else []) s)
          end
      end
  end.
Proof.
  unfold _load_lock_state. cbn.
  destruct (disk s !! lock_file_path cfg) as [content |] eqn:Hd; cbn; [| reflexivity].
  rewrite Hd.
  destruct (fs_fault env (trace s) (FsOpen (lock_file_path cfg) mode_r)) as [e |]; cbn.
  { state_eq. }
  destruct (fs_fault env _ (FsRead (lock_file_path cfg))) as [e |]; cbn.
  { state_eq. }
  rewrite Hd; cbn.
  destruct (text_eqb (strip content) (codepoints "LOCKED")); cbn;
    state_eq.
Qed.

(** [_load_lock_state] never raises, and answers [True] exactly for
    a file that exists, can be read, and holds LOCKED between
    optional white space. *)
Lemma load_lock_state_spec (s : State) :
  exists v s',
    exec env (_load_lock_state cfg) s = (Returned v, s') /\
    (v = true <->
     exists content,
       disk s !! lock_file_path cfg = Some content /\
       readable env cfg s /\
       strip content = codepoints "LOCKED").
Proof.
  pose proof (exec_load_lock_state s) as H. cbn zeta in H. unfold readable.
  destruct (disk s !! lock_file_path cfg) as [content |].
  2: { eexists _, _. split; [exact H |]. split; [discriminate | intros (? & ? & _); discriminate]. }
  destruct (fs_fault env (trace s) _) as [e |].
  { eexists _, _. split; [exact H |].
    split; [discriminate | intros (? & _ & [? _] & _); discriminate]. }
  destruct (fs_fault env _ (FsRead _)) as [e |].
  { eexists _, _. split; [exact H |].
    split; [discriminate | intros (? & _ & [_ ?] & _); discriminate]. }
  eexists _, _. split; [exact H |]. unfold text_eqb. rewrite bool_decide_eq_true.
  split; [intros Hs; by exists content | intros (c & [= <-] & _ & Hs); exact Hs].
Qed.

End LockStore.

Lemma exec_is_locked env s : exec env is_locked s = (Returned (_manual_lock s), s).
Proof. reflexivity. Qed.

(** C7 (as amended).  [set_lock b] whose file operations did not fail,
    followed by the construction of a new controller over the same
    disk whose file operations did not fail either, leaves
    [_manual_lock = b].  [_load_lock_state] never raises and yields
    [True] exactly when the lock file exists, can be opened and read,
    and its content with leading and trailing white space removed is
    LOCKED; in every other case (absent, unreadable, any other
    content) it yields [False]. *)
Theorem lock_file_round_trip (env env' : Env) (cfg : Config) (s : State) :
  (forall b : bool,
     let s1 := (exec env (set_lock cfg b) s).2 in
     let s2 := restart env' cfg s1 in
     no_fs_fault_since s s1 -> no_fs_fault_since s1 s2 -> _manual_lock s2 = b) /\
  (exists v s',
     exec env (_load_lock_state cfg) s = (Returned v, s') /\
     (v = true <->
      exists content,
        disk s !! lock_file_path cfg = Some content /\
        readable env cfg s /\
        strip content = codepoints "LOCKED")).
Proof.
  split; [| apply load_lock_state_spec].
  intros b.
  destruct (exec_set_lock env cfg b s) as (s1 & new & He & _ & Ht & _ & Hd).
  rewrite He; cbn [snd]. intros H1 H2.
  unfold no_fs_fault_since in H1, H2. rewrite Ht, drop_app_length in H1.
  specialize (Hd H1). revert H2. unfold restart, __init__.
  rewrite exec_bind.
  pose proof (exec_load_lock_state env' cfg (boot (disk s1) (trace s1))) as Hl.
  cbn zeta in Hl. cbn [disk boot] in Hl. rewrite Hd in Hl. cbn [trace boot] in Hl.
  destruct (fs_fault env' (trace s1) _) as [e |].
  { rewrite Hl; cbn. rewrite drop_app_length.
    intros HF. inversion HF as [| ? ? Hx _]; discriminate Hx. }
  destruct (fs_fault env' _ (FsRead _)) as [e |].
  { rewrite Hl; cbn. rewrite drop_app_length.
    intros HF. inversion HF as [| ? ? _ HF']; subst.
    inversion HF' as [| ? ? Hx _]; discriminate Hx. }
  rewrite Hl; cbn. intros _. destruct b; vm_compute; reflexivity.
Qed.

Lemma lock_file_round_trip_witness :
  _manual_lock
    (restart Examples.calm Examples.cfg
       (exec Examples.calm (set_lock Examples.cfg true) Examples.idle).2) = true.
Proof.
  apply (proj1 (lock_file_round_trip Examples.calm Examples.calm Examples.cfg
                  Examples.idle) true);
    unfold no_fs_fault_since; vm_compute; repeat constructor.
Defined.

(** C7, as the specification states it, fails: a lock file that holds
    a blank line, then LOCKED between spaces, is neither the text
    LOCKED nor the text UNLOCKED, and loading it yields [True]. *)
Lemma padded_lock_file_loads_locked :
  disk Examples.padded_disk !! lock_file_path Examples.cfg = Some Examples.padded /\
  Examples.padded <> codepoints "LOCKED" /\
  Examples.padded <> codepoints "UNLOCKED" /\
  (exec Examples.calm (_load_lock_state Examples.cfg) Examples.padded_disk).1
    = Returned true.
Proof.
  split; [reflexivity |]. split; [| split].
  - vm_compute. discriminate.
  - vm_compute. discriminate.
  - vm_compute. reflexivity.
Qed.

(** C8.  [set_lock b] always returns normally; a file operation that
    raised is answered by an ERROR log record and nothing else; from
    then on [is_locked] answers [b], also after any sequence of
    switches and status requests under any environment, until
    [set_lock] is called again. *)
Theorem set_lock_memory_authoritative (env : Env) (cfg : Config) (b : bool) (s : State) :
  exists s' new,
    exec env (set_lock cfg b) s = (Returned tt, s') /\
    trace s' = trace s ++ new /\
    (forall op e, EFile op (Some e) ∈ new ->
       ELog ERROR ("Failed to save lock state: " +:+ exn_str e) ∈ new) /\
    exec env is_locked s' = (Returned b, s') /\
    (forall env' rs,
       let s'' := serve_all env' cfg rs s' in
       exec env' is_locked s'' = (Returned b, s'')).
Proof.
  destruct (exec_set_lock env cfg b s) as (s' & new & He & Hm & Ht & Hlog & _).
  exists s', new. repeat split; try assumption.
  - by rewrite exec_is_locked, Hm.
  - intros env' rs s''. rewrite exec_is_locked. unfold s''.
    by rewrite serve_all_keeps_manual_lock, Hm.
Qed.

Lemma set_lock_memory_authoritative_witness :
  exists s',
    exec Examples.read_only_disk (set_lock Examples.cfg true) Examples.idle
      = (Returned tt, s') /\
    ELog ERROR "Failed to save lock state: [Errno 13] Permission denied" ∈ trace s' /\
    exec Examples.calm is_locked
      (serve_all Examples.calm Examples.cfg [SwitchTo "linux" true; FullStatus] s')
      = (Returned true,
         serve_all Examples.calm Examples.cfg [SwitchTo "linux" true; FullStatus] s').
Proof.
  destruct (set_lock_memory_authoritative Examples.read_only_disk Examples.cfg true
              Examples.idle) as (s' & new & He & Ht & Hlog & _ & Hkeep).
  exists s'. split; [exact He |]. split; [| apply Hkeep].
  vm_compute in He. injection He as <-. vm_compute. repeat constructor.
Defined.

(** ** The status reader *)

Lemma exec_get_vm_status env cfg vmid s :
  let r := pve_status env (trace s) (proxmox_node cfg) vmid in
  exec env (get_vm_status cfg vmid) s =
  (Returned (status_of r),
   extend (EStatusGet (proxmox_node cfg) vmid r ::
           match r with
           | inl e => [ELog ERROR ("Failed to get status for VM " +:+ str_of_int vmid
                                   +:+ ": " +:+ exn_str e)]
           | inr _ => []
           end) s).
Proof.
  unfold get_vm_status; cbn.
  destruct (pve_status env (trace s) (proxmox_node cfg) vmid) as [e | o]; cbn; state_eq.
Qed.

(** C9 (as amended).  [get_full_status] never raises.  It asks the API
    for the Linux VM and then for the Windows VM, whatever the first
    answer was; each role's entry is computed from the answer to its
    own query alone (["error"] when that query raised, the ["status"]
    entry otherwise, ["unknown"] when there is none); and the entry
    ["locked"] is the string [str(self.is_locked)], ["True"] or
    ["False"]. *)
Theorem get_full_status_reports_each_role (env : Env) (cfg : Config) (s : State) :
  let node := proxmox_node cfg in
  let r_linux := pve_status env (trace s) node (vm_id_linux cfg) in
  let s1 := (exec env (get_vm_status cfg (vm_id_linux cfg)) s).2 in
  let r_windows := pve_status env (trace s1) node (vm_id_win cfg) in
  exists d s' new,
    exec env (get_full_status cfg) s = (Returned d, s') /\
    trace s' = trace s ++ new /\
    filter is_pve_call new =
      [EStatusGet node (vm_id_linux cfg) r_linux;
       EStatusGet node (vm_id_win cfg) r_windows] /\
    d !! "linux" = Some (PyStr (status_of r_linux)) /\
    d !! "windows" = Some (PyStr (status_of r_windows)) /\
    d !! "locked" = Some (PyStr (str_of_bool (_manual_lock s))) /\
    (forall e, r_linux = inl e -> d !! "linux" = Some (PyStr "error")) /\
    (forall e, r_windows = inl e -> d !! "windows" = Some (PyStr "error")).
Proof.
  cbv zeta. unfold get_full_status. rewrite exec_bind.
  pose proof (exec_get_vm_status env cfg (vm_id_linux cfg) s) as H1. cbn zeta in H1.
  rewrite !H1. cbn [snd]. rewrite exec_bind.
  match goal with |- context [exec env (get_vm_status cfg (vm_id_win cfg)) ?st] =>
    pose proof (exec_get_vm_status env cfg (vm_id_win cfg) st) as H2 end.
  cbn zeta in H2. rewrite H2.
  rewrite exec_bind, exec_is_locked, exec_ret. rewrite extend_extend.
  set (r_linux := pve_status env (trace s) (proxmox_node cfg) (vm_id_linux cfg)).
  set (r_windows := pve_status env _ (proxmox_node cfg) (vm_id_win cfg)).
  eexists _, _, _. split; [reflexivity |]. split; [reflexivity |].
  split; [destruct r_linux, r_windows; reflexivity |].
  repeat split; intros e He; rewrite He; reflexivity.
Qed.

Lemma get_full_status_reports_each_role_witness :
  exists d,
    (exec (Examples.fixed_env
             (fun vmid => if vmid =? 100 then inl Examples.ConnectionError
                          else Examples.running)
             (fun _ => inr tt) Examples.ok_msg (inr tt) (fun _ => None))
          (get_full_status Examples.cfg) Examples.idle).1 = Returned d /\
    d !! "linux" = Some (PyStr "error") /\
    d !! "windows" = Some (PyStr "running") /\
    d !! "locked" = Some (PyStr "False").
Proof.
  destruct (get_full_status_reports_each_role
              (Examples.fixed_env
                 (fun vmid => if vmid =? 100 then inl Examples.ConnectionError
                              else Examples.running)
                 (fun _ => inr tt) Examples.ok_msg (inr tt) (fun _ => None))
              Examples.cfg Examples.idle)
    as (d & s' & new & He & _ & _ & Hl & Hw & Hk & _).
  exists d. rewrite He. repeat split; assumption.
Defined.

(** C9, as the specification states it, fails: the ["locked"] entry of
    the result is the string ["True"], not a boolean. *)
Lemma get_full_status_locked_is_a_string :
  exists d,
    (exec Examples.calm (get_full_status Examples.cfg) Examples.locked_state).1
      = Returned d /\
    d !! "locked" = Some (PyStr "True") /\
    forall b : bool, d !! "locked" <> Some (PyBool b).
Proof.
  eexists. split; [vm_compute; reflexivity |].
  split; [reflexivity | intros b; discriminate].
Qed.

(** ** The pieces of the switch *)

#[local] Arguments _wait_for_shutdown : simpl never.
#[local] Arguments get_vm_status : simpl never.
#[local] Arguments report : simpl never.
#[local] Arguments enter_switch : simpl never.
#[local] Arguments stop_source : simpl never.
#[local] Arguments start_target : simpl never.
#[local] Arguments switch_body : simpl never.

Lemma count_app f a b : count f (a ++ b) = (count f a + count f b)%nat.
Proof. unfold count. by rewrite filter_app, length_app. Qed.

Lemma count_post_0 posts sleeps a new :
  posts a = false -> Forall (event_but posts sleeps) new -> count (is_post a) new = 0%nat.
Proof.
  intros Hp. induction 1 as [| e new He _ IH]; [reflexivity |].
  change (e :: new) with ([e] ++ new). rewrite count_app, IH.
  destruct e as [| a' | | | | |]; try reflexivity.
  cbn in He. destruct a, a'; cbn; try reflexivity; congruence.
Qed.

Lemma count_sleep_0 posts new :
  Forall (event_but posts false) new -> count is_sleep new = 0%nat.
Proof.
  induction 1 as [| e new He _ IH]; [reflexivity |].
  change (e :: new) with ([e] ++ new). rewrite count_app, IH.
  destruct e; try reflexivity. cbn in He. discriminate.
Qed.

Lemma count_pve_0 new :
  Forall (fun e => is_pve_call e = false) new -> count is_pve_call new = 0%nat.
Proof.
  induction 1 as [| e new He _ IH]; [reflexivity |].
  change (e :: new) with ([e] ++ new). rewrite count_app, IH.
  unfold count; cbn. by rewrite He.
Qed.

Lemma events_since_extend s new : events_since s (extend new s) = new.
Proof. unfold events_since, extend; cbn. apply drop_app_length. Qed.

Section Pieces.
Context (env : Env) (cfg : Config).

Lemma perform_body_call_but posts sleeps {A : Type} (c : Call A) (s : State) :
  body_call_but posts sleeps A c ->
  exists r e, perform env c s = Some (r, extend [e] s) /\ event_but posts sleeps e.
Proof. destruct c; cbn; intros H; try contradiction; eauto. Qed.

(** The body's calls only add events, of the kinds the program uses. *)
Lemma exec_body_events posts sleeps {R : Type} (p : Prog R) (s : State) :
  uses (body_call_but posts sleeps) p ->
  exists o new,
    exec env p s = (o, extend new s) /\ o <> Blocked /\
    Forall (event_but posts sleeps) new.
Proof.
  intros H. revert s.
  induction H as [r | e | A c k Hc _ IH]; intros s; cbn.
  - exists (Returned r), []. by rewrite extend_nil.
  - exists (Raised e), []. by rewrite extend_nil.
  - destruct (perform_body_call_but posts sleeps c s Hc) as (r & e & -> & He).
    destruct (IH r (extend [e] s)) as (o & new & -> & Ho & Hnew).
    exists o, (e :: new). rewrite extend_extend. repeat split; auto.
Qed.

Lemma exec_report pm txt s :
  exec env (report cfg pm txt) s =
    (Returned tt, extend (report_events env cfg pm txt (trace s)) s).
Proof.
  unfold report, report_events. destruct pm as [m |]; cbn.
  - destruct (bot_edit env (trace s) txt (bot_chat_id cfg) (message_id m)) as [e | []]; cbn.
    + destruct (is_TelegramBadRequest e); cbn; state_eq.
    + state_eq.
  - by rewrite extend_nil.
Qed.

Lemma report_events_quiet pm txt h :
  Forall (event_but no_post false) (report_events env cfg pm txt h).
Proof.
  unfold report_events. destruct pm as [m |]; [| constructor].
  destruct (bot_edit env h txt _ _) as [e | ?]; [destruct (is_TelegramBadRequest e) |];
    repeat constructor.
Qed.

Lemma report_events_no_pve pm txt h :
  Forall (fun e => is_pve_call e = false) (report_events env cfg pm txt h).
Proof.
  unfold report_events. destruct pm as [m |]; [| constructor].
  destruct (bot_edit env h txt _ _) as [e | ?]; [destruct (is_TelegramBadRequest e) |];
    repeat constructor.
Qed.

Lemma exec_request_shutdown sid s :
  let r := pve_post env (trace s) shutdown (proxmox_node cfg) sid in
  exec env (request_shutdown cfg sid) s =
  match r with
  | inr _ => (Returned tt, extend [EPost shutdown (proxmox_node cfg) sid r] s)
  | inl e =>
      if is_ResourceException e then
        (Returned tt,
         extend [EPost shutdown (proxmox_node cfg) sid r;
                 ELog ERROR ("Error triggering shutdown: " +:+ exn_str e)] s)
      else (Raised e, extend [EPost shutdown (proxmox_node cfg) sid r] s)
  end.
Proof.
  unfold request_shutdown; cbn.
  destruct (pve_post env (trace s) shutdown (proxmox_node cfg) sid) as [e | []]; cbn.
  - destruct (is_ResourceException e); cbn; state_eq.
  - state_eq.
Qed.

Lemma exec_force_stop sid sname pm s :
  let r := pve_post env (trace s) stop (proxmox_node cfg) sid in
  exec env (force_stop cfg sid sname pm) s =
  match r with
  | inr _ => (Returned None, extend [EPost stop (proxmox_node cfg) sid r; ESleep 3] s)
  | inl e =>
      let msg := "Critical error stopping " +:+ sname +:+ ": " +:+ exn_str e in
      let s1 := extend [EPost stop (proxmox_node cfg) sid r; ELog ERROR msg] s in
      (Returned (Some {| status := "error"; message := msg |}),
       extend (report_events env cfg pm (failed_text msg) (trace s1)) s1)
  end.
Proof.
  unfold force_stop. rewrite exec_try_except. cbn.
  destruct (pve_post env (trace s) stop (proxmox_node cfg) sid) as [e | []]; cbn.
  - change (Vis (Log ERROR ?m) _) with (logger ERROR m).
    match goal with |- context [report cfg pm ?t ≫= ?k] =>
      change (exec env (bind (report cfg pm t) k)) with (exec env (report cfg pm t ≫= k)) end.
    rewrite exec_bind, exec_report. cbn.
    unfold failed_text. f_equal. unfold extend, emit; cbn. by rewrite <- !app_assoc.
  - state_eq.
Qed.

End Pieces.

(** ** Getting into the body *)

Lemma event_but_mono (p p' : power_action -> bool) (b b' : bool) e :
  (forall a, p a = true -> p' a = true) -> (b = true -> b' = true) ->
  event_but p b e -> event_but p' b' e.
Proof. destruct e; cbn; auto. Qed.

Section Switch.
Context (env : Env) (cfg : Config) (target_os : string) (quiet_on_skip : bool).

#[local] Abbreviation node := (proxmox_node cfg).
#[local] Abbreviation src := (source_id cfg target_os).
#[local] Abbreviation tgt := (target_id cfg target_os).

(** What a piece of the body did, read off its result. *)
Lemma exec_events_since posts sleeps {R : Type} (p : Prog R) s o s' :
  uses (body_call_but posts sleeps) p -> exec env p s = (o, s') ->
  exists new, s' = extend new s /\ Forall (event_but posts sleeps) new /\ o <> Blocked.
Proof.
  intros Hu He.
  destruct (exec_body_events env posts sleeps p s Hu) as (o' & new & He' & Ho & Hn).
  rewrite He in He'. injection He' as -> ->. eauto.
Qed.

(** With the manual lock open and the guard free, [perform_switch]
    takes the guard, runs the body and frees the guard. *)
Lemma exec_perform_switch_free s o s' :
  _manual_lock s = false -> _op_lock s = false ->
  exec env (switch_body cfg target_os quiet_on_skip) (set_op true s) = (o, s') ->
  exec env (perform_switch cfg target_os quiet_on_skip) s = (o, set_op false s').
Proof.
  intros Hm Hop Hb.
  destruct (exec_events_since _ _ _ _ _ _ (uses_switch_body cfg target_os quiet_on_skip) Hb)
    as (new & -> & _ & Ho).
  unfold perform_switch, is_locked, async_with_op_lock. cbn. rewrite Hm. cbn.
  rewrite Hop. cbn. rewrite Hop.
  change (exec env (finally (switch_body cfg target_os quiet_on_skip) (call OpLockRelease))
            (set_op true s) = (o, set_op false (extend new (set_op true s)))).
  rewrite exec_finally, Hb.
  destruct o as [r | e |]; [reflexivity | reflexivity | contradiction].
Qed.

Lemma reaches_step2_events s pm s1 :
  reaches_step2 env cfg target_os quiet_on_skip s pm s1 ->
  exists new, s1 = extend new (set_op true s) /\ Forall (event_but no_post false) new.
Proof.
  intros (_ & _ & He).
  destruct (exec_events_since _ _ _ _ _ _ (uses_enter_switch cfg target_os quiet_on_skip) He)
    as (new & -> & Hn & _). eauto.
Qed.

(** The body after [enter_switch]. *)
Lemma exec_switch_body_step2 s pm s1 :
  reaches_step2 env cfg target_os quiet_on_skip s pm s1 ->
  exec env (switch_body cfg target_os quiet_on_skip) (set_op true s) =
  exec env
    (st ← get_vm_status cfg src;
     aborted ← (if String.eqb st "running"
                then stop_source cfg src (source_name target_os)
                       (target_name target_os) pm
                else mret None);
     match aborted with
     | Some r => mret r
     | None => start_target cfg tgt (target_name target_os) pm
     end) s1.
Proof. intros (_ & _ & He). unfold switch_body. by rewrite exec_bind, He. Qed.

Lemma events_since_set_op b s s' : events_since s (set_op b s') = events_since s s'.
Proof. reflexivity. Qed.

Lemma events_since_extend_op new s :
  events_since s (extend new (set_op true s)) = new.
Proof. unfold events_since; cbn. apply drop_app_length. Qed.

(** C10.  When the source's status at the start of step 2 is anything
    but ["running"] (also ["error"], which [get_vm_status] answers
    when the query raised), the switch goes from that query straight
    to [start_target]: its result is the result of the start phase,
    and the whole run holds no shutdown request, no forced stop and
    no sleep. *)
Theorem source_not_running_skips_shutdown s pm s1 :
  reaches_step2 env cfg target_os quiet_on_skip s pm s1 ->
  status_of (pve_status env (trace s1) node src) <> "running" ->
  let s2 := (exec env (get_vm_status cfg src) s1).2 in
  exists o s',
    exec env (start_target cfg tgt (target_name target_os) pm) s2 = (o, s') /\
    exec env (perform_switch cfg target_os quiet_on_skip) s = (o, set_op false s') /\
    count (is_post shutdown) (events_since s s') = 0%nat /\
    count (is_post stop) (events_since s s') = 0%nat /\
    count is_sleep (events_since s s') = 0%nat.
Proof.
  intros Hr Hst.
  destruct (reaches_step2_events _ _ _ Hr) as (n1 & Hs1 & Hn1).
  pose proof (exec_get_vm_status env cfg src s1) as Hq. cbn zeta in Hq.
  cbv zeta. rewrite Hq. cbn [snd].
  set (s2 := extend _ s1) in *.
  destruct (exec_events_since _ _ _ _ _ _ (uses_get_vm_status cfg src) Hq)
    as (n2 & Hs2 & Hn2 & _).
  destruct (exec env (start_target cfg tgt (target_name target_os) pm) s2)
    as [o s'] eqn:Hstart.
  destruct (exec_events_since _ _ _ _ _ _ (uses_start_target cfg tgt _ pm) Hstart)
    as (n3 & Hs3 & Hn3 & _).
  exists o, s'. split; [reflexivity |]. split.
  - destruct Hr as (Hm & Hop & He). apply exec_perform_switch_free; [done | done |].
    rewrite (exec_switch_body_step2 s pm s1) by done.
    rewrite exec_bind, Hq.
    apply String.eqb_neq in Hst. rewrite Hst.
    rewrite exec_bind, exec_ret. exact Hstart.
  - rewrite Hs2, Hs1, !extend_extend in Hs3. rewrite Hs3, events_since_extend_op.
    rewrite !count_app.
    rewrite (count_post_0 _ _ shutdown _ eq_refl Hn1), (count_post_0 _ _ shutdown _ eq_refl Hn2),
      (count_post_0 _ _ shutdown _ eq_refl Hn3).
    rewrite (count_post_0 _ _ stop _ eq_refl Hn1), (count_post_0 _ _ stop _ eq_refl Hn2),
      (count_post_0 _ _ stop _ eq_refl Hn3).
    rewrite (count_sleep_0 _ _ Hn1), (count_sleep_0 _ _ Hn2), (count_sleep_0 _ _ Hn3).
    done.
Qed.

Lemma wait_runs_out_events s pm s4 :
  wait_runs_out env cfg target_os quiet_on_skip s pm s4 ->
  exists new,
    s4 = extend new (set_op true s) /\ Forall (event_but (only shutdown) true) new.
Proof.
  intros (s1 & s2 & s3 & Hr & H2 & H3 & H4).
  destruct (reaches_step2_events _ _ _ Hr) as (n1 & -> & Hn1).
  destruct (exec_events_since _ _ _ _ _ _ (uses_get_vm_status cfg src) H2)
    as (n2 & -> & Hn2 & _).
  destruct (exec_events_since _ _ _ _ _ _ (uses_request_shutdown cfg src) H3)
    as (n3 & -> & Hn3 & _).
  destruct (exec_events_since _ _ _ _ _ _ (uses_wait_for_shutdown cfg src 180) H4)
    as (n4 & -> & Hn4 & _).
  rewrite !extend_extend. eexists; split; [reflexivity |].
  rewrite !Forall_app. repeat split;
    (eapply Forall_impl; [eassumption |]; intros e; apply event_but_mono;
     intros; first [discriminate | reflexivity | assumption]).
Qed.

(** The body once the wait has run out: the "stuck" update, then
    [force_stop]. *)
Lemma exec_switch_body_stuck s pm s4 :
  wait_runs_out env cfg target_os quiet_on_skip s pm s4 ->
  exec env (switch_body cfg target_os quiet_on_skip) (set_op true s) =
  exec env
    (aborted ← force_stop cfg src (source_name target_os) pm;
     match aborted with
     | Some r => mret r
     | None => start_target cfg tgt (target_name target_os) pm
     end) (exec env (report cfg pm (stuck_text target_os)) s4).2.
Proof.
  intros (s1 & s2 & s3 & Hr & H2 & H3 & H4).
  rewrite (exec_switch_body_step2 s pm s1) by done.
  rewrite exec_bind, H2. cbn [String.eqb Ascii.eqb Bool.eqb].
  rewrite exec_bind. unfold stop_source at 1.
  rewrite exec_bind, H3, exec_bind, H4. cbn [negb].
  rewrite exec_bind, exec_report. cbn [snd]. fold (stuck_text target_os).
  rewrite exec_bind, exec_report. reflexivity.
Qed.

(** C5 (as amended).  When the source was found running and
    [_wait_for_shutdown] returned [False], the run holds exactly one
    forced-stop request, issued right after the "stuck" progress
    update, and no start request precedes it.  When that request
    returns, the 3-second sleep follows it directly and the start
    phase runs from there; when it raises, neither a sleep nor any
    request to the API follows (the start phase does not begin). *)
Theorem force_stop_exactly_once s pm s4 :
  wait_runs_out env cfg target_os quiet_on_skip s pm s4 ->
  let s5 := (exec env (report cfg pm (stuck_text target_os)) s4).2 in
  let r := pve_post env (trace s5) stop node src in
  exists o s' post,
    exec env (perform_switch cfg target_os quiet_on_skip) s = (o, s') /\
    trace s' = trace s5 ++ EPost stop node src r :: post /\
    count (is_post stop) (events_since s s') = 1%nat /\
    count (is_post start) (events_since s s5) = 0%nat /\
    match r with
    | inr _ =>
        let s6 := extend [EPost stop node src r; ESleep 3] s5 in
        exists s7,
          exec env (start_target cfg tgt (target_name target_os) pm) s6 = (o, s7) /\
          s' = set_op false s7 /\
          post = ESleep 3 :: events_since s6 s7
    | inl _ =>
        count is_pve_call post = 0%nat /\ count is_sleep post = 0%nat
    end.
Proof.
  intros Hw. cbv zeta.
  destruct (wait_runs_out_events _ _ _ Hw) as (n4 & Hs4 & Hn4).
  pose proof (exec_switch_body_stuck _ _ _ Hw) as Hbody.
  assert (Hfree : _manual_lock s = false /\ _op_lock s = false).
  { destruct Hw as (? & ? & ? & (? & ? & _) & _). done. }
  destruct Hfree as [Hm Hop].
  rewrite exec_report in Hbody |- *. cbn [snd] in Hbody |- *.
  pose proof (report_events_quiet env cfg pm (stuck_text target_os) (trace s4)) as Hn5.
  set (n5 := report_events env cfg pm (stuck_text target_os) (trace s4)) in *.
  rewrite exec_bind, exec_force_stop in Hbody. cbn zeta in Hbody.
  assert (Hs5 : extend n5 s4 = extend (n4 ++ n5) (set_op true s))
    by (by rewrite Hs4, extend_extend).
  assert (Hbefore : forall a, a <> shutdown ->
            count (is_post a) (events_since s (extend n5 s4)) = 0%nat).
  { intros a Ha. rewrite Hs5, events_since_extend_op, count_app.
    rewrite (count_post_0 (only shutdown) true a n4), (count_post_0 no_post false a n5);
      [done | done | done | by destruct a | done]. }
  destruct (pve_post env (trace (extend n5 s4)) stop node src) as [e | []] eqn:Hpost.
  - (* the forced stop raised *)
    set (msg := "Critical error stopping " +:+ source_name target_os +:+ ": " +:+ exn_str e) in *.
    set (s6 := extend [EPost stop node src (inl e); ELog ERROR msg] (extend n5 s4)) in *.
    pose proof (report_events_quiet env cfg pm (failed_text msg) (trace s6)) as Hn7.
    set (n7 := report_events env cfg pm (failed_text msg) (trace s6)) in *.
    rewrite exec_ret in Hbody.
    eexists _, _, (ELog ERROR msg :: n7).
    split; [apply exec_perform_switch_free; [done | done | exact Hbody] |].
    split; [unfold s6, extend; cbn; by rewrite <- !app_assoc |].
    split; [| split; [by apply Hbefore |]].
    + rewrite events_since_set_op. unfold s6. rewrite Hs5, !extend_extend.
      rewrite events_since_extend_op, !count_app.
      rewrite (count_post_0 (only shutdown) true stop n4),
        (count_post_0 no_post false stop n5), (count_post_0 no_post false stop n7);
        done.
    + split.
      * apply count_pve_0. constructor; [reflexivity |].
        apply report_events_no_pve.
      * apply (count_sleep_0 no_post). constructor; [exact I | exact Hn7].
  - (* the forced stop returned *)
    set (s6 := extend [EPost stop node src (inr ()); ESleep 3] (extend n5 s4)) in *.
    destruct (exec env (start_target cfg tgt (target_name target_os) pm) s6)
      as [o s7] eqn:Hstart.
    destruct (exec_events_since _ _ _ _ _ _ (uses_start_target cfg tgt _ pm) Hstart)
      as (n7 & Hs7 & Hn7 & _).
    eexists o, (set_op false s7), (ESleep 3 :: n7).
    split; [apply exec_perform_switch_free; [done | done | exact Hbody] |].
    split; [rewrite Hs7; unfold s6, extend; cbn; by rewrite <- !app_assoc |].
    split; [| split; [by apply Hbefore |]].
    + rewrite events_since_set_op, Hs7. unfold s6. rewrite Hs5, !extend_extend.
      rewrite events_since_extend_op, !count_app.
      rewrite (count_post_0 (only shutdown) true stop n4),
        (count_post_0 no_post false stop n5), (count_post_0 (only start) false stop n7);
        done.
    + exists s7. split; [reflexivity |]. split; [reflexivity |].
      by rewrite Hs7, events_since_extend.
Qed.

(** C6.  When the forced-stop request raises [e], the run logs the
    error, calls [report] with the failure text (which edits the
    progress message when there is one), and returns the error
    result with that message; no start request is issued in the
    whole run. *)
Theorem force_stop_failure_aborts s pm s4 e :
  wait_runs_out env cfg target_os quiet_on_skip s pm s4 ->
  let s5 := (exec env (report cfg pm (stuck_text target_os)) s4).2 in
  pve_post env (trace s5) stop node src = inl e ->
  let msg := stop_failed_msg target_os e in
  let s6 := extend [EPost stop node src (inl e); ELog ERROR msg] s5 in
  exists s7,
    exec env (report cfg pm (failed_text msg)) s6 = (Returned tt, s7) /\
    exec env (perform_switch cfg target_os quiet_on_skip) s =
      (Returned {| status := "error"; message := msg |}, set_op false s7) /\
    count (is_post start) (events_since s s7) = 0%nat /\
    (forall m, pm = Some m ->
       exists r rest,
         events_since s6 s7 =
           EEditMessageText (failed_text msg) (bot_chat_id cfg) (message_id m) r :: rest).
Proof.
  intros Hw. cbv zeta.
  destruct (wait_runs_out_events _ _ _ Hw) as (n4 & Hs4 & Hn4).
  pose proof (exec_switch_body_stuck _ _ _ Hw) as Hbody.
  assert (Hfree : _manual_lock s = false /\ _op_lock s = false).
  { destruct Hw as (? & ? & ? & (? & ? & _) & _). done. }
  destruct Hfree as [Hm Hop].
  rewrite exec_report in Hbody |- *. cbn [snd] in Hbody |- *.
  pose proof (report_events_quiet env cfg pm (stuck_text target_os) (trace s4)) as Hn5.
  set (n5 := report_events env cfg pm (stuck_text target_os) (trace s4)) in *.
  intros Hpost.
  rewrite exec_bind, exec_force_stop in Hbody. cbn zeta in Hbody.
  rewrite Hpost in Hbody. rewrite exec_ret in Hbody.
  fold (stop_failed_msg target_os e) in Hbody.
  set (msg := stop_failed_msg target_os e) in *.
  set (s6 := extend [EPost stop node src (inl e); ELog ERROR msg] (extend n5 s4)) in *.
  pose proof (report_events_quiet env cfg pm (failed_text msg) (trace s6)) as Hn7.
  exists (extend (report_events env cfg pm (failed_text msg) (trace s6)) s6).
  split; [apply exec_report |].
  split; [apply exec_perform_switch_free; [done | done | exact Hbody] |].
  split.
  - unfold s6. rewrite Hs4, !extend_extend, events_since_extend_op, !count_app.
    rewrite (count_post_0 (only shutdown) true start n4) by done.
    rewrite (count_post_0 no_post false start n5) by done.
    rewrite (count_post_0 no_post false start (report_events _ _ _ _ _))
      by (first [reflexivity | apply report_events_quiet]).
    reflexivity.
  - intros m ->. rewrite events_since_extend. unfold report_events.
    eexists _, _. reflexivity.
Qed.

(** The pre-flight check, when the target is found running: the skip
    when the notification is not sent or is delivered, and what
    happens when [send_message] raises. *)
Lemma preflight_target_running s :
  status_of (pve_status env (trace s) node tgt) = "running" ->
  let s1 := extend [ELog INFO ("Skipping switch: " +:+ target_name target_os
                               +:+ " is already running.")]
              (exec env (get_vm_status cfg tgt) s).2 in
  let sent := bot_send env (trace s1) (bot_chat_id cfg) (already_running_text target_os) in
  exec env (preflight cfg tgt (target_name target_os) quiet_on_skip) s =
  if quiet_on_skip then (Returned (Some (already_running target_os)), s1)
  else
    let s2 := extend [ESendMessage (bot_chat_id cfg) (already_running_text target_os) sent] s1 in
    match sent with
    | inr _ => (Returned (Some (already_running target_os)), s2)
    | inl e =>
        (Returned None,
         extend [ELog WARNING ("Pre-flight status check failed: " +:+ exn_str e)] s2)
    end.
Proof.
  intros Hst. cbv zeta. unfold preflight. rewrite exec_try_except, exec_bind.
  rewrite exec_get_vm_status. cbn [snd]. rewrite Hst.
  cbn [String.eqb Ascii.eqb Bool.eqb]. rewrite exec_bind, exec_logger, exec_bind.
  rewrite emit_extend. fold (already_running_text target_os).
  destruct quiet_on_skip; cbn [negb].
  - reflexivity.
  - rewrite exec_bind, exec_call. cbn [perform].
    destruct (bot_send env _ (bot_chat_id cfg) (already_running_text target_os))
      as [e | m]; reflexivity.
Qed.

(** X19.  The skip of step 1: with the manual lock open and the guard
    free, a target found running, and the notification either not
    wanted or delivered, the switch returns the already-running result
    after the status query alone: no shutdown, stop or start request
    is issued, and the only message to the chat is that notification,
    when it is wanted. *)
Lemma perform_switch_skips_running_target s :
  _manual_lock s = false -> _op_lock s = false ->
  status_of (pve_status env (trace s) node tgt) = "running" ->
  let s1 := extend [ELog INFO ("Skipping switch: " +:+ target_name target_os
                               +:+ " is already running.")]
              (exec env (get_vm_status cfg tgt) s).2 in
  (quiet_on_skip = true \/
   exists m, bot_send env (trace s1) (bot_chat_id cfg) (already_running_text target_os) = inr m) ->
  exists o s',
    exec env (perform_switch cfg target_os quiet_on_skip) s = (Returned o, s') /\
    o = already_running target_os /\
    count (fun e => is_post shutdown e || is_post stop e || is_post start e)
      (events_since s s') = 0%nat /\
    count is_bot_call (events_since s s') = (if quiet_on_skip then 0 else 1)%nat.
Proof.
  intros Hm Hop Hst. cbv zeta. intros Hsend.
  assert (Hst' : status_of (pve_status env (trace (set_op true s)) node tgt) = "running")
    by exact Hst.
  pose proof (preflight_target_running (set_op true s) Hst') as Hp. cbv zeta in Hp.
  rewrite exec_get_vm_status in Hp, Hsend. cbn [snd] in Hp, Hsend.
  rewrite !extend_extend in Hp, Hsend.
  change (trace (set_op true s)) with (trace s) in Hp.
  assert (Hbody : forall r s',
            exec env (preflight cfg tgt (target_name target_os) quiet_on_skip)
              (set_op true s) = (Returned (Some r), s') ->
            exec env (perform_switch cfg target_os quiet_on_skip) s
              = (Returned r, set_op false s')).
  { intros r s' He. apply exec_perform_switch_free; [done | done |].
    unfold switch_body, enter_switch. by rewrite !exec_bind, He. }
  destruct quiet_on_skip.
  - eexists _, _. split; [apply Hbody, Hp |]. split; [reflexivity |].
    rewrite events_since_set_op, events_since_extend_op.
    destruct (pve_status env (trace s) node tgt); split; reflexivity.
  - destruct Hsend as [Hq | [m Hsent]]; [discriminate |].
    change (trace (extend ?n s)) with (trace (extend n (set_op true s))) in Hsent.
    rewrite Hsent in Hp. rewrite extend_extend in Hp.
    eexists _, _. split; [apply Hbody, Hp |]. split; [reflexivity |].
    rewrite events_since_set_op, events_since_extend_op.
    destruct (pve_status env (trace s) node tgt); split; reflexivity.
Qed.

Lemma exec_open_progress s :
  let txt := "🔄 <b>Switching to " +:+ target_name target_os +:+ "...</b>" +:+ LF
             +:+ "⏳ Initializing..." in
  let r := bot_send env (trace s) (bot_chat_id cfg) txt in
  exec env (open_progress cfg (target_name target_os)) s =
  match r with
  | inr m => (Returned (Some m), extend [ESendMessage (bot_chat_id cfg) txt r] s)
  | inl e =>
      (Returned None,
       extend [ESendMessage (bot_chat_id cfg) txt r;
               ELog ERROR ("Failed to send init message: " +:+ exn_str e)] s)
  end.
Proof.
  cbv zeta. unfold open_progress. cbn.
  destruct (bot_send env (trace s) (bot_chat_id cfg) _) as [e | m]; cbn; state_eq.
Qed.

(** The pre-flight check when the target is found running and the
    notification raises: the handler of the [try] takes the
    exception, and the switch goes on to step 2. *)
Lemma notification_failure_reaches_step2 s e :
  _manual_lock s = false -> _op_lock s = false ->
  quiet_on_skip = false ->
  status_of (pve_status env (trace s) node tgt) = "running" ->
  let s1 := extend [ELog INFO ("Skipping switch: " +:+ target_name target_os
                               +:+ " is already running.")]
              (exec env (get_vm_status cfg tgt) s).2 in
  bot_send env (trace s1) (bot_chat_id cfg) (already_running_text target_os) = inl e ->
  exists pm s2, reaches_step2 env cfg target_os quiet_on_skip s pm s2.
Proof.
  intros Hm Hop Hq Hst. cbv zeta. intros Hsend.
  assert (Hst' : status_of (pve_status env (trace (set_op true s)) node tgt) = "running")
    by exact Hst.
  pose proof (preflight_target_running (set_op true s) Hst') as Hp. cbv zeta in Hp.
  rewrite Hq in Hp. rewrite exec_get_vm_status in Hp, Hsend. cbn [snd] in Hp, Hsend.
  change (trace (set_op true s)) with (trace s) in Hp.
  change (trace (extend ?a (extend ?n s))) with (trace (extend a (extend n (set_op true s))))
    in Hsend.
  rewrite Hsend in Hp.
  unfold reaches_step2, enter_switch. rewrite Hq, exec_bind, Hp.
  rewrite exec_bind, exec_logger, exec_bind, exec_open_progress. cbv zeta.
  match goal with |- context [bot_send env ?h ?c ?t] =>
    destruct (bot_send env h c t) as [e' | m] end;
    rewrite exec_bind, exec_report, exec_ret; eauto.
Qed.

(** The shutdown request of step 2 when it raises anything but a
    [ResourceException]: nothing catches it, and [perform_switch]
    raises it to its caller after releasing the guard. *)
Lemma shutdown_other_error_escapes s pm s1 s2 e :
  reaches_step2 env cfg target_os quiet_on_skip s pm s1 ->
  exec env (get_vm_status cfg src) s1 = (Returned "running", s2) ->
  pve_post env (trace s2) shutdown node src = inl e ->
  is_ResourceException e = false ->
  exec env (perform_switch cfg target_os quiet_on_skip) s =
    (Raised e, set_op false (extend [EPost shutdown node src (inl e)] s2)).
Proof.
  intros Hr H2 Hpost Hres.
  pose proof (exec_request_shutdown env cfg src s2) as H3. cbn zeta in H3.
  rewrite Hpost, Hres in H3.
  destruct Hr as (Hm & Hop & He). apply exec_perform_switch_free; [done | done |].
  rewrite (exec_switch_body_step2 s pm s1) by done.
  rewrite exec_bind, H2. cbn [String.eqb Ascii.eqb Bool.eqb].
  rewrite exec_bind. unfold stop_source at 1.
  by rewrite exec_bind, H3.
Qed.

(** The shutdown request of step 2 when the API answers it with a
    [ResourceException]: the error is logged and the wait follows. *)
Lemma shutdown_resource_error_proceeds s pm s1 s2 e :
  reaches_step2 env cfg target_os quiet_on_skip s pm s1 ->
  exec env (get_vm_status cfg src) s1 = (Returned "running", s2) ->
  pve_post env (trace s2) shutdown node src = inl e ->
  is_ResourceException e = true ->
  let s3 := extend [EPost shutdown node src (inl e);
                    ELog ERROR ("Error triggering shutdown: " +:+ exn_str e)] s2 in
  exec env (request_shutdown cfg src) s2 = (Returned tt, s3) /\
  exec env (switch_body cfg target_os quiet_on_skip) (set_op true s) =
  exec env
    (stopped ← _wait_for_shutdown cfg src 180;
     aborted ← (if negb stopped then
                  report cfg pm (stuck_text target_os);;
                  force_stop cfg src (source_name target_os) pm
                else mret None);
     match aborted with
     | Some r => mret r
     | None => start_target cfg tgt (target_name target_os) pm
     end) s3.
Proof.
  intros Hr H2 Hpost Hres. cbv zeta.
  pose proof (exec_request_shutdown env cfg src s2) as H3. cbn zeta in H3.
  rewrite Hpost, Hres in H3. split; [exact H3 |].
  rewrite (exec_switch_body_step2 s pm s1) by done.
  rewrite exec_bind, H2. cbn [String.eqb Ascii.eqb Bool.eqb].
  rewrite exec_bind. unfold stop_source at 1.
  rewrite exec_bind, H3. rewrite !exec_bind.
  destruct (exec env (_wait_for_shutdown cfg src 180) _) as [[[] | e' |] sw];
    try reflexivity.
  cbn [negb]. unfold stuck_text. by rewrite !exec_bind.
Qed.

End Switch.

(** ** The switch on concrete runs *)

Lemma source_not_running_skips_shutdown_witness :
  exists pm s1,
    reaches_step2 Examples.linux_unreachable Examples.cfg "windows" false
      Examples.idle pm s1 /\
    status_of (pve_status Examples.linux_unreachable (trace s1) "pve" 100) = "error" /\
    let run := exec Examples.linux_unreachable
                 (perform_switch Examples.cfg "windows" false) Examples.idle in
    run.1 = Returned {| status := "ok"; message := "Switched to Windows" |} /\
    count (is_post shutdown) (events_since Examples.idle run.2) = 0%nat /\
    count is_sleep (events_since Examples.idle run.2) = 0%nat.
Proof.
  eexists _, _. split; [| split].
  - split; [reflexivity |]. split; [reflexivity |]. vm_compute. reflexivity.
  - reflexivity.
  - cbv zeta.
    edestruct (source_not_running_skips_shutdown Examples.linux_unreachable Examples.cfg
                 "windows" false Examples.idle)
      as (o & s' & Hstart & Hrun & Hshut & _ & Hsleep).
    + split; [reflexivity |]. split; [reflexivity |]. vm_compute. reflexivity.
    + vm_compute. discriminate.
    + rewrite Hrun. cbn [fst snd]. rewrite events_since_set_op.
      split; [| split; [exact Hshut | exact Hsleep]].
      vm_compute in Hstart. by injection Hstart as <- _.
Defined.

Lemma force_stop_exactly_once_witness :
  exists pm s4,
    wait_runs_out Examples.calm Examples.cfg "windows" false Examples.idle pm s4 /\
    let run := exec Examples.calm (perform_switch Examples.cfg "windows" false)
                 Examples.idle in
    count (is_post stop) (events_since Examples.idle run.2) = 1%nat.
Proof.
  eexists _, _. split.
  - eexists _, _, _. split; [| split; [| split]].
    + split; [reflexivity |]. split; [reflexivity |]. vm_compute. reflexivity.
    + vm_compute. reflexivity.
    + vm_compute. reflexivity.
    + vm_compute. reflexivity.
  - cbv zeta.
    edestruct (force_stop_exactly_once Examples.calm Examples.cfg "windows" false
                 Examples.idle)
      as (o & s' & post & Hrun & _ & Hcount & _).
    + eexists _, _, _. split; [| split; [| split]].
      * split; [reflexivity |]. split; [reflexivity |]. vm_compute. reflexivity.
      * vm_compute. reflexivity.
      * vm_compute. reflexivity.
      * vm_compute. reflexivity.
    + rewrite Hrun. exact Hcount.
Defined.

(** C5, as the specification states it, fails: Linux, the source, is
    running and never stops, the wait runs out, and the API refuses
    the forced stop.  The one forced-stop request is not followed by
    the 3-second sleep, and the start phase does not begin. *)
Lemma refused_force_stop_has_no_settle_wait :
  (exists pm s4,
     wait_runs_out Examples.stop_refused Examples.cfg "windows" false Examples.idle pm s4) /\
  let run := exec Examples.stop_refused (perform_switch Examples.cfg "windows" false)
               Examples.idle in
  count (is_post stop) (trace run.2) = 1%nat /\
  count is_settle_wait (trace run.2) = 0%nat /\
  count (is_post start) (trace run.2) = 0%nat /\
  status <$> (match run.1 with Returned r => Some r | _ => None end) = Some "error".
Proof.
  split.
  - eexists _, _. eexists _, _, _. split; [| split; [| split]].
    + split; [reflexivity |]. split; [reflexivity |]. vm_compute. reflexivity.
    + vm_compute. reflexivity.
    + vm_compute. reflexivity.
    + vm_compute. reflexivity.
  - cbv zeta. repeat split; vm_compute; reflexivity.
Qed.

Lemma force_stop_failure_aborts_witness :
  exists pm s4,
    wait_runs_out Examples.stop_refused Examples.cfg "windows" false Examples.idle pm s4 /\
    let run := exec Examples.stop_refused (perform_switch Examples.cfg "windows" false)
                 Examples.idle in
    run.1 = Returned {| status := "error";
                        message := "Critical error stopping Linux: 500 Internal Server Error: got timeout" |} /\
    count (is_post start) (events_since Examples.idle run.2) = 0%nat.
Proof.
  eexists _, _. split.
  - eexists _, _, _. split; [| split; [| split]].
    + split; [reflexivity |]. split; [reflexivity |]. vm_compute. reflexivity.
    + vm_compute. reflexivity.
    + vm_compute. reflexivity.
    + vm_compute. reflexivity.
  - cbv zeta.
    edestruct (force_stop_failure_aborts Examples.stop_refused Examples.cfg "windows" false
                 Examples.idle)
      as (s7 & _ & Hrun & Hcount & _).
    + eexists _, _, _. split; [| split; [| split]].
      * split; [reflexivity |]. split; [reflexivity |]. vm_compute. reflexivity.
      * vm_compute. reflexivity.
      * vm_compute. reflexivity.
      * vm_compute. reflexivity.
    + vm_compute. reflexivity.
    + rewrite Hrun. cbn [fst snd]. rewrite events_since_set_op.
      split; [reflexivity | exact Hcount].
Defined.

(** C3 at the input where the code departs from it.  Linux is the
    target and is running, Windows is running too, [quiet_on_skip] is
    false and Telegram cannot be reached: the notification raises
    inside the pre-flight [try], its handler logs "Pre-flight status
    check failed" and falls through, and the switch is carried out:
    Windows gets a shutdown request and the result is "Switched to
    Linux", not "Linux is already running". *)
Theorem preflight_notification_failure_switches :
  let run := exec Examples.no_telegram (perform_switch Examples.cfg "linux" false)
               Examples.idle in
  _manual_lock Examples.idle = false /\ _op_lock Examples.idle = false /\
  status_of (pve_status Examples.no_telegram (trace Examples.idle) "pve"
               (target_id Examples.cfg "linux")) = "running" /\
  run.1 = Returned {| status := "ok"; message := "Switched to Linux" |} /\
  run.1 <> Returned (already_running "linux") /\
  filter is_pve_call (trace run.2) =
    [EStatusGet "pve" 100 Examples.running;
     EStatusGet "pve" 101 Examples.running;
     EPost shutdown "pve" 101 (inr tt);
     EStatusGet "pve" 101 Examples.stopped;
     EStatusGet "pve" 100 Examples.running] /\
  ELog WARNING "Pre-flight status check failed: Request timeout error" ∈ trace run.2.
Proof.
  cbv zeta.
  split; [reflexivity |]. split; [reflexivity |]. split; [reflexivity |].
  split; [vm_compute; reflexivity |].
  split; [vm_compute; discriminate |].
  split; [vm_compute; reflexivity |].
  vm_compute. repeat constructor.
Qed.

(** C4 at the input where the code departs from it.  Linux, the
    source, is running and the connection drops on the shutdown
    request: the exception is not a [ResourceException], so the
    [except] clause does not take it; nothing is logged, the wait
    never starts, and [perform_switch] raises the exception to its
    caller (the guard is released on the way out). *)
Theorem shutdown_connection_error_escapes :
  let run := exec Examples.shutdown_unreachable
               (perform_switch Examples.cfg "windows" false) Examples.idle in
  is_ResourceException Examples.ConnectionError = false /\
  run.1 = Raised Examples.ConnectionError /\
  _op_lock run.2 = false /\
  filter is_pve_call (trace run.2) =
    [EStatusGet "pve" 101 Examples.stopped;
     EStatusGet "pve" 100 Examples.running;
     EPost shutdown "pve" 100 (inl Examples.ConnectionError)] /\
  count is_error_log (trace run.2) = 0%nat /\
  count is_sleep (trace run.2) = 0%nat.
Proof.
  cbv zeta.
  split; [reflexivity |]. split; [vm_compute; reflexivity |].
  split; [vm_compute; reflexivity |]. split; [vm_compute; reflexivity |].
  split; vm_compute; reflexivity.
Qed.


(** A shutdown request that the API refuses with a [ResourceException]
    is logged, and the wait follows: here it runs its 180 polls. *)
Example shutdown_refused_is_logged :
  let run := exec Examples.shutdown_refused (perform_switch Examples.cfg "windows" false)
               Examples.idle in
  run.1 = Returned {| status := "ok"; message := "Switched to Windows" |} /\
  ELog ERROR "Error triggering shutdown: 500 Internal Server Error: got timeout"
    ∈ take 7 (trace run.2) /\
  count is_sleep (trace run.2) = 181%nat.
Proof.
  cbv zeta. split; [vm_compute; reflexivity |].
  split; [vm_compute; repeat constructor | vm_compute; reflexivity].
Qed.

(** ** The guard *)

Section Guard.
Context (env : Env) (cfg : Config).

Lemma in_body_finally {R : Type} (b : Prog R) :
  uses body_call b -> in_body (finally b (call OpLockRelease)).
Proof.
  induction 1 as [r | e | A c k Hc _ IH]; cbn.
  - constructor. intros [e | []]; exact I.
  - constructor. intros [e' | []]; exact I.
  - constructor; [exact Hc | exact IH].
Qed.

Lemma not_in_body_finished {R : Type} (p : Prog R) : finished p -> ~ in_body p.
Proof. intros Hf Hb. destruct Hb; exact Hf. Qed.

(** A task in the body is at a call of the body or at the release. *)
Lemma in_body_head {R : Type} (p : Prog R) :
  in_body p ->
  match p with
  | Vis c _ => body_call _ c \/ match c with OpLockRelease => True | _ => False end
  | _ => False
  end.
Proof. intros [k _ | A c k Hc _]; [by right | by left]. Qed.

Lemma not_in_body_fresh target_os quiet :
  ~ in_body (perform_switch cfg target_os quiet).
Proof. intros H. apply in_body_head in H. cbn in H. tauto. Qed.

(** A turn of a task that holds the guard: it still holds it after,
    or it has released it and ended. *)
Lemma run_slice_in_body {R : Type} (p : Prog R) (s : State) (resumed : bool) :
  in_body p -> _op_lock s = true ->
  exists p' s',
    run_slice env resumed p s = (p', s') /\
    _manual_lock s' = _manual_lock s /\
    ((in_body p' /\ _op_lock s' = true) \/ (finished p' /\ _op_lock s' = false)).
Proof.
  intros Hb. revert s resumed.
  induction Hb as [k Hk | A c k Hc Hk IH]; intros s resumed Hop.
  - cbn. rewrite Hop. specialize (Hk (inr tt)).
    destruct (k (inr ())) eqn:Hkr; try contradiction; cbn;
      eexists _, _; (split; [reflexivity |]); (split; [reflexivity |]);
      right; (split; [exact I | reflexivity]).
  - cbn [run_slice].
    destruct (is_await c && negb resumed).
    + eexists _, _. split; [reflexivity |]. split; [reflexivity |].
      left. split; [by constructor | exact Hop].
    + destruct (perform_body_call_but env _ _ c s Hc) as (r & e & -> & _).
      destruct (IH r (extend [e] s) false Hop) as (p' & s' & -> & Hm & Hcase).
      eexists _, _. split; [reflexivity |]. split; [exact Hm | exact Hcase].
Qed.

(** The first turn of a call of [perform_switch]. *)
Lemma run_slice_fresh target_os quiet (s : State) (resumed : bool) :
  run_slice env resumed (perform_switch cfg target_os quiet) s =
  if _manual_lock s then (Ret locked_error, s)
  else if _op_lock s then (Ret busy_error, s)
  else run_slice env false
         (finally (switch_body cfg target_os quiet) (call OpLockRelease))
         (set_op true s).
Proof.
  unfold perform_switch, is_locked, async_with_op_lock. cbn.
  destruct (_manual_lock s); cbn; [reflexivity |].
  destruct (_op_lock s) eqn:Hop; cbn; [reflexivity |].
  rewrite Hop. reflexivity.
Qed.

End Guard.

Section Loop.
Context (env : Env) (cfg : Config).

Lemma set_lock_keeps_op_lock b s :
  _op_lock (exec env (set_lock cfg b) s).2 = _op_lock s.
Proof.
  unfold set_lock. cbn.
  destruct (fs_fault env (trace s) _); cbn; [reflexivity |].
  destruct (fs_fault env _ (FsWrite _ _)); reflexivity.
Qed.

Lemma holder_update (l : list (Prog SwitchResult)) i p' (h h' : option nat) :
  (forall j q, l !! j = Some q -> (in_body q <-> h = Some j)) ->
  (in_body p' <-> h' = Some i) ->
  (forall j, j <> i -> (h' = Some j <-> h = Some j)) ->
  forall j q, <[i := p']> l !! j = Some q -> (in_body q <-> h' = Some j).
Proof.
  intros Hold Hi Hother j q Hj.
  apply list_lookup_insert_Some in Hj as [(-> & -> & _) | (Hne & Hj)]; [exact Hi |].
  rewrite (Hold j q Hj). symmetry. apply Hother. congruence.
Qed.

Lemma class_update (l : list (Prog SwitchResult)) i p' :
  (forall j q, l !! j = Some q -> fresh cfg q \/ in_body q \/ finished q) ->
  fresh cfg p' \/ in_body p' \/ finished p' ->
  forall j q, <[i := p']> l !! j = Some q -> fresh cfg q \/ in_body q \/ finished q.
Proof.
  intros Hold Hi j q Hj.
  apply list_lookup_insert_Some in Hj as [(-> & -> & _) | (Hne & Hj)]; eauto.
Qed.

Lemma valid_update (l : list (Prog SwitchResult)) i p p' (h h' : option nat) :
  l !! i = Some p ->
  (forall j, h = Some j -> is_Some (l !! j)) ->
  (forall j, j <> i -> (h' = Some j <-> h = Some j)) ->
  forall j, h' = Some j -> is_Some (<[i := p']> l !! j).
Proof.
  intros Hi Hold Hother j Hj.
  destruct (decide (j = i)) as [-> | Hne].
  - rewrite list_lookup_insert_eq; [eauto |]. by apply lookup_lt_Some in Hi.
  - rewrite list_lookup_insert_ne by congruence. apply Hold. by apply Hother.
Qed.

(** Every step of the loop keeps the invariant. *)
Lemma guard_inv_tick (t : tick) (sys : System) (h : option nat) :
  guard_inv cfg sys h -> exists h', guard_inv cfg (do_tick env cfg t sys) h'.
Proof.
  intros (Hclass & Hhold & Hvalid & Hop).
  destruct t as [target_os quiet | i | b]; cbn [do_tick].
  - (* a new call *)
    exists h. split; [| split; [| split]]; cbn [tasks shared]; [| | | exact Hop].
    + intros i p [Hi | (_ & Hi)]%lookup_app_Some; [eauto |].
      apply list_lookup_singleton_Some in Hi as [_ <-]. left. by eexists _, _.
    + intros i p [Hi | (Hlen & Hi)]%lookup_app_Some; [by apply (Hhold i p Hi) |].
      apply list_lookup_singleton_Some in Hi as [_ <-]. split.
      * intros Hb. by apply not_in_body_fresh in Hb.
      * intros Hh. destruct (Hvalid i Hh) as [q Hq].
        apply lookup_lt_Some in Hq. lia.
    + intros i Hh. destruct (Hvalid i Hh) as [q Hq].
      exists q. by apply lookup_app_l_Some.
  - (* a turn *)
    destruct (tasks sys !! i) as [p |] eqn:Hi; [| by exists h].
    destruct (Hclass i p Hi) as [(target_os & quiet & ->) | [Hb | Hf]].
    + (* the first turn of a call *)
      rewrite run_slice_fresh.
      assert (Hnb : h <> Some i).
      { intros Heq. apply (Hhold i _ Hi) in Heq. by apply not_in_body_fresh in Heq. }
      destruct (_manual_lock (shared sys)) eqn:Hm.
      { exists h. split; [| split; [| split]]; cbn [tasks shared]; [| | | exact Hop].
        - eapply class_update; [exact Hclass | right; right; exact I].
        - eapply holder_update; [exact Hhold | | tauto].
          split; [intros Hx; by apply in_body_head in Hx | done].
        - eapply valid_update; [exact Hi | exact Hvalid | tauto]. }
      destruct (_op_lock (shared sys)) eqn:Hl.
      { exists h. split; [| split; [| split]]; cbn [tasks shared]; [| | | by rewrite Hl].
        - eapply class_update; [exact Hclass | right; right; exact I].
        - eapply holder_update; [exact Hhold | | tauto].
          split; [intros Hx; by apply in_body_head in Hx | done].
        - eapply valid_update; [exact Hi | exact Hvalid | tauto]. }
      assert (Hnone : h = None).
      { destruct h; [| done]. cbn in Hop. discriminate. }
      destruct (run_slice_in_body env
                  (finally (switch_body cfg target_os quiet) (call OpLockRelease))
                  (set_op true (shared sys)) false
                  (in_body_finally _ (uses_switch_body cfg target_os quiet)) eq_refl)
        as (p' & s' & -> & _ & [[Hb' Hop'] | [Hf' Hop']]).
      * exists (Some i). split; [| split; [| split]]; cbn [tasks shared];
          [| | | by rewrite Hop'].
        -- eapply class_update; [exact Hclass | right; left; exact Hb'].
        -- eapply holder_update; [exact Hhold | tauto |].
           intros j Hj. rewrite Hnone. split; [intros [= ->]; done | done].
        -- eapply valid_update; [exact Hi | exact Hvalid |].
           intros j Hj. rewrite Hnone. split; [intros [= ->]; done | done].
      * exists None. split; [| split; [| split]]; cbn [tasks shared];
          [| | | by rewrite Hop'].
        -- eapply class_update; [exact Hclass | right; right; exact Hf'].
        -- eapply holder_update; [exact Hhold | | by rewrite Hnone].
           split; [intros Hx; by apply (not_in_body_finished _ Hf') in Hx | done].
        -- done.
    + (* a turn of the task in the body *)
      assert (Hh : h = Some i) by (by apply (Hhold i p Hi)).
      assert (Hl : _op_lock (shared sys) = true) by (by rewrite Hop, Hh).
      destruct (run_slice_in_body env p (shared sys) true Hb Hl)
        as (p' & s' & -> & _ & [[Hb' Hop'] | [Hf' Hop']]).
      * exists (Some i). split; [| split; [| split]]; cbn [tasks shared];
          [| | | by rewrite Hop'].
        -- eapply class_update; [exact Hclass | right; left; exact Hb'].
        -- eapply holder_update; [exact Hhold | tauto | by rewrite Hh].
        -- eapply valid_update; [exact Hi | exact Hvalid | by rewrite Hh].
      * exists None. split; [| split; [| split]]; cbn [tasks shared];
          [| | | by rewrite Hop'].
        -- eapply class_update; [exact Hclass | right; right; exact Hf'].
        -- eapply holder_update; [exact Hhold | |].
           ++ split; [intros Hx; by apply (not_in_body_finished _ Hf') in Hx | done].
           ++ intros j Hj. rewrite Hh. split; [done | intros [= ->]; done].
        -- done.
    + (* a task that has ended *)
      assert (Hsame : run_slice env true p (shared sys) = (p, shared sys))
        by (destruct p; [reflexivity | reflexivity | contradiction]).
      rewrite Hsame. exists h. split; [| split; [| split]]; cbn [tasks shared];
        [| | | exact Hop].
      * eapply class_update; [exact Hclass | right; right; exact Hf].
      * eapply holder_update; [exact Hhold | | tauto].
        apply (Hhold i p Hi).
      * eapply valid_update; [exact Hi | exact Hvalid | tauto].
  - (* set_lock *)
    exists h. split; [exact Hclass | split; [exact Hhold | split; [exact Hvalid |]]].
    cbn [shared]. by rewrite set_lock_keeps_op_lock.
Qed.

End Loop.

Section GuardTheorem.
Context (env : Env) (cfg : Config).

Lemma guard_inv_run (ts : list tick) (sys : System) (h : option nat) :
  guard_inv cfg sys h -> exists h', guard_inv cfg (run_ticks env cfg ts sys) h'.
Proof.
  revert sys h. induction ts as [| t ts IH]; intros sys h Hinv; cbn; [eauto |].
  destruct (guard_inv_tick env cfg t sys h Hinv) as [h1 H1]. eauto.
Qed.

Lemma guard_inv_no_tasks (s : State) : _op_lock s = false -> guard_inv cfg (no_tasks s) None.
Proof.
  intros Hop. split; [| split; [| split]]; cbn; [| | | exact Hop].
  - intros i p Hi. by rewrite lookup_nil in Hi.
  - intros i p Hi. by rewrite lookup_nil in Hi.
  - intros i Hi. discriminate.
Qed.

Lemma exec_perform_switch_held target_os quiet (s : State) :
  _op_lock s = true ->
  exec env (perform_switch cfg target_os quiet) s =
    (Returned (if _manual_lock s then locked_error else busy_error), s).
Proof.
  intros Hop. unfold perform_switch, is_locked. cbn.
  destruct (_manual_lock s); cbn; [reflexivity |]. rewrite Hop. reflexivity.
Qed.

End GuardTheorem.

(** C2 (as amended).  A call of [perform_switch] made while [_op_lock]
    is held returns at once an error result and leaves the state as it
    found it (no call to the API, no message, no wait): the result
    "An operation is already in progress." when the manual lock is
    open, and the locked result of C1 when it is set, because the
    manual lock is looked at first.  On the event loop, whatever the
    handlers do (new switches, turns of the tasks, [set_lock]) and
    whatever the environment answers, every call of [perform_switch]
    is at every moment in one of three states: it has not had a turn,
    or it has ended, or it is inside the body, with only calls of the
    body and the release of the guard ahead of it.  At most one call
    is inside the body; the guard is held exactly while one is; and
    while one is, the first turn of any other call of
    [perform_switch] ends it with that error result without changing
    the state. *)
Theorem guard_rejects_concurrent_switch (env : Env) (cfg : Config) :
  (forall target_os quiet s,
     _op_lock s = true ->
     exec env (perform_switch cfg target_os quiet) s =
       (Returned (if _manual_lock s then locked_error else busy_error), s)) /\
  (forall s ts,
     _op_lock s = false ->
     let sys := run_ticks env cfg ts (no_tasks s) in
     (forall i p,
        tasks sys !! i = Some p -> fresh cfg p \/ in_body p \/ finished p) /\
     (forall i j p q,
        tasks sys !! i = Some p -> tasks sys !! j = Some q ->
        ~ fresh cfg p -> ~ finished p -> ~ fresh cfg q -> ~ finished q -> i = j) /\
     (forall i j p q,
        tasks sys !! i = Some p -> tasks sys !! j = Some q ->
        in_body p -> in_body q -> i = j) /\
     (_op_lock (shared sys) = true <->
      exists i p, tasks sys !! i = Some p /\ in_body p) /\
     (forall i p,
        tasks sys !! i = Some p -> in_body p ->
        _op_lock (shared sys) = true /\
        forall target_os quiet,
          run_slice env true (perform_switch cfg target_os quiet) (shared sys) =
            (Ret (if _manual_lock (shared sys) then locked_error else busy_error),
             shared sys))).
Proof.
  split; [intros; by apply exec_perform_switch_held |].
  intros s ts Hop sys.
  destruct (guard_inv_run env cfg ts (no_tasks s) None (guard_inv_no_tasks cfg s Hop))
    as (h & Hclass & Hhold & Hvalid & Hheld).
  fold sys in Hclass, Hhold, Hvalid, Hheld.
  assert (Hone : forall i j p q,
            tasks sys !! i = Some p -> tasks sys !! j = Some q ->
            in_body p -> in_body q -> i = j).
  { intros i j p q Hi Hj Hp Hq.
    apply (Hhold i p Hi) in Hp. apply (Hhold j q Hj) in Hq. congruence. }
  split; [exact Hclass |]. split; [| split; [exact Hone |]; split].
  - intros i j p q Hi Hj Hnp Hfp Hnq Hfq.
    apply (Hone i j p q Hi Hj).
    + destruct (Hclass i p Hi) as [? | [? | ?]]; [contradiction | assumption | contradiction].
    + destruct (Hclass j q Hj) as [? | [? | ?]]; [contradiction | assumption | contradiction].
  - rewrite Hheld. split.
    + intros Hh. apply bool_decide_eq_true in Hh. destruct Hh as [i Hh].
      destruct (Hvalid i Hh) as [p Hi]. exists i, p. split; [exact Hi |].
      by apply (Hhold i p Hi).
    + intros (i & p & Hi & Hp). apply (Hhold i p Hi) in Hp. by rewrite Hp.
  - intros i p Hi Hp. apply (Hhold i p Hi) in Hp.
    assert (Hl : _op_lock (shared sys) = true) by (by rewrite Hheld, Hp).
    split; [exact Hl |]. intros target_os quiet.
    rewrite run_slice_fresh, Hl. by destruct (_manual_lock (shared sys)).
Qed.

Lemma guard_rejects_concurrent_switch_witness :
  let sys := run_ticks Examples.calm Examples.cfg
               [Spawn "windows" false; Spawn "linux" false; Resume 0; Resume 1]
               (no_tasks Examples.idle) in
  (_op_lock Examples.busy = true /\
   exec Examples.calm (perform_switch Examples.cfg "windows" false) Examples.busy =
     (Returned {| status := "error"; message := "An operation is already in progress." |},
      Examples.busy)) /\
  _op_lock Examples.idle = false /\
  tasks sys !! 1%nat = Some (Ret busy_error) /\
  exists p,
    tasks sys !! 0%nat = Some p /\ in_body p /\
    run_slice Examples.calm true (perform_switch Examples.cfg "linux" true) (shared sys) =
      (Ret busy_error, shared sys).
Proof.
  cbv zeta.
  destruct (guard_rejects_concurrent_switch Examples.calm Examples.cfg) as [Hheld Hloop].
  split.
  { split; [reflexivity |]. apply (Hheld "windows" false Examples.busy). reflexivity. }
  split; [reflexivity |].
  assert (Hdone : tasks (run_ticks Examples.calm Examples.cfg
                           [Spawn "windows" false; Spawn "linux" false; Resume 0; Resume 1]
                           (no_tasks Examples.idle)) !! 1%nat = Some (Ret busy_error))
    by (vm_compute; reflexivity).
  split; [exact Hdone |].
  destruct (Hloop Examples.idle
              [Spawn "windows" false; Spawn "linux" false; Resume 0; Resume 1] eq_refl)
    as (_ & _ & Hone & Hguard & Hreject).
  destruct (proj1 Hguard) as (i & p & Hi & Hp); [vm_compute; reflexivity |].
  assert (Hi0 : i = 0%nat).
  { destruct i as [| [| i]]; [reflexivity | | ].
    - rewrite Hdone in Hi. injection Hi as <-. by apply in_body_head in Hp.
    - apply lookup_lt_Some in Hi. vm_compute in Hi. lia. }
  subst i. exists p. split; [exact Hi |]. split; [exact Hp |].
  destruct (Hreject 0%nat p Hi Hp) as [_ Hrun].
  specialize (Hrun "linux" true).
  assert (Hm : _manual_lock (shared (run_ticks Examples.calm Examples.cfg
                 [Spawn "windows" false; Spawn "linux" false; Resume 0; Resume 1]
                 (no_tasks Examples.idle))) = false) by (vm_compute; reflexivity).
  rewrite Hm in Hrun. exact Hrun.
Defined.

(** C2, as the specification states it, fails: a switch is in flight
    (the first task has taken the guard and waits for Telegram), the
    operator locks the system, and the next call of [perform_switch]
    is answered "System is manually locked.", not "An operation is
    already in progress.". *)
Lemma guard_held_but_locked_reports_lock :
  let before := run_ticks Examples.calm Examples.cfg
                  [Spawn "windows" false; Resume 0; SetLock true; Spawn "linux" false]
                  (no_tasks Examples.idle) in
  let after := do_tick Examples.calm Examples.cfg (Resume 1) before in
  _op_lock (shared before) = true /\
  tasks after !! 1%nat = Some (Ret locked_error) /\
  locked_error <> busy_error /\
  exec Examples.calm (perform_switch Examples.cfg "linux" false) (shared before) =
    (Returned locked_error, shared before).
Proof.
  cbv zeta. split; [vm_compute; reflexivity |].
  split; [vm_compute; reflexivity |].
  split; [discriminate |].
  apply exec_perform_switch_held. vm_compute; reflexivity.
Qed.

(** * Further properties *)

(** ** Programs that return *)

Lemma returns_bind {A B : Type} (p : Prog A) (k : A -> Prog B) :
  returns p -> (forall a, returns (k a)) -> returns (p ≫= k).
Proof.
  change (p ≫= k) with (bind p k).
  induction 1 as [a | T c k' _ IH]; intros Hk; cbn; [apply Hk |].
  constructor. intros r Hr. by apply IH.
Qed.

Lemma returns_logger lvl msg : returns (logger lvl msg).
Proof. constructor. intros r [a ->]. constructor. Qed.

Lemma returns_sleep n : returns (call (Sleep n)).
Proof. constructor. intros r [a ->]. constructor. Qed.

(** Whatever [p] raises, a handler that returns makes the [try] return. *)
Lemma returns_try_except {R : Type} (p : Prog R) (h : exn -> Prog R) :
  (forall e, returns (h e)) -> returns (try_except p h).
Proof.
  intros Hh. induction p as [r | e | A c k IH]; cbn.
  - constructor.
  - apply Hh.
  - constructor. intros r _. apply IH.
Qed.

Lemma perform_can_answer env {A : Type} (c : Call A) (s : State) r s' :
  perform env c s = Some (r, s') -> can_answer c r.
Proof. destruct c; cbn; try exact (fun _ => I); intros [= <- _]; eauto. Qed.

Lemma exec_returns_not_raised env {R : Type} (p : Prog R) (s : State) (e : exn) :
  returns p -> (exec env p s).1 <> Raised e.
Proof.
  intros H. revert s. induction H as [r | A c k _ IH]; intros s; cbn; [discriminate |].
  destruct (perform env c s) as [[r s'] |] eqn:Hp; [| discriminate].
  apply IH. eapply perform_can_answer, Hp.
Qed.

(** A piece of the body that returns: its result, and the events it
    added. *)
Lemma exec_returns env posts sleeps {R : Type} (p : Prog R) (s : State) :
  uses (body_call_but posts sleeps) p -> returns p ->
  exists r new,
    exec env p s = (Returned r, extend new s) /\ Forall (event_but posts sleeps) new.
Proof.
  intros Hu Hr.
  destruct (exec_body_events env posts sleeps p s Hu) as (o & new & He & Hb & Hn).
  pose proof (exec_returns_not_raised env p s) as Hnr. rewrite He in Hnr. cbn in Hnr.
  destruct o as [r | e |]; [eauto | by destruct (Hnr e Hr) | done].
Qed.

Section Returns.
Context (cfg : Config).

Lemma returns_get_vm_status vmid : returns (get_vm_status cfg vmid).
Proof.
  unfold get_vm_status. apply returns_try_except.
  intros e. apply returns_bind; [apply returns_logger | constructor].
Qed.

Lemma returns_report pm txt : returns (report cfg pm txt).
Proof.
  unfold report. destruct pm as [m |]; [| constructor].
  apply returns_try_except. intros e.
  destruct (is_TelegramBadRequest e); [constructor | apply returns_logger].
Qed.

Lemma returns_wait_loop vmid n : returns (wait_loop cfg vmid n).
Proof.
  induction n as [| n IH]; cbn [wait_loop]; [constructor |].
  apply returns_bind; [apply returns_get_vm_status |].
  intros st. destruct (String.eqb st "stopped"); [constructor |].
  apply returns_bind; [apply returns_sleep | intros; exact IH].
Qed.

Lemma returns_wait_for_shutdown vmid timeout :
  returns (_wait_for_shutdown cfg vmid timeout).
Proof. apply returns_wait_loop. Qed.

Lemma returns_preflight tid tname quiet : returns (preflight cfg tid tname quiet).
Proof.
  unfold preflight. apply returns_try_except.
  intros e. apply returns_bind; [apply returns_logger | constructor].
Qed.

Lemma returns_open_progress tname : returns (open_progress cfg tname).
Proof.
  unfold open_progress. apply returns_try_except.
  intros e. apply returns_bind; [apply returns_logger | constructor].
Qed.

Lemma returns_enter_switch target_os quiet : returns (enter_switch cfg target_os quiet).
Proof.
  unfold enter_switch. apply returns_bind; [apply returns_preflight |].
  intros [r |]; [constructor |].
  apply returns_bind; [apply returns_logger | intros _].
  apply returns_bind; [apply returns_open_progress | intros pm].
  apply returns_bind; [apply returns_report | constructor].
Qed.

Lemma returns_force_stop sid sname pm : returns (force_stop cfg sid sname pm).
Proof.
  unfold force_stop. apply returns_try_except. intros e.
  apply returns_bind; [apply returns_logger | intros _].
  apply returns_bind; [apply returns_report | constructor].
Qed.

Lemma returns_start_target tid tname pm : returns (start_target cfg tid tname pm).
Proof.
  unfold start_target. apply returns_bind; [apply returns_report | intros _].
  apply returns_bind; [| intros [r |]; constructor].
  apply returns_try_except. intros e.
  apply returns_bind; [apply returns_logger | intros _].
  apply returns_bind; [apply returns_report | constructor].
Qed.

End Returns.

(** ** The shutdown waiter *)

Lemma count_cons f e l : count f (e :: l) = ((if f e then 1 else 0) + count f l)%nat.
Proof. unfold count. cbn. unfold filter. by destruct (f e). Qed.

Lemma count_single f e : count f [e] = (if f e then 1 else 0)%nat.
Proof. rewrite count_cons. unfold count; cbn. lia. Qed.

Lemma status_events_counts env cfg vmid (h : list Event) (f : Event -> bool) :
  let r := pve_status env h (proxmox_node cfg) vmid in
  (forall lvl msg, f (ELog lvl msg) = false) ->
  count f (EStatusGet (proxmox_node cfg) vmid r ::
           match r with
           | inl e => [ELog ERROR ("Failed to get status for VM " +:+ str_of_int vmid
                                   +:+ ": " +:+ exn_str e)]
           | inr _ => []
           end)
  = (if f (EStatusGet (proxmox_node cfg) vmid r) then 1 else 0)%nat.
Proof.
  intros r Hlog. rewrite count_cons.
  destruct r as [e | o]; [rewrite count_cons, Hlog |]; cbn; lia.
Qed.

Lemma wait_loop_polls env cfg vmid n s :
  exists b new,
    exec env (wait_loop cfg vmid n) s = (Returned b, extend new s) /\
    count is_status_query new = (count is_sleep new + if b then 1 else 0)%nat /\
    (count is_sleep new <= n)%nat /\
    count is_poll_sleep new = count is_sleep new /\
    count is_power new = 0%nat /\
    count is_bot_call new = 0%nat /\
    count (saw_stopped vmid) new = (if b then 1 else 0)%nat /\
    (b = false -> count is_sleep new = n) /\
    (n = 0%nat -> b = false /\ new = []) /\
    (count is_status_query new <= n)%nat.
Proof.
  revert s. induction n as [| n IH]; intros s; cbn [wait_loop].
  { exists false, []. rewrite extend_nil. repeat split; first [reflexivity | cbn; lia]. }
  rewrite exec_bind, exec_get_vm_status. cbv zeta.
  set (r := pve_status env (trace s) (proxmox_node cfg) vmid).
  set (ev := EStatusGet (proxmox_node cfg) vmid r :: _).
  assert (Hev : forall f, (forall lvl msg, f (ELog lvl msg) = false) ->
            count f ev = (if f (EStatusGet (proxmox_node cfg) vmid r) then 1 else 0)%nat).
  { intros f Hf. apply (status_events_counts env cfg vmid (trace s) f Hf). }
  destruct (String.eqb (status_of r) "stopped") eqn:Hst.
  - exists true, ev. rewrite exec_ret.
    split; [reflexivity |].
    rewrite !Hev by done. cbn [is_status_query is_sleep is_poll_sleep is_power is_bot_call saw_stopped].
    rewrite ?Z.eqb_refl, ?Hst. cbn -[count]. rewrite ?Z.eqb_refl, ?Hst.
    repeat split; first [lia | discriminate].
  - rewrite exec_bind, exec_call. cbn [perform]. rewrite emit_extend, extend_extend.
    destruct (IH (extend (ev ++ [ESleep 1]) s)) as (b & new & -> & Hq & Hle & Hp & Hpow & Hbot & Hsaw & Hf & _ & Hqle).
    exists b, ((ev ++ [ESleep 1]) ++ new). rewrite extend_extend.
    split; [reflexivity |].
    rewrite !count_app, !count_single, !Hev by done.
    cbn [is_status_query is_sleep is_poll_sleep is_power is_bot_call saw_stopped].
    rewrite ?Z.eqb_refl, ?Hst, ?andb_false_r. cbn -[count].
    rewrite ?Z.eqb_refl, ?Hst, ?andb_false_r.
    repeat split; first [lia | discriminate | (intros Hb; specialize (Hf Hb); lia)].
Qed.

(** X1.  [_wait_for_shutdown] always returns.  It polls the status at
    most [timeout] times and sleeps one second after every poll that
    did not answer ["stopped"]; it returns [True] at the first poll
    that answers ["stopped"] and [False] after [timeout] polls without
    one (a failed query counts as not stopped); it makes no power
    request and sends nothing.  With [timeout <= 0] it returns [False]
    without a single call. *)
Theorem wait_for_shutdown_polls (env : Env) (cfg : Config) (vmid timeout : Z) (s : State) :
  exists b new,
    exec env (_wait_for_shutdown cfg vmid timeout) s = (Returned b, extend new s) /\
    (count is_status_query new <= Z.to_nat timeout)%nat /\
    count is_status_query new = (count is_sleep new + if b then 1 else 0)%nat /\
    count is_poll_sleep new = count is_sleep new /\
    count is_power new = 0%nat /\
    count is_bot_call new = 0%nat /\
    count (saw_stopped vmid) new = (if b then 1 else 0)%nat /\
    (b = false -> count is_sleep new = Z.to_nat timeout) /\
    (timeout <= 0 -> b = false /\ new = []).
Proof.
  unfold _wait_for_shutdown.
  destruct (wait_loop_polls env cfg vmid (Z.to_nat timeout) s)
    as (b & new & He & Hq & Hle & Hp & Hpow & Hbot & Hsaw & Hf & H0 & Hqle).
  exists b, new. repeat split; try assumption; apply H0; lia.
Qed.

(** ** The start phase *)

Lemma report_events_count env cfg pm txt h (f : Event -> bool) :
  (forall t c m r, f (EEditMessageText t c m r) = false) ->
  (forall lvl msg, f (ELog lvl msg) = false) ->
  count f (report_events env cfg pm txt h) = 0%nat.
Proof.
  intros Hedit Hlog. unfold report_events. destruct pm as [m |]; [| reflexivity].
  rewrite count_cons, Hedit.
  destruct (bot_edit env h txt _ _) as [e | ?]; [| reflexivity].
  destruct (is_TelegramBadRequest e); [reflexivity |]. by rewrite count_single, Hlog.
Qed.

Lemma exec_start_target (env : Env) (cfg : Config) (tid : Z) (tname : string)
    (pm : option Message) (s : State) :
  let s1 := (exec env (report cfg pm (starting_text tname)) s).2 in
  let r := pve_status env (trace s1) (proxmox_node cfg) tid in
  let s2 := (exec env (get_vm_status cfg tid) s1).2 in
  let post := pve_post env (trace s2) start (proxmox_node cfg) tid in
  exists new,
    exec env (start_target cfg tid tname pm) s =
      (Returned (if String.eqb (status_of r) "running" then switched tname
                 else match post with
                      | inr _ => switched tname
                      | inl e => start_failed tname e
                      end),
       extend new s) /\
    count (is_post start) new =
      (if String.eqb (status_of r) "running" then 0 else 1)%nat /\
    count is_power new = count (is_post start) new /\
    count is_status_query new = 1%nat /\
    count is_sleep new = 0%nat.
Proof.
  cbv zeta. unfold start_target. fold (starting_text tname).
  rewrite exec_bind, !exec_report. cbn [snd].
  set (n1 := report_events env cfg pm (starting_text tname) (trace s)).
  rewrite exec_bind, exec_try_except, exec_bind, !exec_get_vm_status. cbn [snd].
  rewrite !extend_extend.
  set (r := pve_status env (trace (extend n1 s)) (proxmox_node cfg) tid).
  set (n2 := EStatusGet (proxmox_node cfg) tid r :: _).
  assert (Hn1 : forall f, (forall t c m r, f (EEditMessageText t c m r) = false) ->
            (forall lvl msg, f (ELog lvl msg) = false) -> count f n1 = 0%nat)
    by (intros; by apply report_events_count).
  assert (Hn2 : forall f, (forall lvl msg, f (ELog lvl msg) = false) ->
            count f n2 = (if f (EStatusGet (proxmox_node cfg) tid r) then 1 else 0)%nat)
    by (intros f Hf; apply (status_events_counts env cfg tid _ f Hf)).
  destruct (String.eqb (status_of r) "running") eqn:Hrun; cbn [negb].
  - rewrite exec_bind, exec_report, exec_ret. cbn [snd]. rewrite extend_extend.
    eexists. split; [reflexivity |].
    rewrite !count_app, !Hn1, !Hn2, !report_events_count by done. by cbn.
  - rewrite exec_bind, exec_bind, exec_call. cbn [perform].
    set (post := pve_post env (trace (extend (n1 ++ n2) s)) start (proxmox_node cfg) tid).
    destruct post as [e | []] eqn:Hpost.
    + rewrite exec_bind, exec_logger, exec_bind, exec_report, exec_ret.
      rewrite !emit_extend, !extend_extend.
      eexists. split; [reflexivity |].
      rewrite !count_app, !Hn1, !Hn2, !count_single, !report_events_count by done. by cbn.
    + rewrite exec_report, exec_ret. rewrite !emit_extend, !extend_extend.
      eexists. split; [reflexivity |].
      rewrite !count_app, !Hn1, !Hn2, !count_single, !report_events_count by done. by cbn.
Qed.

(** X2.  The start phase always returns.  It queries the target once
    more; when the answer is ["running"] it issues no start request
    and the result is ok; otherwise it issues exactly one start
    request, and the result is ok when the request returns and the
    error "Failed to start ..." when it raises.  It makes no other
    power request and never sleeps. *)
Theorem start_target_rechecks (env : Env) (cfg : Config) (tid : Z) (tname : string)
    (pm : option Message) (s : State) :
  let s1 := (exec env (report cfg pm (starting_text tname)) s).2 in
  let r := pve_status env (trace s1) (proxmox_node cfg) tid in
  let s2 := (exec env (get_vm_status cfg tid) s1).2 in
  let post := pve_post env (trace s2) start (proxmox_node cfg) tid in
  exists new,
    exec env (start_target cfg tid tname pm) s =
      (Returned (if String.eqb (status_of r) "running" then switched tname
                 else match post with
                      | inr _ => switched tname
                      | inl e => start_failed tname e
                      end),
       extend new s) /\
    count (is_post start) new =
      (if String.eqb (status_of r) "running" then 0 else 1)%nat /\
    count is_power new = count (is_post start) new /\
    count is_status_query new = 1%nat /\
    count is_sleep new = 0%nat.
Proof.
  cbv zeta.
  destruct (exec_start_target env cfg tid tname pm s) as (new & He & Hstart & Hpow & Hq & Hsl).
  exists new. split; [exact He |]. split; [exact Hstart |].
  split; [exact Hpow |]. split; [exact Hq | exact Hsl].
Qed.

(** ** Counting along a run *)

Lemma count_poll_settle l :
  (count is_poll_sleep l + count is_settle_wait l <= count is_sleep l)%nat.
Proof.
  induction l as [| e l IH]; [reflexivity |].
  rewrite !count_cons. destruct e as [| | | | n | |]; cbn; try lia.
  destruct (Z.eqb_spec n 1), (Z.eqb_spec n 3); lia.
Qed.

Lemma count_settle_0 posts new :
  Forall (event_but posts false) new -> count is_settle_wait new = 0%nat.
Proof.
  intros H. pose proof (count_sleep_0 posts new H).
  pose proof (count_poll_settle new). lia.
Qed.

Lemma count_power_posts l :
  count is_power l =
  (count (is_post shutdown) l + count (is_post stop) l + count (is_post start) l)%nat.
Proof.
  induction l as [| e l IH]; [reflexivity |].
  rewrite !count_cons, IH. destruct e as [| a | | | | |]; cbn; try lia.
  destruct a; cbn; lia.
Qed.

Lemma count_power_0 sleeps new :
  Forall (event_but no_post sleeps) new -> count is_power new = 0%nat.
Proof.
  intros H. rewrite count_power_posts.
  by rewrite !(count_post_0 no_post sleeps _ new eq_refl H).
Qed.

(** The shutdown request, when it returns: one request, logged when the
    API refused it. *)
Lemma request_shutdown_returned env cfg sid s s3 :
  exec env (request_shutdown cfg sid) s = (Returned tt, s3) ->
  exists n3,
    s3 = extend n3 s /\
    count (is_post shutdown) n3 = 1%nat /\
    count (is_post stop) n3 = 0%nat /\
    count (is_post start) n3 = 0%nat /\
    count is_sleep n3 = 0%nat.
Proof.
  rewrite exec_request_shutdown. cbv zeta.
  destruct (pve_post env (trace s) shutdown (proxmox_node cfg) sid) as [e | []].
  - destruct (is_ResourceException e); [| discriminate].
    intros [= <-]. eexists. split; [reflexivity |]. repeat split; reflexivity.
  - intros [= <-]. eexists. split; [reflexivity |]. repeat split; reflexivity.
Qed.

(** The wait, read off its result. *)
Lemma wait_for_shutdown_result env cfg vmid s b s4 :
  exec env (_wait_for_shutdown cfg vmid 180) s = (Returned b, s4) ->
  exists n4,
    s4 = extend n4 s /\
    Forall (event_but no_post true) n4 /\
    (count is_sleep n4 <= 180)%nat /\
    count is_poll_sleep n4 = count is_sleep n4 /\
    count is_settle_wait n4 = 0%nat /\
    (b = false -> count is_sleep n4 = 180%nat).
Proof.
  intros H.
  destruct (exec_events_since env _ _ _ _ _ _ (uses_wait_for_shutdown cfg vmid 180) H)
    as (n4 & -> & Hn4 & _).
  destruct (wait_loop_polls env cfg vmid (Z.to_nat 180) s)
    as (b' & new & He & _ & Hle & Hp & _ & _ & _ & Hf & _).
  unfold _wait_for_shutdown in H. rewrite H in He.
  injection He as -> Heq.
  assert (n4 = new) as ->.
  { by apply app_inv_head in Heq. }
  pose proof (count_poll_settle new) as Hps.
  change (Z.to_nat 180) with 180%nat in Hle.
  exists new. split; [reflexivity |]. split; [assumption |].
  split; [exact Hle |]. split; [exact Hp |]. split; [lia | exact Hf].
Qed.

(** ** A whole switch *)

(** What a piece that made no power request and slept only as [sleeps]
    allows adds to the counts. *)
Ltac zero_counts H :=
  let n := match type of H with Forall _ ?n => n end in
  try pose proof (count_post_0 _ _ shutdown n eq_refl H);
  try pose proof (count_post_0 _ _ stop n eq_refl H);
  try pose proof (count_post_0 _ _ start n eq_refl H);
  try pose proof (count_sleep_0 _ n H);
  try pose proof (count_settle_0 _ n H);
  pose proof (count_poll_settle n).

Ltac run_done :=
  repeat split;
  first [ lia | discriminate | reflexivity
        | (intros ? [= <-]; first [reflexivity | split; reflexivity])
        | (intros; discriminate)
        | (simplify_eq; first [assumption | reflexivity])
        | (cbn; lia) ].

Section Run.
Context (env : Env) (cfg : Config) (target_os : string) (quiet_on_skip : bool).

#[local] Abbreviation node := (proxmox_node cfg).
#[local] Abbreviation src := (source_id cfg target_os).
#[local] Abbreviation tgt := (target_id cfg target_os).

(** Rejected at a gate: the call returns at once and changes nothing. *)
Lemma perform_switch_held_or_locked s :
  _manual_lock s = true \/ _op_lock s = true ->
  exec env (perform_switch cfg target_os quiet_on_skip) s =
    (Returned (if _manual_lock s then locked_error else busy_error), s).
Proof.
  intros H. unfold perform_switch, is_locked. cbn.
  destruct (_manual_lock s); cbn; [reflexivity |].
  destruct H as [H | H]; [discriminate |]. rewrite H. reflexivity.
Qed.

Lemma start_target_run pm s :
  exists r n,
    exec env (start_target cfg tgt (target_name target_os) pm) s = (Returned r, extend n s) /\
    count (is_post shutdown) n = 0%nat /\ count (is_post stop) n = 0%nat /\
    (count (is_post start) n <= 1)%nat /\ count is_sleep n = 0%nat.
Proof.
  destruct (exec_start_target env cfg tgt (target_name target_os) pm s)
    as (n & He & Hstart & Hpow & _ & Hsl).
  eexists _, n. split; [exact He |].
  rewrite count_power_posts in Hpow.
  destruct (String.eqb _ "running"); repeat split; lia.
Qed.

(** Step 2 with a running source: the request, the wait, the forced
    stop. *)
Lemma stop_source_run pm s :
  exists o n,
    exec env (stop_source cfg src (source_name target_os) (target_name target_os) pm) s
      = (o, extend n s) /\
    o <> Blocked /\
    count (is_post shutdown) n = 1%nat /\
    (count (is_post stop) n <= 1)%nat /\
    count (is_post start) n = 0%nat /\
    (count is_poll_sleep n <= 180)%nat /\
    (count is_settle_wait n <= count (is_post stop) n)%nat /\
    count is_sleep n = (count is_poll_sleep n + count is_settle_wait n)%nat /\
    (count (is_post stop) n = 1%nat -> count is_poll_sleep n = 180%nat) /\
    (forall e, o = Raised e ->
       is_ResourceException e = false /\ n = [EPost shutdown node src (inl e)]) /\
    (forall r, o = Returned (Some r) -> status r = "error").
Proof.
  unfold stop_source. rewrite exec_bind.
  pose proof (exec_request_shutdown env cfg src s) as H3. cbv zeta in H3.
  assert (Hcase :
    (exists e, is_ResourceException e = false /\
       exec env (request_shutdown cfg src) s
         = (Raised e, extend [EPost shutdown node src (inl e)] s)) \/
    (exists s3, exec env (request_shutdown cfg src) s = (Returned tt, s3))).
  { destruct (pve_post env (trace s) shutdown node src) as [e | []]; [| eauto].
    destruct (is_ResourceException e) eqn:Hres; eauto. }
  destruct Hcase as [(e & Hres & Hraise) | (s3 & Hret)].
  { rewrite Hraise. eexists _, _. split; [reflexivity |].
    split; [discriminate |]. rewrite !count_single. cbn [is_post is_sleep is_poll_sleep is_settle_wait].
    run_done. }
  rewrite Hret.
  destruct (request_shutdown_returned env cfg src s s3 Hret)
    as (n3 & -> & Hsd3 & Hst3 & Hsa3 & Hsl3).
  pose proof (count_poll_settle n3) as Hps3.
  rewrite exec_bind.
  destruct (exec_returns env no_post true (_wait_for_shutdown cfg src 180) (extend n3 s)
              (uses_wait_for_shutdown cfg src 180) (returns_wait_for_shutdown cfg src 180))
    as (b & n4' & H4 & _).
  destruct (wait_for_shutdown_result env cfg src _ b _ H4)
    as (n4 & Heq & Hn4 & Hle4 & Hp4 & Hse4 & Hfalse).
  rewrite H4, Heq. zero_counts Hn4.
  destruct b; cbn [negb].
  - rewrite exec_ret, extend_extend. eexists _, _. split; [reflexivity |].
    split; [discriminate |]. rewrite !count_app.
    run_done.
  - specialize (Hfalse eq_refl).
    rewrite exec_bind, exec_report. cbn [snd]. fold (stuck_text target_os).
    pose proof (report_events_quiet env cfg pm (stuck_text target_os)
                  (trace (extend n4 (extend n3 s)))) as Hn5.
    set (n5 := report_events env cfg pm (stuck_text target_os) _) in *.
    zero_counts Hn5.
    rewrite exec_force_stop. cbv zeta.
    destruct (pve_post env (trace (extend n5 (extend n4 (extend n3 s)))) stop node src)
      as [e | []].
    + match goal with |- context [extend (report_events env cfg pm ?t ?h) _] =>
        pose proof (report_events_quiet env cfg pm t h) as Hn7;
        set (n7 := report_events env cfg pm t h) in * end.
      zero_counts Hn7. rewrite !extend_extend.
      eexists _, _. split; [reflexivity |]. split; [discriminate |].
      rewrite !count_app, !count_cons.
      cbn [is_post is_sleep is_poll_sleep is_settle_wait].
      change (count ?f []) with 0%nat.
      run_done.
    + rewrite !extend_extend.
      eexists _, _. split; [reflexivity |]. split; [discriminate |].
      rewrite !count_app, !count_cons.
      cbn [is_post is_sleep is_poll_sleep is_settle_wait Z.eqb Pos.eqb].
      change (count ?f []) with 0%nat.
      run_done.
Qed.

(** The body of a switch, whatever the environment answers. *)
Lemma switch_body_run s :
  exists o n,
    exec env (switch_body cfg target_os quiet_on_skip) s = (o, extend n s) /\
    o <> Blocked /\
    (count (is_post shutdown) n <= 1)%nat /\
    (count (is_post stop) n <= count (is_post shutdown) n)%nat /\
    (count (is_post start) n <= 1)%nat /\
    (count is_poll_sleep n <= 180)%nat /\
    (count is_settle_wait n <= count (is_post stop) n)%nat /\
    count is_sleep n = (count is_poll_sleep n + count is_settle_wait n)%nat /\
    (count (is_post stop) n = 1%nat -> count is_poll_sleep n = 180%nat) /\
    (forall e, o = Raised e ->
       is_ResourceException e = false /\
       count (is_post start) n = 0%nat /\
       exists pre, n = pre ++ [EPost shutdown node src (inl e)]).
Proof.
  destruct (exec_returns env no_post false (enter_switch cfg target_os quiet_on_skip) s
              (uses_enter_switch cfg target_os quiet_on_skip)
              (returns_enter_switch cfg target_os quiet_on_skip))
    as (r1 & n1 & He1 & Hn1).
  zero_counts Hn1.
  unfold switch_body. rewrite exec_bind, He1.
  destruct r1 as [res | pm].
  { rewrite exec_ret. eexists _, _. split; [reflexivity |]. run_done. }
  rewrite exec_bind.
  destruct (exec_returns env no_post false (get_vm_status cfg src) (extend n1 s)
              (uses_get_vm_status cfg src) (returns_get_vm_status cfg src))
    as (st & n2 & He2 & Hn2).
  zero_counts Hn2. rewrite He2, extend_extend.
  assert (Hstart : forall s0 n0,
            count (is_post shutdown) n0 = 0%nat \/ True ->
            exists r n,
              exec env (start_target cfg tgt (target_name target_os) pm) (extend n0 s0)
                = (Returned r, extend (n0 ++ n) s0) /\
              count (is_post shutdown) n = 0%nat /\ count (is_post stop) n = 0%nat /\
              (count (is_post start) n <= 1)%nat /\ count is_sleep n = 0%nat).
  { intros s0 n0 _. destruct (start_target_run pm (extend n0 s0)) as (r & n & He & Hc).
    exists r, n. by rewrite He, extend_extend. }
  rewrite exec_bind.
  destruct (String.eqb st "running").
  2: { rewrite exec_ret.
       destruct (Hstart s (n1 ++ n2) (or_intror I)) as (r & n & -> & Hc1 & Hc2 & Hc3 & Hc4).
       pose proof (count_poll_settle n).
       eexists _, _. split; [reflexivity |]. rewrite !count_app. run_done. }
  destruct (stop_source_run pm (extend (n1 ++ n2) s))
    as (o & n3 & He3 & Hb3 & Hsd & Hst & Hsa & Hpoll & Hset & Hsl & Hfull & Hraise & _).
  rewrite He3, extend_extend.
  destruct o as [[res |] | e |].
  - rewrite exec_ret. eexists _, _. split; [reflexivity |]. rewrite !count_app. run_done.
  - destruct (Hstart s ((n1 ++ n2) ++ n3) (or_intror I))
      as (r & n & -> & Hc1 & Hc2 & Hc3 & Hc4).
    pose proof (count_poll_settle n).
    eexists _, _. split; [reflexivity |]. rewrite !count_app. run_done.
  - destruct (Hraise e eq_refl) as [Hres ->].
    eexists _, _. split; [reflexivity |]. split; [discriminate |].
    rewrite !count_app, !count_single. cbn [is_post is_sleep is_poll_sleep is_settle_wait].
    repeat split; try lia; try (intros; discriminate);
      simplify_eq; [exact Hres | by eexists].
  - done.
Qed.

(** A whole call of [perform_switch], whatever the state and the
    environment. *)
Lemma perform_switch_run s :
  exists o n,
    exec env (perform_switch cfg target_os quiet_on_skip) s = (o, extend n s) /\
    o <> Blocked /\
    (count (is_post shutdown) n <= 1)%nat /\
    (count (is_post stop) n <= count (is_post shutdown) n)%nat /\
    (count (is_post start) n <= 1)%nat /\
    (count is_poll_sleep n <= 180)%nat /\
    (count is_settle_wait n <= count (is_post stop) n)%nat /\
    count is_sleep n = (count is_poll_sleep n + count is_settle_wait n)%nat /\
    (count (is_post stop) n = 1%nat -> count is_poll_sleep n = 180%nat) /\
    (forall e, o = Raised e ->
       is_ResourceException e = false /\
       count (is_post start) n = 0%nat /\
       exists pre, n = pre ++ [EPost shutdown node src (inl e)]).
Proof.
  destruct (_manual_lock s) eqn:Hm.
  { rewrite (perform_switch_held_or_locked s) by (by left).
    exists (Returned (if _manual_lock s then locked_error else busy_error)), [].
    rewrite extend_nil. split; [reflexivity |]. run_done. }
  destruct (_op_lock s) eqn:Hop.
  { rewrite (perform_switch_held_or_locked s) by (by right).
    exists (Returned (if _manual_lock s then locked_error else busy_error)), [].
    rewrite extend_nil. split; [reflexivity |]. run_done. }
  destruct (switch_body_run (set_op true s)) as (o & n & He & Hrest).
  exists o, n. split; [| exact Hrest].
  rewrite (exec_perform_switch_free env cfg target_os quiet_on_skip s o _ Hm Hop He).
  f_equal. destruct s; cbn in *. unfold extend, set_op; cbn. by rewrite Hop.
Qed.

End Run.

(** X3.  A call of [perform_switch] never waits for the guard, and
    whether it returns or raises it leaves [_op_lock], [_manual_lock]
    and the disk as it found them (a guard it took is released on every
    way out); all it does is add events to the trace. *)
Theorem perform_switch_leaves_state (env : Env) (cfg : Config) (target_os : string)
    (quiet_on_skip : bool) (s : State) :
  let run := exec env (perform_switch cfg target_os quiet_on_skip) s in
  run.1 <> Blocked /\
  _op_lock run.2 = _op_lock s /\
  _manual_lock run.2 = _manual_lock s /\
  disk run.2 = disk s /\
  exists new, trace run.2 = trace s ++ new.
Proof.
  cbv zeta.
  destruct (perform_switch_run env cfg target_os quiet_on_skip s) as (o & n & -> & Hb & _).
  cbn. repeat split; try reflexivity; [exact Hb | by exists n].
Qed.

(** X4.  One call of [perform_switch] issues at most one shutdown
    request, at most one forced stop and at most one start request,
    and sleeps at most 180 times one second and at most once three
    seconds, and not otherwise. *)
Theorem perform_switch_budget (env : Env) (cfg : Config) (target_os : string)
    (quiet_on_skip : bool) (s : State) :
  let new := events_since s (exec env (perform_switch cfg target_os quiet_on_skip) s).2 in
  (count (is_post shutdown) new <= 1)%nat /\
  (count (is_post stop) new <= 1)%nat /\
  (count (is_post start) new <= 1)%nat /\
  (count is_poll_sleep new <= 180)%nat /\
  (count is_settle_wait new <= 1)%nat /\
  count is_sleep new = (count is_poll_sleep new + count is_settle_wait new)%nat.
Proof.
  cbv zeta.
  destruct (perform_switch_run env cfg target_os quiet_on_skip s)
    as (o & n & -> & _ & Hsd & Hst & Hsa & Hpoll & Hset & Hsl & _).
  cbn [snd]. rewrite events_since_extend. repeat split; lia.
Qed.

(** X5.  The forced stop is the last resort: a call of
    [perform_switch] issues it only after a shutdown request and 180
    one-second sleeps of the waiter, and the three-second sleep occurs
    only in a run that issued a forced stop. *)
Theorem force_stop_is_last_resort (env : Env) (cfg : Config) (target_os : string)
    (quiet_on_skip : bool) (s : State) :
  let new := events_since s (exec env (perform_switch cfg target_os quiet_on_skip) s).2 in
  (count (is_post stop) new <= count (is_post shutdown) new)%nat /\
  (count is_settle_wait new <= count (is_post stop) new)%nat /\
  (count (is_post stop) new = 1%nat -> count is_poll_sleep new = 180%nat).
Proof.
  cbv zeta.
  destruct (perform_switch_run env cfg target_os quiet_on_skip s)
    as (o & n & -> & _ & _ & Hst & _ & _ & Hset & _ & Hfull & _).
  cbn [snd]. rewrite events_since_extend. repeat split; assumption.
Qed.

(** X6.  [perform_switch] raises in one way only: the shutdown request
    of step 2 raised something that is not a [ResourceException].  The
    exception it raises is that one, the request is the last event of
    the run, and no start request was issued. *)
Theorem perform_switch_raises_only_from_shutdown (env : Env) (cfg : Config)
    (target_os : string) (quiet_on_skip : bool) (s : State) (e : exn) (s' : State) :
  exec env (perform_switch cfg target_os quiet_on_skip) s = (Raised e, s') ->
  is_ResourceException e = false /\
  count (is_post start) (events_since s s') = 0%nat /\
  exists pre,
    events_since s s' =
      pre ++ [EPost shutdown (proxmox_node cfg) (source_id cfg target_os) (inl e)].
Proof.
  intros He.
  destruct (perform_switch_run env cfg target_os quiet_on_skip s)
    as (o & n & Hrun & _ & _ & _ & _ & _ & _ & _ & _ & Hraise).
  rewrite He in Hrun. injection Hrun as <- ->.
  rewrite events_since_extend. by apply Hraise.
Qed.

Lemma perform_switch_raises_only_from_shutdown_witness :
  exists s',
    exec Examples.shutdown_unreachable (perform_switch Examples.cfg "windows" false)
      Examples.idle = (Raised Examples.ConnectionError, s') /\
    is_ResourceException Examples.ConnectionError = false /\
    count (is_post start) (events_since Examples.idle s') = 0%nat.
Proof.
  eexists. split; [vm_compute; reflexivity |].
  edestruct (perform_switch_raises_only_from_shutdown Examples.shutdown_unreachable
               Examples.cfg "windows" false Examples.idle) as (Hres & Hstart & _).
  - vm_compute. reflexivity.
  - split; [exact Hres | exact Hstart].
Defined.

(** X7.  The graceful path: when the source was found running, its
    shutdown request did not abort the switch and [_wait_for_shutdown]
    returned [True], the switch goes on to the start phase from there;
    the run holds one shutdown request, no forced stop and no
    three-second sleep. *)
Theorem graceful_shutdown_skips_force_stop (env : Env) (cfg : Config) (target_os : string)
    (quiet_on_skip : bool) (s : State) (pm : option Message) (s1 s2 s3 s4 : State) :
  reaches_step2 env cfg target_os quiet_on_skip s pm s1 ->
  exec env (get_vm_status cfg (source_id cfg target_os)) s1 = (Returned "running", s2) ->
  exec env (request_shutdown cfg (source_id cfg target_os)) s2 = (Returned tt, s3) ->
  exec env (_wait_for_shutdown cfg (source_id cfg target_os) 180) s3 = (Returned true, s4) ->
  exists o s',
    exec env (start_target cfg (target_id cfg target_os) (target_name target_os) pm) s4
      = (o, s') /\
    exec env (perform_switch cfg target_os quiet_on_skip) s = (o, set_op false s') /\
    count (is_post shutdown) (events_since s s') = 1%nat /\
    count (is_post stop) (events_since s s') = 0%nat /\
    count is_settle_wait (events_since s s') = 0%nat.
Proof.
  intros Hr H2 H3 H4.
  destruct (reaches_step2_events env cfg target_os quiet_on_skip s pm s1 Hr)
    as (n1 & Hs1 & Hn1).
  destruct (exec_events_since env _ _ _ _ _ _ (uses_get_vm_status cfg _) H2)
    as (n2 & Hs2 & Hn2 & _).
  destruct (request_shutdown_returned env cfg _ s2 s3 H3)
    as (n3 & Hs3 & Hsd3 & Hst3 & Hsa3 & Hsl3).
  destruct (wait_for_shutdown_result env cfg _ s3 true s4 H4)
    as (n4 & Hs4 & Hn4 & _ & _ & Hse4 & _).
  destruct (start_target_run env cfg target_os pm s4) as (r & n5 & Hstart & Hc1 & Hc2 & _ & Hc4).
  exists (Returned r), (extend n5 s4). split; [exact Hstart |]. split.
  - destruct Hr as (Hm & Hop & He). apply exec_perform_switch_free; [done | done |].
    rewrite (exec_switch_body_step2 env cfg target_os quiet_on_skip s pm s1) by done.
    rewrite exec_bind, H2. cbn [String.eqb Ascii.eqb Bool.eqb].
    rewrite exec_bind. unfold stop_source at 1.
    rewrite exec_bind, H3, exec_bind, H4. cbn [negb]. rewrite exec_ret. exact Hstart.
  - rewrite Hs4, Hs3, Hs2, Hs1, !extend_extend, events_since_extend_op.
    zero_counts Hn1. zero_counts Hn2. zero_counts Hn4.
    pose proof (count_poll_settle n3). pose proof (count_poll_settle n5).
    rewrite !count_app. repeat split; lia.
Qed.

Lemma graceful_shutdown_skips_force_stop_witness :
  exists pm s1 s2 s3 s4,
    reaches_step2 Scenarios.obedient Examples.cfg "windows" false Examples.idle pm s1 /\
    exec Scenarios.obedient (get_vm_status Examples.cfg 100) s1 = (Returned "running", s2) /\
    exec Scenarios.obedient (request_shutdown Examples.cfg 100) s2 = (Returned tt, s3) /\
    exec Scenarios.obedient (_wait_for_shutdown Examples.cfg 100 180) s3
      = (Returned true, s4) /\
    let run := exec Scenarios.obedient (perform_switch Examples.cfg "windows" false)
                 Examples.idle in
    run.1 = Returned {| status := "ok"; message := "Switched to Windows" |} /\
    count (is_post stop) (events_since Examples.idle run.2) = 0%nat.
Proof.
  eexists _, _, _, _, _.
  split; [split; [reflexivity |]; split; [reflexivity |]; vm_compute; reflexivity |].
  split; [vm_compute; reflexivity |].
  split; [vm_compute; reflexivity |].
  split; [vm_compute; reflexivity |].
  cbv zeta.
  edestruct (graceful_shutdown_skips_force_stop Scenarios.obedient Examples.cfg "windows"
               false Examples.idle) as (o & s' & Hstart & Hrun & _ & Hstop & _).
  - split; [reflexivity |]. split; [reflexivity |]. vm_compute. reflexivity.
  - vm_compute. reflexivity.
  - vm_compute. reflexivity.
  - vm_compute. reflexivity.
  - rewrite Hrun. cbn [fst snd]. split; [| exact Hstop].
    vm_compute in Hstart. by injection Hstart as <- _.
Defined.

(** ** The handlers *)

Lemma exec_answer env chat txt s :
  exec env (answer chat txt) s = answered env chat txt s.
Proof.
  unfold answer, answered. cbn.
  destruct (bot_send env (trace s) chat txt); reflexivity.
Qed.

Lemma exec_get_full_status env cfg s :
  exists linux windows s1 s2,
    exec env (get_vm_status cfg (vm_id_linux cfg)) s = (Returned linux, s1) /\
    exec env (get_vm_status cfg (vm_id_win cfg)) s1 = (Returned windows, s2) /\
    _manual_lock s2 = _manual_lock s /\
    exec env (get_full_status cfg) s =
      (Returned (<["locked" := PyStr (str_of_bool (_manual_lock s))]>
                   (<["windows" := PyStr windows]> (<["linux" := PyStr linux]> ∅))), s2).
Proof.
  pose proof (exec_get_vm_status env cfg (vm_id_linux cfg) s) as H1. cbv zeta in H1.
  eexists _, _, _, _. split; [exact H1 |].
  match type of H1 with _ = (_, ?s1) =>
    pose proof (exec_get_vm_status env cfg (vm_id_win cfg) s1) as H2 end.
  cbv zeta in H2. split; [exact H2 |]. split; [reflexivity |].
  unfold get_full_status. rewrite exec_bind, H1, exec_bind, H2.
  reflexivity.
Qed.

Lemma getitem_some (d : gmap string pyvalue) key v :
  d !! key = Some v -> getitem d key = Ret v.
Proof. unfold getitem. by intros ->. Qed.

(** X9.  [/status] queries the Linux VM and then the Windows VM and
    answers with one message that shows the two statuses
    [get_vm_status] returned and the manual lock as [True] or [False];
    the look-ups in the status dictionary never fail, so the handler
    raises only if sending the answer does. *)
Theorem cmd_status_reply (env : Env) (cfg : Config) (chat : Z) (s : State) :
  exists linux windows s1 s2,
    exec env (get_vm_status cfg (vm_id_linux cfg)) s = (Returned linux, s1) /\
    exec env (get_vm_status cfg (vm_id_win cfg)) s1 = (Returned windows, s2) /\
    exec env (cmd_status cfg chat) s =
      answered env chat (status_text linux windows (_manual_lock s)) s2.
Proof.
  destruct (exec_get_full_status env cfg s) as (linux & windows & s1 & s2 & H1 & H2 & _ & Hf).
  exists linux, windows, s1, s2. split; [exact H1 |]. split; [exact H2 |].
  unfold cmd_status. rewrite exec_bind, Hf.
  rewrite (getitem_some _ "linux" (PyStr linux)) by reflexivity.
  rewrite exec_bind, exec_ret.
  rewrite (getitem_some _ "windows" (PyStr windows)) by reflexivity.
  rewrite exec_bind, exec_ret.
  rewrite (getitem_some _ "locked" (PyStr (str_of_bool (_manual_lock s)))) by reflexivity.
  rewrite exec_bind, exec_ret.
  apply exec_answer.
Qed.

(** X10.  [/switch] queries both VMs and toggles: when Linux is
    reported running it does what [/switch_windows] does, also when
    Windows runs as well; otherwise, when Windows is reported running,
    what [/switch_linux] does; and in every other case, which includes
    a status that could not be read, it only answers that both VMs are
    stopped.  The manual lock is as before the queries. *)
Theorem cmd_switch_toggles (env : Env) (cfg : Config) (chat : Z) (s : State) :
  exists linux windows s1 s2,
    exec env (get_vm_status cfg (vm_id_linux cfg)) s = (Returned linux, s1) /\
    exec env (get_vm_status cfg (vm_id_win cfg)) s1 = (Returned windows, s2) /\
    _manual_lock s2 = _manual_lock s /\
    exec env (cmd_switch cfg chat) s =
      if String.eqb linux "running" then exec env (cmd_windows cfg chat) s2
      else if String.eqb windows "running" then exec env (cmd_linux cfg chat) s2
      else answered env chat both_stopped_text s2.
Proof.
  destruct (exec_get_full_status env cfg s) as (linux & windows & s1 & s2 & H1 & H2 & Hm & Hf).
  exists linux, windows, s1, s2. split; [exact H1 |]. split; [exact H2 |].
  split; [exact Hm |].
  unfold cmd_switch. rewrite exec_bind, Hf.
  rewrite (getitem_some _ "linux" (PyStr linux)) by reflexivity.
  rewrite exec_bind, exec_ret. cbn [py_eq_str].
  destruct (String.eqb linux "running"); [reflexivity |].
  rewrite (getitem_some _ "windows" (PyStr windows)) by reflexivity.
  rewrite exec_bind, exec_ret. cbn [py_eq_str].
  destruct (String.eqb windows "running"); [reflexivity |].
  apply exec_answer.
Qed.

(** ** A locked controller *)

Lemma perform_locked_call env {A : Type} (c : Call A) (s : State) r s' :
  locked_call A c -> _manual_lock s = true -> perform env c s = Some (r, s') ->
  _manual_lock s' = true /\
  exists new, trace s' = trace s ++ new /\ count is_power new = 0%nat.
Proof.
  destruct c; cbn; intros Hc Hm Hp; try contradiction;
    repeat (case_match; simplify_eq); simplify_eq; cbn;
    (split; [first [assumption | reflexivity] |]);
    first [ by exists []; rewrite app_nil_r | by eexists [_] ].
Qed.

Lemma harmless_ret env {R : Type} (r : R) : harmless env (mret r).
Proof. intros s Hm. cbn. split; [exact Hm |]. exists []. by rewrite app_nil_r. Qed.

Lemma harmless_uses env {R : Type} (p : Prog R) : uses locked_call p -> harmless env p.
Proof.
  intros H. induction H as [r | e | A c k Hc _ IH]; intros s Hm; cbn.
  - split; [exact Hm |]. exists []. by rewrite app_nil_r.
  - split; [exact Hm |]. exists []. by rewrite app_nil_r.
  - destruct (perform env c s) as [[r s'] |] eqn:Hp; cbn.
    + destruct (perform_locked_call env c s r s' Hc Hm Hp) as (Hm' & n1 & Ht1 & Hc1).
      destruct (IH r s' Hm') as (Hm'' & n2 & Ht2 & Hc2).
      split; [exact Hm'' |]. exists (n1 ++ n2).
      rewrite Ht2, Ht1, app_assoc, count_app. split; [reflexivity | lia].
    + split; [exact Hm |]. exists []. by rewrite app_nil_r.
Qed.

Lemma harmless_bind env {A B : Type} (p : Prog A) (k : A -> Prog B) :
  harmless env p -> (forall a, harmless env (k a)) -> harmless env (p ≫= k).
Proof.
  intros Hp Hk s Hm. rewrite exec_bind.
  destruct (Hp s Hm) as (Hm1 & n1 & Ht1 & Hc1).
  destruct (exec env p s) as [o s1]. cbn [snd] in *.
  destruct o as [a | e |]; cbn [snd]; [| by eauto | by eauto].
  destruct (Hk a s1 Hm1) as (Hm2 & n2 & Ht2 & Hc2).
  split; [exact Hm2 |]. exists (n1 ++ n2).
  rewrite Ht2, Ht1, app_assoc, count_app. split; [reflexivity | lia].
Qed.

Lemma harmless_perform_switch env cfg target_os quiet :
  harmless env (perform_switch cfg target_os quiet).
Proof.
  intros s Hm.
  rewrite (perform_switch_held_or_locked env cfg target_os quiet s) by (by left).
  cbn. split; [exact Hm |]. exists []. by rewrite app_nil_r.
Qed.

Lemma body_locked_call A (c : Call A) : body_call_but no_post false A c -> locked_call A c.
Proof. destruct c; cbn; auto; discriminate. Qed.

Lemma uses_locked_get_full_status cfg : uses locked_call (get_full_status cfg).
Proof.
  unfold get_full_status, is_locked. uses_auto;
    eapply uses_mono; [apply body_locked_call | apply uses_get_vm_status
                      | apply body_locked_call | apply uses_get_vm_status].
Qed.

Lemma uses_locked_answer chat txt : uses locked_call (answer chat txt).
Proof. unfold answer. uses_auto. Qed.

Lemma uses_locked_getitem d key : uses locked_call (getitem d key).
Proof. unfold getitem. destruct (d !! key); constructor. Qed.

Lemma uses_locked_set_lock cfg : uses locked_call (set_lock cfg true).
Proof. unfold set_lock. uses_auto. Qed.

Lemma harmless_cmd_switch env cfg chat : harmless env (cmd_switch cfg chat).
Proof.
  unfold cmd_switch, cmd_windows, cmd_linux.
  apply harmless_bind; [apply harmless_uses, uses_locked_get_full_status |]. intros st.
  apply harmless_bind; [apply harmless_uses, uses_locked_getitem |]. intros linux.
  destruct (py_eq_str linux "running").
  { apply harmless_bind; [apply harmless_perform_switch | intros; apply harmless_ret]. }
  apply harmless_bind; [apply harmless_uses, uses_locked_getitem |]. intros windows.
  destruct (py_eq_str windows "running").
  { apply harmless_bind; [apply harmless_perform_switch | intros; apply harmless_ret]. }
  apply harmless_uses, uses_locked_answer.
Qed.

Lemma harmless_handle env cfg t : unlocks cfg t = false -> harmless env (handle cfg t).
Proof.
  destruct t as [chat cmd | ep]; cbn [handle unlocks].
  - unfold on_message. intros Hu.
    destruct (IsAdminChat cfg chat) eqn:Ha; [| apply harmless_ret].
    destruct cmd; try discriminate.
    + apply harmless_uses. unfold cmd_status.
      uses_auto; first [apply uses_locked_get_full_status | apply uses_locked_getitem
                       | apply uses_locked_answer].
    + apply harmless_uses. unfold cmd_lock.
      uses_auto; first [apply uses_locked_set_lock | apply uses_locked_answer].
    + apply harmless_uses, uses_locked_answer.
    + apply harmless_bind; [apply harmless_perform_switch | intros; apply harmless_ret].
    + apply harmless_bind; [apply harmless_perform_switch | intros; apply harmless_ret].
    + apply harmless_cmd_switch.
  - intros Hu. destruct ep; try discriminate; cbn [route];
      (apply harmless_bind; [| intros; apply harmless_ret]).
    + apply harmless_ret.
    + apply harmless_uses, uses_locked_get_full_status.
    + unfold switch_windows. apply harmless_bind; [apply harmless_perform_switch |].
      intros r. destruct (String.eqb _ _); apply harmless_ret.
    + unfold switch_linux. apply harmless_bind; [apply harmless_perform_switch |].
      intros r. destruct (String.eqb _ _); apply harmless_ret.
    + unfold lock_system. apply harmless_bind; [| intros; apply harmless_ret].
      apply harmless_uses, uses_locked_set_lock.
Qed.

Lemma handle_all_locked env cfg ts s :
  _manual_lock s = true -> Forall (fun t => unlocks cfg t = false) ts ->
  _manual_lock (handle_all env cfg ts s) = true /\
  exists new, trace (handle_all env cfg ts s) = trace s ++ new /\
              count is_power new = 0%nat.
Proof.
  intros Hm HF. revert s Hm.
  induction HF as [| t ts Ht _ IH]; intros s Hm; cbn [handle_all].
  - split; [exact Hm |]. exists []. by rewrite app_nil_r.
  - destruct (harmless_handle env cfg t Ht s Hm) as (Hm1 & n1 & Ht1 & Hc1).
    destruct (IH _ Hm1) as (Hm2 & n2 & Ht2 & Hc2).
    split; [exact Hm2 |]. exists (n1 ++ n2).
    rewrite Ht2, Ht1, app_assoc, count_app. split; [reflexivity | lia].
Qed.

(** X8.  While the manual lock is set, no power action is issued:
    whatever bot commands and HTTP requests are handled, as long as
    none of them is an unlock ([/unlock] from the admin chat or
    [POST /unlock]), no shutdown, stop or start request reaches the
    API and the lock stays set. *)
Theorem locked_controller_issues_no_power_action (env : Env) (cfg : Config)
    (ts : list trigger) (s : State) :
  _manual_lock s = true ->
  Forall (fun t => unlocks cfg t = false) ts ->
  _manual_lock (handle_all env cfg ts s) = true /\
  count is_power (events_since s (handle_all env cfg ts s)) = 0%nat.
Proof.
  intros Hm HF.
  destruct (handle_all_locked env cfg ts s Hm HF) as (Hm' & new & Ht & Hc).
  split; [exact Hm' |].
  unfold events_since. rewrite Ht, drop_app_length. exact Hc.
Qed.

Lemma locked_controller_issues_no_power_action_witness :
  let ts := [BotCommand 42 CmdSwitch; HttpRequest PostSwitchWindows;
             BotCommand Scenarios.stranger CmdUnlock; BotCommand 42 CmdSwitchLinux;
             HttpRequest PostLock; BotCommand 42 CmdStatus] in
  _manual_lock (handle_all Examples.calm Examples.cfg ts Examples.locked_state) = true /\
  count is_power
    (events_since Examples.locked_state
       (handle_all Examples.calm Examples.cfg ts Examples.locked_state)) = 0%nat.
Proof.
  cbv zeta.
  apply (locked_controller_issues_no_power_action Examples.calm Examples.cfg).
  - reflexivity.
  - repeat constructor.
Defined.

(** ** Lock and unlock requests *)

Lemma uses_keeps_answer chat txt : uses keeps_manual_lock (answer chat txt).
Proof. unfold answer. uses_auto. Qed.

Lemma uses_keeps_getitem d key : uses keeps_manual_lock (getitem d key).
Proof. unfold getitem. destruct (d !! key); constructor. Qed.

Lemma uses_keeps_get_full_status cfg : uses keeps_manual_lock (get_full_status cfg).
Proof.
  unfold get_full_status, is_locked. uses_auto;
    eapply uses_mono;
      [apply body_keeps_manual_lock | eapply uses_body_call, uses_get_vm_status
      | apply body_keeps_manual_lock | eapply uses_body_call, uses_get_vm_status].
Qed.

Lemma uses_keeps_handle cfg t :
  lock_request cfg t = None -> uses keeps_manual_lock (handle cfg t).
Proof.
  destruct t as [chat cmd | ep]; cbn [handle lock_request].
  - unfold on_message. destruct (IsAdminChat cfg chat); [| intros; constructor].
    destruct cmd; try discriminate; intros _.
    + unfold cmd_status.
      uses_auto; first [apply uses_keeps_get_full_status | apply uses_keeps_getitem
                       | apply uses_keeps_answer].
    + apply uses_keeps_answer.
    + unfold cmd_linux. uses_auto. apply uses_perform_switch_manual.
    + unfold cmd_windows. uses_auto. apply uses_perform_switch_manual.
    + unfold cmd_switch, cmd_windows, cmd_linux.
      apply uses_bind; [apply uses_keeps_get_full_status |]. intros st.
      apply uses_bind; [apply uses_keeps_getitem |]. intros linux.
      destruct (py_eq_str linux "running").
      { uses_auto. apply uses_perform_switch_manual. }
      apply uses_bind; [apply uses_keeps_getitem |]. intros windows.
      destruct (py_eq_str windows "running").
      { uses_auto. apply uses_perform_switch_manual. }
      apply uses_keeps_answer.
  - destruct ep; try discriminate; intros _; cbn [route].
    + uses_auto.
    + unfold get_status. uses_auto. apply uses_keeps_get_full_status.
    + unfold switch_windows. apply uses_bind; [| intros; constructor].
      apply uses_bind; [apply uses_perform_switch_manual |].
      intros r. destruct (String.eqb _ _); constructor.
    + unfold switch_linux. apply uses_bind; [| intros; constructor].
      apply uses_bind; [apply uses_perform_switch_manual |].
      intros r. destruct (String.eqb _ _); constructor.
Qed.

Lemma exec_then_keeps env {A B : Type} (p : Prog A) (k : A -> Prog B) s :
  (forall a, uses keeps_manual_lock (k a)) ->
  _manual_lock (exec env (p ≫= k) s).2 = _manual_lock (exec env p s).2.
Proof.
  intros Hk. rewrite exec_bind.
  destruct (exec env p s) as [[a | e |] s1]; cbn [snd]; try reflexivity.
  apply exec_keeps_manual_lock, Hk.
Qed.

Lemma manual_after_set_lock env cfg b s :
  _manual_lock (exec env (set_lock cfg b) s).2 = b.
Proof. destruct (exec_set_lock env cfg b s) as (s' & new & -> & Hm & _). exact Hm. Qed.

Lemma handle_sets_lock env cfg t b s :
  lock_request cfg t = Some b -> _manual_lock (exec env (handle cfg t) s).2 = b.
Proof.
  destruct t as [chat cmd | ep]; cbn [handle lock_request].
  - unfold on_message. destruct (IsAdminChat cfg chat); destruct cmd; try discriminate;
      intros [= <-]; unfold cmd_lock, cmd_unlock;
      (rewrite exec_then_keeps by (intros; apply uses_keeps_answer));
      apply manual_after_set_lock.
  - destruct ep; try discriminate; intros [= <-]; cbn [route];
      unfold lock_system, unlock_system;
      rewrite !exec_then_keeps by (intros; constructor);
      apply manual_after_set_lock.
Qed.

(** X11.  The manual lock is what the last lock or unlock request set
    it to: after any bot commands and HTTP requests, [_manual_lock] is
    the value of the last [/lock], [/unlock] (from the admin chat),
    [POST /lock] or [POST /unlock] among them, and the value it had
    before when there is none.  A lock file that cannot be written and
    an answer that cannot be sent do not change that, and no other
    handler touches the lock. *)
Theorem manual_lock_follows_last_request (env : Env) (cfg : Config) (ts : list trigger)
    (s : State) :
  _manual_lock (handle_all env cfg ts s)
  = default (_manual_lock s) (last (omap (lock_request cfg) ts)).
Proof.
  revert s. induction ts as [| t ts IH]; intros s; cbn [handle_all]; [reflexivity |].
  rewrite IH.
  change (omap (lock_request cfg) (t :: ts))
    with (match lock_request cfg t with
          | Some b => b :: omap (lock_request cfg) ts
          | None => omap (lock_request cfg) ts
          end).
  destruct (lock_request cfg t) as [b |] eqn:Hr.
  - rewrite (handle_sets_lock env cfg t b s Hr), last_cons.
    by destruct (last (omap (lock_request cfg) ts)).
  - by rewrite (exec_keeps_manual_lock env _ s (uses_keeps_handle cfg t Hr)).
Qed.

(** ** A refused switch *)

(** X12.  A switch command that is refused, because the manual lock is
    set or a switch is in progress, is refused silently: [/switch_linux]
    and [/switch_windows] send nothing to the chat, write no log record
    and change nothing, while the HTTP endpoints return the error
    dictionary, also without a trace. *)
Theorem refused_switch_command_is_silent (env : Env) (cfg : Config) (chat : Z) (s : State) :
  _manual_lock s = true \/ _op_lock s = true ->
  let refusal := if _manual_lock s then locked_error else busy_error in
  exec env (cmd_linux cfg chat) s = (Returned tt, s) /\
  exec env (cmd_windows cfg chat) s = (Returned tt, s) /\
  exec env (switch_linux cfg) s = (Returned (result_dict refusal), s) /\
  exec env (switch_windows cfg) s = (Returned (result_dict refusal), s).
Proof.
  intros H. cbv zeta.
  unfold cmd_linux, cmd_windows, switch_linux, switch_windows.
  rewrite !exec_bind, !(perform_switch_held_or_locked env cfg _ _ s H).
  repeat split; destruct (String.eqb _ _); reflexivity.
Qed.

Lemma refused_switch_command_is_silent_witness :
  exec Examples.calm (cmd_linux Examples.cfg 42) Examples.busy
    = (Returned tt, Examples.busy) /\
  exec Examples.calm (switch_windows Examples.cfg) Examples.locked_state
    = (Returned (result_dict locked_error), Examples.locked_state).
Proof.
  destruct (refused_switch_command_is_silent Examples.calm Examples.cfg 42 Examples.busy
              (or_intror eq_refl)) as (Hbot & _).
  destruct (refused_switch_command_is_silent Examples.calm Examples.cfg 42
              Examples.locked_state (or_introl eq_refl)) as (_ & _ & _ & Hapi).
  split; [exact Hbot | exact Hapi].
Defined.

(** ** A lock that could not be saved *)

Lemma restart_empty_lock_file env cfg s :
  disk s !! lock_file_path cfg = Some [] -> _manual_lock (restart env cfg s) = false.
Proof.
  intros Hd. unfold restart, __init__. rewrite exec_bind.
  pose proof (exec_load_lock_state env cfg (boot (disk s) (trace s))) as H.
  cbv zeta in H. cbn [disk boot] in H. rewrite Hd in H. rewrite H. clear H.
  destruct (fs_fault env _ (FsOpen _ _)); [reflexivity |].
  destruct (fs_fault env _ (FsRead _)); reflexivity.
Qed.

(** X13.  When saving the lock fails, [set_lock] still returns, the
    lock is set in memory and the failure is logged, but the file does
    not hold it: either the file could not be opened and the disk is as
    before, or it was opened and could not be written, and then it is
    left empty, which a restarted controller reads as unlocked,
    whatever was asked for. *)
Theorem failed_save_keeps_lock_in_memory_only (env env' : Env) (cfg : Config) (b : bool)
    (s : State) :
  let run := exec env (set_lock cfg b) s in
  ~ no_fs_fault_since s run.2 ->
  run.1 = Returned tt /\
  _manual_lock run.2 = b /\
  (exists e, ELog ERROR ("Failed to save lock state: " +:+ exn_str e)
               ∈ events_since s run.2) /\
  (disk run.2 = disk s \/
   disk run.2 !! lock_file_path cfg = Some [] /\
   _manual_lock (restart env' cfg run.2) = false).
Proof.
  cbv zeta. unfold set_lock, no_fs_fault_since, events_since. cbn.
  destruct (fs_fault env (trace s) (FsOpen (lock_file_path cfg) mode_w)) as [e1 |] eqn:H1;
    cbn.
  - intros _. split; [reflexivity |]. split; [reflexivity |]. split; [| by left].
    exists e1. rewrite <- app_assoc, drop_app_length. cbn. right; left.
  - match goal with |- context [fs_fault env ?h (FsWrite ?p ?c)] =>
      destruct (fs_fault env h (FsWrite p c)) as [e2 |] eqn:H2 end; cbn.
    + intros _. split; [reflexivity |]. split; [reflexivity |]. split.
      * exists e2. rewrite <- !app_assoc, drop_app_length. cbn. right; right; left.
      * right. split; [apply lookup_insert_eq |].
        apply restart_empty_lock_file. cbn. apply lookup_insert_eq.
    + intros H. exfalso. apply H. rewrite <- !app_assoc, drop_app_length.
      repeat constructor.
Qed.

Lemma failed_save_keeps_lock_in_memory_only_witness :
  let run := exec Scenarios.disk_full (set_lock Examples.cfg true) Examples.idle in
  ~ no_fs_fault_since Examples.idle run.2 /\
  _manual_lock run.2 = true /\
  _manual_lock (restart Examples.calm Examples.cfg run.2) = false.
Proof.
  cbv zeta.
  assert (Hf : ~ no_fs_fault_since Examples.idle
                 (exec Scenarios.disk_full (set_lock Examples.cfg true) Examples.idle).2).
  { vm_compute. intros H.
    apply Forall_cons in H as [_ H]. apply Forall_cons in H as [Hx _]. discriminate Hx. }
  split; [exact Hf |].
  destruct (failed_save_keeps_lock_in_memory_only Scenarios.disk_full Examples.calm
              Examples.cfg true Examples.idle Hf) as (_ & Hm & _ & [Hd | [_ Hr]]).
  - exfalso. vm_compute in Hd. discriminate Hd.
  - split; [exact Hm | exact Hr].
Defined.

(** ** A shutdown request the API refuses *)

Section Refused.
Context (env : Env) (cfg : Config) (target_os : string) (quiet_on_skip : bool).

#[local] Abbreviation node := (proxmox_node cfg).
#[local] Abbreviation src := (source_id cfg target_os).
#[local] Abbreviation tgt := (target_id cfg target_os).

Lemma after_wait_returns pm (stopped : bool) s :
  exists r new,
    exec env
      (aborted ← (if negb stopped then
                    report cfg pm (stuck_text target_os);;
                    force_stop cfg src (source_name target_os) pm
                  else mret None);
       match aborted with
       | Some r => mret r
       | None => start_target cfg tgt (target_name target_os) pm
       end) s = (Returned r, extend new s).
Proof.
  match goal with |- exists r new, exec env ?p s = _ =>
    destruct (exec_returns env (fun _ => true) true p s) as (r & new & He & _);
      [| | exists r, new; exact He] end.
  - apply uses_bind.
    + destruct stopped; cbn [negb]; [constructor |].
      apply uses_bind; [widen (uses_report cfg pm (stuck_text target_os)) |].
      intros _. widen (uses_force_stop cfg src (source_name target_os) pm).
    + intros [r |]; [constructor |].
      widen (uses_start_target cfg tgt (target_name target_os) pm).
  - apply returns_bind.
    + destruct stopped; cbn [negb]; [constructor |].
      apply returns_bind; [apply returns_report |]. intros _. apply returns_force_stop.
    + intros [r |]; [constructor | apply returns_start_target].
Qed.

(** The waiter with a positive time-out begins with a status query of
    the VM it waits for. *)
Lemma wait_loop_first_poll vmid n s :
  exists new',
    (exec env (wait_loop cfg vmid (S n)) s).2 =
      extend (EStatusGet node vmid (pve_status env (trace s) node vmid) :: new') s.
Proof.
  cbn [wait_loop]. rewrite exec_bind, exec_get_vm_status. cbv zeta.
  destruct (String.eqb (status_of (pve_status env (trace s) node vmid)) "stopped").
  - rewrite exec_ret. eexists. reflexivity.
  - rewrite exec_bind, exec_call. cbn [perform]. rewrite emit_extend, extend_extend.
    match goal with |- context [exec env (wait_loop cfg vmid n) ?st] =>
      destruct (wait_loop_polls env cfg vmid n st) as (b & new & -> & _) end.
    rewrite extend_extend. eexists. reflexivity.
Qed.

(** X14.  A [ResourceException] of the shutdown request does not end
    the switch: it is logged as an error right after the request, and
    the switch goes on as if the request had been accepted.  What
    follows the log record in the run is the run of
    [_wait_for_shutdown] on the source, which begins with a status
    query of the source and, when it returns [False], holds all 180
    one-second sleeps, and after it the rest of the switch (the forced
    stop when the wait ran out, and the start phase), whose result
    [perform_switch] returns. *)
Theorem shutdown_resource_error_is_survived (s : State) (pm : option Message)
    (s1 s2 : State) (e : exn) :
  let refused := [EPost shutdown node src (inl e);
                  ELog ERROR ("Error triggering shutdown: " +:+ exn_str e)] in
  let s3 := extend refused s2 in
  reaches_step2 env cfg target_os quiet_on_skip s pm s1 ->
  exec env (get_vm_status cfg src) s1 = (Returned "running", s2) ->
  pve_post env (trace s2) shutdown node src = inl e ->
  is_ResourceException e = true ->
  exists r s' before stopped polls rest,
    exec env (perform_switch cfg target_os quiet_on_skip) s = (Returned r, s') /\
    events_since s s' = before ++ refused ++ polls ++ rest /\
    count is_power before = 0%nat /\
    exec env (_wait_for_shutdown cfg src 180) s3 = (Returned stopped, extend polls s3) /\
    (exists polls',
       polls = EStatusGet node src (pve_status env (trace s3) node src) :: polls') /\
    (stopped = false -> count is_poll_sleep polls = 180%nat) /\
    exec env
      (aborted ← (if negb stopped then
                    report cfg pm (stuck_text target_os);;
                    force_stop cfg src (source_name target_os) pm
                  else mret None);
       match aborted with
       | Some r => mret r
       | None => start_target cfg tgt (target_name target_os) pm
       end) (extend polls s3) = (Returned r, extend rest (extend polls s3)).
Proof.
  intros refused s3 Hr H2 Hpost Hres.
  destruct (shutdown_resource_error_proceeds env cfg target_os quiet_on_skip
              s pm s1 s2 e Hr H2 Hpost Hres) as [_ Hbody].
  fold refused in Hbody. fold s3 in Hbody.
  destruct (reaches_step2_events env cfg target_os quiet_on_skip s pm s1 Hr)
    as (n1 & Hs1 & Hn1).
  destruct (exec_events_since env _ _ _ _ _ _ (uses_get_vm_status cfg _) H2)
    as (n2 & Hs2 & Hn2 & _).
  rewrite exec_bind in Hbody.
  destruct (wait_loop_polls env cfg src 180 s3)
    as (b & n4 & Hw & _ & _ & Hp & _ & _ & _ & Hfull & _).
  change (wait_loop cfg src 180) with (_wait_for_shutdown cfg src 180) in Hw.
  rewrite Hw in Hbody. cbv beta iota in Hbody.
  destruct (after_wait_returns pm b (extend n4 s3)) as (r & n5 & Hrest).
  rewrite Hrest in Hbody.
  destruct Hr as (Hm & Hop & _).
  exists r. eexists. exists (n1 ++ n2), b, n4, n5. split.
  { apply exec_perform_switch_free; [exact Hm | exact Hop | exact Hbody]. }
  split; [| split; [| split; [exact Hw |]; split; [| split; [| exact Hrest]]]].
  - unfold s3. rewrite Hs2, Hs1, !extend_extend, events_since_set_op, events_since_extend_op.
    by rewrite <- !app_assoc.
  - zero_counts Hn1. zero_counts Hn2. rewrite count_app.
    pose proof (count_power_posts n1). pose proof (count_power_posts n2). lia.
  - destruct (wait_loop_first_poll src 179 s3) as (polls' & Hfirst).
    change (wait_loop cfg src 180) with (_wait_for_shutdown cfg src 180) in Hfirst.
    rewrite Hw in Hfirst. cbn [snd] in Hfirst.
    exists polls'. apply (f_equal trace) in Hfirst. cbn [trace extend] in Hfirst.
    by apply app_inv_head in Hfirst.
  - intros ->. rewrite Hp. exact (Hfull eq_refl).
Qed.

End Refused.

Lemma shutdown_resource_error_is_survived_witness :
  exists pm s1 s2,
    reaches_step2 Examples.shutdown_refused Examples.cfg "windows" false Examples.idle
      pm s1 /\
    exec Examples.shutdown_refused (get_vm_status Examples.cfg 100) s1
      = (Returned "running", s2) /\
    pve_post Examples.shutdown_refused (trace s2) shutdown "pve" 100
      = inl Examples.ServerError /\
    is_ResourceException Examples.ServerError = true /\
    exists r s' polls',
      exec Examples.shutdown_refused (perform_switch Examples.cfg "windows" false)
        Examples.idle = (Returned r, s') /\
      count is_poll_sleep (EStatusGet "pve" 100 Examples.running :: polls') = 180%nat.
Proof.
  eexists _, _, _.
  split; [split; [reflexivity |]; split; [reflexivity |]; vm_compute; reflexivity |].
  split; [vm_compute; reflexivity |].
  split; [reflexivity |]. split; [reflexivity |].
  edestruct (shutdown_resource_error_is_survived Examples.shutdown_refused Examples.cfg
               "windows" false Examples.idle)
    as (r & s' & before & stopped & polls & rest & Hrun & _ & _ & Hwait & [polls' Hfirst]
        & Hfull & _).
  - split; [reflexivity |]. split; [reflexivity |]. vm_compute. reflexivity.
  - vm_compute. reflexivity.
  - reflexivity.
  - reflexivity.
  - exists r, s', polls'. split; [exact Hrun |].
    assert (Hs : stopped = false).
    { apply (f_equal fst) in Hwait. vm_compute in Hwait. by injection Hwait. }
    rewrite <- (Hfull Hs), Hfirst. reflexivity.
Defined.

(** ** Config.from_env *)

Section FromEnvProperties.
Context (int : string -> string + Z) (environ : gmap string string).

#[local] Ltac read_str k :=
  destruct (environ !! k) as [? |] eqn:?; cbn; [| reflexivity].

#[local] Ltac read_int k :=
  destruct (environ !! k) as [? |] eqn:?; cbn; [| reflexivity];
  match goal with |- context [int ?v] => destruct (int v) as [? | ?] eqn:? end;
  cbn; [reflexivity |].

(** X15.  [Config.from_env] succeeds exactly when the nine required
    variables are set and the three numeric ones are accepted by
    [int]; the configuration then holds their values, and
    [lock.local] as the lock file when [LOCK_FILE_PATH] is not set.
    Otherwise it fails on the first variable, in the order of the
    constructor call, that is missing or not a number: it logs that
    one as critical and raises its [KeyError] or [ValueError]. *)
Theorem from_env_reports_first_bad_variable :
  match head (omap (var_error int environ) required_vars) with
  | Some e => from_env int environ = inl (failure_of e)
  | None =>
      exists cfg,
        from_env int environ = inr cfg /\
        environ !! "PROXMOX_HOST" = Some (proxmox_host cfg) /\
        environ !! "PROXMOX_USER" = Some (proxmox_user cfg) /\
        environ !! "PROXMOX_TOKEN_NAME" = Some (proxmox_token_name cfg) /\
        environ !! "PROXMOX_TOKEN_VALUE" = Some (proxmox_token_value cfg) /\
        environ !! "PROXMOX_NODE_NAME" = Some (proxmox_node cfg) /\
        int <$> environ !! "PROXMOX_LINUX_VM_ID" = Some (inr (vm_id_linux cfg)) /\
        int <$> environ !! "PROXMOX_WIN_VM_ID" = Some (inr (vm_id_win cfg)) /\
        environ !! "BOT_TOKEN" = Some (bot_token cfg) /\
        int <$> environ !! "BOT_CHAT_ID" = Some (inr (bot_chat_id cfg)) /\
        lock_file_path cfg = default "lock.local" (environ !! "LOCK_FILE_PATH")
  end.
Proof.
  unfold from_env, read_config, environ_int, environ_getitem, and_then, required_vars,
    var_error, failure_of.
  cbn.
  read_str "PROXMOX_HOST". read_str "PROXMOX_USER". read_str "PROXMOX_TOKEN_NAME".
  read_str "PROXMOX_TOKEN_VALUE". read_str "PROXMOX_NODE_NAME".
  read_int "PROXMOX_LINUX_VM_ID". read_int "PROXMOX_WIN_VM_ID".
  read_str "BOT_TOKEN". read_int "BOT_CHAT_ID".
  eexists. split; [reflexivity |]. cbn.
  repeat match goal with H : int _ = _ |- _ => rewrite H end.
  repeat split.
Qed.

End FromEnvProperties.

(** ** Whom the switch talks to *)

Section Addressed.
Context (env : Env) (cfg : Config).

Lemma perform_addressed pm {A : Type} (c : Call A) (s : State) :
  addressed_call cfg pm A c ->
  exists r e, perform env c s = Some (r, extend [e] s) /\ addressed cfg pm e.
Proof. destruct c; cbn; intros H; try contradiction; eauto. Qed.

Lemma exec_addressed pm {R : Type} (p : Prog R) (s : State) :
  uses (addressed_call cfg pm) p ->
  exists o new, exec env p s = (o, extend new s) /\ Forall (addressed cfg pm) new.
Proof.
  intros H. revert s.
  induction H as [r | e | A c k Hc _ IH]; intros s; cbn.
  - exists (Returned r), []. by rewrite extend_nil.
  - exists (Raised e), []. by rewrite extend_nil.
  - destruct (perform_addressed pm c s Hc) as (r & e & -> & He).
    destruct (IH r (extend [e] s)) as (o & new & -> & Hn).
    exists o, (e :: new). rewrite extend_extend. split; [reflexivity |].
    by constructor.
Qed.

Lemma addressed_any pm e : addressed cfg None e -> addressed cfg pm e.
Proof. destruct e; cbn; try tauto. by intros [_ ?]. Qed.

Lemma body_addressed pm A (c : Call A) :
  body_call_but (fun _ => true) true A c ->
  match c with SendMessage _ _ | EditMessageText _ _ _ => False | _ => True end ->
  addressed_call cfg pm A c.
Proof. destruct c; cbn; tauto. Qed.

Lemma uses_addressed_get_vm_status pm vmid :
  uses (addressed_call cfg pm) (get_vm_status cfg vmid).
Proof.
  unfold get_vm_status. apply uses_try_except.
  - apply uses_bind; [by apply uses_call | intros; constructor].
  - intros e. apply uses_bind; [by apply uses_call | intros; constructor].
Qed.

Lemma uses_addressed_report pm txt : uses (addressed_call cfg pm) (report cfg pm txt).
Proof.
  unfold report. destruct pm as [m |]; [| constructor].
  apply uses_try_except; [by apply uses_call |].
  intros e. destruct (is_TelegramBadRequest e); [constructor | by apply uses_call].
Qed.

Lemma uses_addressed_preflight pm tid tname quiet :
  uses (addressed_call cfg pm) (preflight cfg tid tname quiet).
Proof.
  unfold preflight. apply uses_try_except.
  - apply uses_bind; [apply uses_addressed_get_vm_status |]. intros st.
    destruct (String.eqb st "running"); [| constructor].
    apply uses_bind; [by apply uses_call |]. intros _.
    apply uses_bind; [| intros; constructor].
    destruct quiet; cbn [negb]; [constructor |].
    apply uses_bind; [by apply uses_call | intros; constructor].
  - intros e. apply uses_bind; [by apply uses_call | intros; constructor].
Qed.

Lemma uses_addressed_wait_loop pm vmid n :
  uses (addressed_call cfg pm) (wait_loop cfg vmid n).
Proof.
  induction n as [| n IH]; cbn [wait_loop]; [constructor |].
  apply uses_bind; [apply uses_addressed_get_vm_status |]. intros st.
  destruct (String.eqb st "stopped"); [constructor |].
  apply uses_bind; [by apply uses_call | intros; exact IH].
Qed.

Lemma uses_addressed_failure pm msg (r : SwitchResult) :
  uses (addressed_call cfg pm)
    (logger ERROR msg;;
     report cfg pm ("❌ <b>Switch Failed</b>" +:+ LF +:+ msg);;
     mret (Some r)).
Proof.
  apply uses_bind; [by apply uses_call |]. intros _.
  apply uses_bind; [apply uses_addressed_report | intros; constructor].
Qed.

Lemma uses_addressed_stop_source pm sid sname tname :
  uses (addressed_call cfg pm) (stop_source cfg sid sname tname pm).
Proof.
  unfold stop_source, request_shutdown, _wait_for_shutdown, force_stop.
  apply uses_bind.
  { apply uses_try_except_on; [by apply uses_call | intros; by apply uses_call]. }
  intros _. apply uses_bind; [apply uses_addressed_wait_loop |]. intros stopped.
  destruct stopped; cbn [negb]; [constructor |].
  apply uses_bind; [apply uses_addressed_report |]. intros _.
  apply uses_try_except.
  - apply uses_bind; [by apply uses_call |]. intros _.
    apply uses_bind; [by apply uses_call | intros; constructor].
  - intros e. apply uses_addressed_failure.
Qed.

Lemma uses_addressed_start_target pm tid tname :
  uses (addressed_call cfg pm) (start_target cfg tid tname pm).
Proof.
  unfold start_target.
  apply uses_bind; [apply uses_addressed_report |]. intros _.
  apply uses_bind.
  - apply uses_try_except.
    + apply uses_bind; [apply uses_addressed_get_vm_status |]. intros st.
      apply uses_bind; [| intros; constructor].
      destruct (String.eqb st "running"); cbn [negb]; [apply uses_addressed_report |].
      apply uses_bind; [by apply uses_call | intros; apply uses_addressed_report].
    + intros e. apply uses_addressed_failure.
  - intros [r |]; constructor.
Qed.

Lemma enter_switch_addressed target_os quiet s :
  exists o new pm,
    exec env (enter_switch cfg target_os quiet) s = (o, extend new s) /\
    Forall (addressed cfg pm) new /\
    (forall m, pm = Some m ->
       ESendMessage (bot_chat_id cfg) (init_text target_os) (inr m) ∈ new) /\
    (forall pm', o = Returned (inr pm') -> pm' = pm).
Proof.
  unfold enter_switch. rewrite exec_bind.
  destruct (exec_addressed None (preflight cfg (target_id cfg target_os)
              (target_name target_os) quiet) s (uses_addressed_preflight _ _ _ _))
    as (o1 & n1 & -> & Hn1).
  destruct o1 as [[r |] | e |].
  - exists (Returned (inl r)), n1, None. split; [reflexivity |]. split; [exact Hn1 |].
    split; intros; discriminate.
  - rewrite exec_bind, exec_logger, emit_extend, extend_extend, exec_bind.
    rewrite (exec_open_progress env cfg target_os). cbv zeta. fold (init_text target_os).
    destruct (bot_send env _ (bot_chat_id cfg) (init_text target_os)) as [e | m] eqn:Hsend.
    + rewrite extend_extend, exec_bind.
      exists (Returned (inr None)), ((n1 ++ [ELog INFO ("Switching to " +:+ target_name target_os +:+ " (ID: " +:+ str_of_int (target_id cfg target_os) +:+ ")")]) ++ [ESendMessage (bot_chat_id cfg) (init_text target_os) (inl e); ELog ERROR ("Failed to send init message: " +:+ exn_str e)]), None.
      split; [reflexivity |]. split; [| split; [intros; discriminate | by intros ? [= <-]]].
      repeat (apply Forall_app; split); [exact Hn1 | |]; repeat constructor.
    + rewrite extend_extend, exec_bind.
      match goal with |- context [exec env (report cfg (Some m) ?txt) ?st] =>
        destruct (exec_addressed (Some m) (report cfg (Some m) txt) st
                    (uses_addressed_report _ _)) as (o2 & n2 & -> & Hn2) end.
      rewrite extend_extend.
      exists (match o2 with
              | Returned _ => Returned (inr (Some m))
              | Raised e2 => Raised e2
              | Blocked => Blocked
              end).
      eexists _, (Some m). split.
      { destruct o2 as [[] | e2 |]; reflexivity. }
      split; [| split].
      * repeat (apply Forall_app; split); try exact Hn2.
        -- eapply Forall_impl; [exact Hn1 | apply addressed_any].
        -- repeat constructor.
        -- repeat constructor.
      * intros ? [= <-]. apply elem_of_app. left. apply elem_of_app. right. left.
      * destruct o2 as [[] | e2 |]; intros pm' [=]; congruence.
  - exists (Raised e), n1, None. split; [reflexivity |]. split; [exact Hn1 |].
    split; intros; discriminate.
  - exists Blocked, n1, None. split; [reflexivity |]. split; [exact Hn1 |].
    split; intros; discriminate.
Qed.

Lemma switch_body_addressed target_os quiet s :
  exists o new pm,
    exec env (switch_body cfg target_os quiet) s = (o, extend new s) /\
    Forall (addressed cfg pm) new /\
    (forall m, pm = Some m ->
       ESendMessage (bot_chat_id cfg) (init_text target_os) (inr m) ∈ new).
Proof.
  unfold switch_body. rewrite exec_bind.
  destruct (enter_switch_addressed target_os quiet s) as (o1 & n1 & pm & -> & Hn1 & Hsent & Hpm).
  destruct o1 as [[r | pm'] | e |]; try (by eexists _, n1, pm).
  rewrite (Hpm pm' eq_refl).
  match goal with |- context [exec env ?p (extend n1 s)] =>
    destruct (exec_addressed pm p (extend n1 s)) as (o2 & n2 & -> & Hn2) end.
  - apply uses_bind; [apply uses_addressed_get_vm_status |]. intros st.
    apply uses_bind.
    + destruct (String.eqb st "running"); [apply uses_addressed_stop_source | constructor].
    + intros [r |]; [constructor | apply uses_addressed_start_target].
  - rewrite extend_extend. exists o2, (n1 ++ n2), pm. split; [reflexivity |].
    split; [by apply Forall_app |].
    intros m Hm. apply elem_of_app. left. by apply Hsent.
Qed.

(** X16.  The switch talks to the admin chat only, and edits its own
    progress message only: every message [perform_switch] sends goes to
    [bot_chat_id], and every edit it makes is in that chat and of the
    message that its "Initializing" send returned in the same run.
    When that send failed, nothing is edited. *)
Theorem progress_edits_own_message (target_os : string) (quiet_on_skip : bool) (s : State) :
  let new := events_since s (exec env (perform_switch cfg target_os quiet_on_skip) s).2 in
  (forall chat txt r, ESendMessage chat txt r ∈ new -> chat = bot_chat_id cfg) /\
  (forall txt chat mid r, EEditMessageText txt chat mid r ∈ new ->
     chat = bot_chat_id cfg /\
     exists m, message_id m = mid /\
       ESendMessage (bot_chat_id cfg) (init_text target_os) (inr m) ∈ new).
Proof.
  cbv zeta.
  assert (Hgoal : forall new pm,
            Forall (addressed cfg pm) new ->
            (forall m, pm = Some m ->
               ESendMessage (bot_chat_id cfg) (init_text target_os) (inr m) ∈ new) ->
            (forall chat txt r, ESendMessage chat txt r ∈ new -> chat = bot_chat_id cfg) /\
            (forall txt chat mid r, EEditMessageText txt chat mid r ∈ new ->
               chat = bot_chat_id cfg /\
               exists m, message_id m = mid /\
                 ESendMessage (bot_chat_id cfg) (init_text target_os) (inr m) ∈ new)).
  { intros new pm HF Hsent. rewrite Forall_forall in HF. split.
    - intros chat txt r Hin. exact (HF _ Hin).
    - intros txt chat mid r Hin. destruct (HF _ Hin) as [Hc Hm]. split; [exact Hc |].
      destruct pm as [m |]; [| discriminate]. injection Hm as Hm.
      exists m. split; [exact Hm | by apply Hsent]. }
  destruct (_manual_lock s) eqn:Hm.
  { rewrite (perform_switch_held_or_locked env cfg target_os quiet_on_skip s) by (by left).
    cbn [snd]. unfold events_since. rewrite drop_all.
    apply (Hgoal [] None); [constructor | intros; discriminate]. }
  destruct (_op_lock s) eqn:Hop.
  { rewrite (perform_switch_held_or_locked env cfg target_os quiet_on_skip s) by (by right).
    cbn [snd]. unfold events_since. rewrite drop_all.
    apply (Hgoal [] None); [constructor | intros; discriminate]. }
  destruct (switch_body_addressed target_os quiet_on_skip (set_op true s))
    as (o & new & pm & He & HF & Hsent).
  rewrite (exec_perform_switch_free env cfg target_os quiet_on_skip s o _ Hm Hop He).
  cbn [snd]. rewrite events_since_set_op, events_since_extend_op.
  by apply (Hgoal new pm).
Qed.

End Addressed.

(** ** The manual lock and the event loop *)

Lemma perform_body_set_manual env b {A : Type} (c : Call A) (s : State) :
  body_call A c ->
  exists r e,
    perform env c s = Some (r, extend [e] s) /\
    perform env c (set_manual b s) = Some (r, extend [e] (set_manual b s)).
Proof. destruct c; cbn; intros H; try contradiction; eauto. Qed.

(** A turn of a task that is inside the body does not depend on the
    manual lock. *)
Lemma run_slice_set_manual (env : Env) {R : Type} (p : Prog R)
    (s : State) (b resumed : bool) :
  in_body p ->
  run_slice env resumed p (set_manual b s) =
    ((run_slice env resumed p s).1, set_manual b (run_slice env resumed p s).2).
Proof.
  intros Hb. revert s resumed.
  induction Hb as [k Hk | A c k Hc Hk IH]; intros s resumed.
  - cbn. destruct (_op_lock s); cbn.
    + specialize (Hk (inr tt)). by destruct (k (inr ())).
    + specialize (Hk (inl (RuntimeError "Lock is not acquired."))).
      by destruct (k (inl _)).
  - cbn [run_slice]. destruct (is_await c && negb resumed); [reflexivity |].
    destruct (perform_body_set_manual env b c s Hc) as (r & e & -> & ->).
    apply (IH r (extend [e] s) false).
Qed.

Lemma run_slice_finished env {R : Type} (p : Prog R) (s : State) (resumed : bool) :
  finished p -> run_slice env resumed p s = (p, s).
Proof. by destruct p. Qed.

(** A task inside the body stays there until it ends. *)
Lemma run_slice_stays env {R : Type} (p : Prog R) (s : State) (resumed : bool) :
  in_body p \/ finished p ->
  in_body (run_slice env resumed p s).1 \/ finished (run_slice env resumed p s).1.
Proof.
  intros [Hb | Hf]; [| rewrite run_slice_finished by exact Hf; by right].
  revert s resumed. induction Hb as [k Hk | A c k Hc Hk IH]; intros s resumed.
  - cbn. destruct (_op_lock s); cbn;
      rewrite run_slice_finished by apply Hk; right; apply Hk.
  - cbn [run_slice]. destruct (is_await c && negb resumed).
    + left. by constructor.
    + destruct (perform_body_call_but env _ _ c s Hc) as (r & e & -> & _). apply IH.
Qed.

Lemma turns_stays env {R : Type} (n : nat) (p : Prog R) (s : State) :
  in_body p \/ finished p ->
  in_body (turns env n p s).1 \/ finished (turns env n p s).1.
Proof.
  revert p s. induction n as [| n IH]; intros p s Hp; cbn [turns]; [exact Hp |].
  pose proof (run_slice_stays env p s true Hp) as Hp'.
  destruct (run_slice env true p s) as [p' s']. by apply IH.
Qed.

Lemma turns_set_manual env {R : Type} (n : nat) (p : Prog R) (s : State) (b : bool) :
  in_body p \/ finished p ->
  turns env n p (set_manual b s) = ((turns env n p s).1, set_manual b (turns env n p s).2).
Proof.
  revert p s. induction n as [| n IH]; intros p s Hp; cbn [turns]; [reflexivity |].
  pose proof (run_slice_stays env p s true Hp) as Hp'.
  assert (Hrun : run_slice env true p (set_manual b s) =
                 ((run_slice env true p s).1, set_manual b (run_slice env true p s).2)).
  { destruct Hp as [Hb | Hf]; [by apply run_slice_set_manual |].
    by rewrite !run_slice_finished. }
  rewrite Hrun. destruct (run_slice env true p s) as [p' s']. by apply IH.
Qed.

(** X17.  The manual lock is looked at when [perform_switch] is called
    and never again.  A call that had its first turn while the lock
    was open and the guard free takes, from then on, exactly the same
    turns (the same calls, the same answers, the same result) whatever
    [_manual_lock] is set to in between, so setting the lock does not
    stop a switch that has begun, and opening it changes nothing for
    one either. *)
Theorem lock_does_not_interrupt_running_switch (env : Env) (cfg : Config)
    (target_os : string) (quiet_on_skip : bool) (s : State) (b : bool) (k n : nat) :
  _manual_lock s = false ->
  _op_lock s = false ->
  let started := turns env (S k) (perform_switch cfg target_os quiet_on_skip) s in
  turns env n started.1 (set_manual b started.2) =
    ((turns env n started.1 started.2).1,
     set_manual b (turns env n started.1 started.2).2).
Proof.
  intros Hm Hop started. apply turns_set_manual.
  unfold started. cbn [turns]. rewrite run_slice_fresh, Hm, Hop.
  pose proof (run_slice_stays env
                (finally (switch_body cfg target_os quiet_on_skip) (call OpLockRelease))
                (set_op true s) false
                (or_introl (in_body_finally _ (uses_switch_body cfg target_os quiet_on_skip))))
    as Hp.
  destruct (run_slice env false _ (set_op true s)) as [p1 s1]. by apply turns_stays.
Qed.

Lemma lock_does_not_interrupt_running_switch_witness :
  let started := turns Examples.calm 1 (perform_switch Examples.cfg "windows" false)
                   Examples.idle in
  let locked_run := turns Examples.calm 2 started.1 (set_manual true started.2) in
  _manual_lock Examples.idle = false /\
  _op_lock Examples.idle = false /\
  locked_run =
    ((turns Examples.calm 2 started.1 started.2).1,
     set_manual true (turns Examples.calm 2 started.1 started.2).2) /\
  _manual_lock locked_run.2 = true /\
  count (is_post shutdown) (trace started.2) = 0%nat /\
  count (is_post shutdown) (trace locked_run.2) = 1%nat.
Proof.
  cbv zeta. split; [reflexivity |]. split; [reflexivity |]. split.
  { exact (lock_does_not_interrupt_running_switch Examples.calm Examples.cfg "windows"
             false Examples.idle true 0 2 eq_refl eq_refl). }
  split; [vm_compute; reflexivity |]. split; vm_compute; reflexivity.
Defined.

Lemma locked_tick env cfg s0 t sys :
  t <> SetLock false ->
  _manual_lock (shared sys) = true ->
  (exists new, trace (shared sys) = trace s0 ++ new /\ count is_power new = 0%nat) ->
  Forall (fun p => fresh cfg p \/ p = Ret locked_error) (tasks sys) ->
  _manual_lock (shared (do_tick env cfg t sys)) = true /\
  (exists new, trace (shared (do_tick env cfg t sys)) = trace s0 ++ new /\
               count is_power new = 0%nat) /\
  Forall (fun p => fresh cfg p \/ p = Ret locked_error) (tasks (do_tick env cfg t sys)).
Proof.
  intros Ht Hm Htr HF. destruct t as [target_os quiet | i | locked]; cbn [do_tick].
  - cbn. split; [exact Hm |]. split; [exact Htr |].
    apply Forall_app. split; [exact HF |]. repeat constructor. by exists target_os, quiet.
  - destruct (tasks sys !! i) as [p |] eqn:Hi; [| done].
    assert (Hrun : run_slice env true p (shared sys) = (Ret locked_error, shared sys)).
    { destruct (Forall_lookup_1 _ _ _ _ HF Hi) as [(target_os & quiet & ->) | ->].
      - by rewrite run_slice_fresh, Hm.
      - reflexivity. }
    rewrite Hrun. cbn. split; [exact Hm |]. split; [exact Htr |].
    apply Forall_insert; [exact HF | by right].
  - destruct locked; [| done]. cbn [shared tasks].
    destruct (harmless_uses env _ (uses_locked_set_lock cfg) (shared sys) Hm)
      as (Hm' & n2 & Ht2 & Hc2).
    split; [exact Hm' |]. split; [| exact HF].
    destruct Htr as (n1 & Ht1 & Hc1). exists (n1 ++ n2).
    rewrite Ht2, Ht1, app_assoc, count_app. split; [reflexivity | lia].
Qed.

(** X18.  While the manual lock is set, calls of [perform_switch] do
    nothing in whatever order the event loop runs them: as long as the
    lock is not opened, every task that got a turn has ended with the
    result [System is manually locked.], no power action was issued,
    and the lock is still set. *)
Theorem locked_loop_rejects_every_switch (env : Env) (cfg : Config) (ts : list tick)
    (s : State) :
  _manual_lock s = true ->
  Forall (fun t => t <> SetLock false) ts ->
  let sys := run_ticks env cfg ts (no_tasks s) in
  _manual_lock (shared sys) = true /\
  count is_power (events_since s (shared sys)) = 0%nat /\
  Forall (fun p => fresh cfg p \/ p = Ret locked_error) (tasks sys).
Proof.
  intros Hm HF. cbv zeta.
  assert (H : forall sys,
            _manual_lock (shared sys) = true ->
            (exists new, trace (shared sys) = trace s ++ new /\ count is_power new = 0%nat) ->
            Forall (fun p => fresh cfg p \/ p = Ret locked_error) (tasks sys) ->
            let sys' := run_ticks env cfg ts sys in
            _manual_lock (shared sys') = true /\
            (exists new, trace (shared sys') = trace s ++ new /\
                         count is_power new = 0%nat) /\
            Forall (fun p => fresh cfg p \/ p = Ret locked_error) (tasks sys')).
  { induction HF as [| t ts Ht _ IH]; intros sys H1 H2 H3; cbn [run_ticks]; [done |].
    destruct (locked_tick env cfg s t sys Ht H1 H2 H3) as (H1' & H2' & H3').
    by apply IH. }
  destruct (H (no_tasks s) Hm) as (H1 & (new & Ht & Hc) & H3).
  - exists []. by rewrite app_nil_r.
  - constructor.
  - split; [exact H1 |]. split; [| exact H3].
    unfold events_since. by rewrite Ht, drop_app_length.
Qed.

Lemma locked_loop_rejects_every_switch_witness :
  let sys := run_ticks Examples.calm Examples.cfg
               [Spawn "windows" false; Spawn "linux" true; Resume 1; SetLock true; Resume 0]
               (no_tasks Examples.locked_state) in
  tasks sys = [Ret locked_error; Ret locked_error] /\
  count is_power (events_since Examples.locked_state (shared sys)) = 0%nat.
Proof.
  cbv zeta. split; [vm_compute; reflexivity |].
  apply (locked_loop_rejects_every_switch Examples.calm Examples.cfg
           [Spawn "windows" false; Spawn "linux" true; Resume 1; SetLock true; Resume 0]
           Examples.locked_state).
  - reflexivity.
  - repeat constructor; discriminate.
Defined.

(** ** Runs of the examples *)

Lemma wait_for_shutdown_polls_witness :
  (exists new,
     exec Examples.calm (_wait_for_shutdown Examples.cfg 100 3) Examples.idle
       = (Returned false, extend new Examples.idle) /\
     count is_sleep new = 3%nat) /\
  exec Examples.calm (_wait_for_shutdown Examples.cfg 100 0) Examples.idle
    = (Returned false, Examples.idle).
Proof.
  split.
  - destruct (wait_for_shutdown_polls Examples.calm Examples.cfg 100 3 Examples.idle)
      as (b & new & He & _ & _ & _ & _ & _ & _ & Hfull & _).
    assert (Hb : b = false).
    { apply (f_equal fst) in He. vm_compute in He. by injection He. }
    subst b. exists new. split; [exact He | exact (Hfull eq_refl)].
  - destruct (wait_for_shutdown_polls Examples.calm Examples.cfg 100 0 Examples.idle)
      as (b & new & He & _ & _ & _ & _ & _ & _ & _ & Hzero).
    destruct Hzero as [-> ->]; [lia |]. exact He.
Defined.

Lemma force_stop_is_last_resort_witness :
  let new := events_since Examples.idle
               (exec Examples.calm (perform_switch Examples.cfg "windows" false)
                  Examples.idle).2 in
  count (is_post stop) new = 1%nat /\ count is_poll_sleep new = 180%nat.
Proof.
  cbv zeta.
  assert (Hstop : count (is_post stop)
                    (events_since Examples.idle
                       (exec Examples.calm (perform_switch Examples.cfg "windows" false)
                          Examples.idle).2) = 1%nat)
    by (vm_compute; reflexivity).
  split; [exact Hstop |].
  destruct (force_stop_is_last_resort Examples.calm Examples.cfg "windows" false
              Examples.idle) as (_ & _ & Hfull).
  exact (Hfull Hstop).
Defined.

Lemma progress_edits_own_message_witness :
  let new := events_since Examples.idle
               (exec Scenarios.obedient (perform_switch Examples.cfg "windows" false)
                  Examples.idle).2 in
  let txt := "🔄 <b>Switching to Windows...</b>" +:+ LF +:+ "🛑 Shutting down Linux..." in
  EEditMessageText txt 42 7 (inr tt) ∈ new /\
  ESendMessage 42 (init_text "windows") (inr {| message_id := 7 |}) ∈ new.
Proof.
  cbv zeta.
  assert (Hin : EEditMessageText
                  ("🔄 <b>Switching to Windows...</b>" +:+ LF +:+ "🛑 Shutting down Linux...")
                  42 7 (inr tt)
                ∈ events_since Examples.idle
                    (exec Scenarios.obedient (perform_switch Examples.cfg "windows" false)
                       Examples.idle).2).
  { apply (list_elem_of_lookup_2 _ 3%nat). vm_compute. reflexivity. }
  split; [exact Hin |].
  destruct (progress_edits_own_message Scenarios.obedient Examples.cfg "windows" false
              Examples.idle) as [_ Hedit].
  destruct (Hedit _ _ _ _ Hin) as (_ & [mid] & Hm & Hsent).
  cbn in Hm. subst mid. exact Hsent.
Defined.

Lemma perform_switch_skips_running_target_witness :
  exists s',
    exec Examples.calm (perform_switch Examples.cfg "linux" false) Examples.idle
      = (Returned (already_running "linux"), s') /\
    count is_bot_call (events_since Examples.idle s') = 1%nat.
Proof.
  destruct (perform_switch_skips_running_target Examples.calm Examples.cfg "linux" false
              Examples.idle eq_refl eq_refl eq_refl
              (or_intror (ex_intro _ {| message_id := 7 |} eq_refl)))
    as (o & s' & He & -> & _ & Hbot).
  exists s'. split; [exact He | exact Hbot].
Defined.
